(** * xESMF frontend: a shallow embedding of [xesmf/frontend.py]

    The development follows the Python module top to bottom:
    - [py]: the fragment of Python the frontend relies on (hashable values
      used as dimension names, exceptions, [str.format], tuple slicing);
    - [np]: numpy arrays as a shape and a row-major buffer, with [meshgrid]
      and [.T];
    - [xr]: the part of xarray the frontend touches (datasets, labeled arrays,
      coordinate assignment);
    - the external collaborators ([backend.py], [smm.py]) as an interface;
    - the frontend itself: [get_latlon_name], [as_2d_mesh], [ds_to_ESMFgrid]
      and the methods of [Regridder];
    - the properties of the frontend. *)

From Stdlib Require Import Ascii.
From stdpp Require Import base gmap list strings pretty.

(** ** Python *)

Module py.

(** Hashable values that occur as dimension names and as name arguments:
    [None], a [str], or a tuple of such values. *)
Inductive value :=
| None_
| Str (s : string)
| Tuple (items : list value).

Fixpoint value_eqb (a b : value) {struct a} : bool :=
  match a, b with
  | None_, None_ => true
  | Str s, Str t => bool_decide (s = t)
  | Tuple xs, Tuple ys =>
      (fix go (xs ys : list value) {struct xs} : bool :=
         match xs, ys with
         | [], [] => true
         | x :: xs', y :: ys' => value_eqb x y && go xs' ys'
         | _, _ => false
         end) xs ys
  | _, _ => false
  end.

(** Induction over values, through the items of a tuple. *)
Fixpoint value_induction (P : value → Prop) (HNone : P None_)
    (HStr : ∀ s, P (Str s)) (HTuple : ∀ items, Forall P items → P (Tuple items))
    (v : value) {struct v} : P v :=
  match v with
  | None_ => HNone
  | Str s => HStr s
  | Tuple items =>
      HTuple items
        ((fix go (l : list value) : Forall P l :=
            match l with
            | [] => @List.Forall_nil _ P
            | x :: l' =>
                @List.Forall_cons _ P x l'
                  (value_induction P HNone HStr HTuple x) (go l')
            end) items)
  end.

(** [s.split('.', 1)] for a string with a dot: the text before the first
    dot and the text after it. *)
Fixpoint split_dot (s : string) : option (string * string) :=
  match s with
  | EmptyString => None
  | String c rest =>
      if Ascii.eqb c "."%char then Some (EmptyString, rest)
      else
        match split_dot rest with
        | Some (before, after) => Some (String c before, after)
        | None => None
        end
  end.

(** A name argument ([None] or a string) seen as a value. *)
Definition of_name (n : option string) : value :=
  match n with Some s => Str s | None => None_ end.

(** Exceptions raised by the frontend, by Python itself, and by the
    libraries it calls. [Foreign] stands for any exception of the external
    collaborators. *)
Inductive exn :=
| ValueError (msg : string)
| AssertionError (msg : string)
| AttributeError (msg : string)
| KeyError (key : value)
| IndexError (msg : string)
| TypeError (msg : string)
| UnboundLocalError (var : string)
| NotImplementedError (msg : string)
| OSError (msg : string)
| Foreign (msg : string).

Definition is_ValueError (e : exn) : bool :=
  match e with ValueError _ => true | _ => false end.

(** A computation that returns or raises. *)
Definition result (A : Type) : Type := (exn + A)%type.

#[global] Instance result_ret : MRet result := λ A x, inr x.
#[global] Instance result_bind : MBind result := λ A B f r,
  match r with inl e => inl e | inr x => f x end.
#[global] Instance result_fmap : FMap result := λ A B f r,
  match r with inl e => inl e | inr x => inr (f x) end.

(** [str(n)] for a non-negative [int]. *)
Definition str_int (n : nat) : string := pretty n.

(** [str(t)] for a tuple whose items are already rendered. *)
Definition str_tuple (items : list string) : string :=
  match items with
  | [] => "()"
  | [x] => "(" +:+ x +:+ ",)"
  | _ => "(" +:+ String.concat ", " items +:+ ")"
  end.

(** [t[-2:]] and [t[0:-2]] on a tuple. *)
Definition last_two {A} (t : list A) : list A := drop (length t - 2) t.
Definition but_last_two {A} (t : list A) : list A := take (length t - 2) t.

(** [s.endswith(suffix)] *)
Definition endswith (s suffix : string) : bool :=
  bool_decide (String.list_ascii_of_string suffix
                 `suffix_of` String.list_ascii_of_string s).

(** *** [str.format] with positional fields

    Replacement fields are [{}] (automatic numbering) and [{N}] (explicit
    index); [{{] and [}}] are escapes. The arguments are already rendered
    with [str]. *)

Inductive numbering := Unset | Auto (next : nat) | Manual.

Fixpoint parse_index (digits : string) (acc : nat) : option nat :=
  match digits with
  | "" => Some acc
  | String c rest =>
      match Ascii.is_nat c with
      | Some d => parse_index rest (10 * acc + d)
      | None => None
      end
  end.

Definition field_index (field : string) (num : numbering)
  : result (nat * numbering) :=
  match field with
  | "" =>
      match num with
      | Manual => inl (ValueError
          "cannot switch from manual field specification to automatic field numbering")
      | Unset => inr (0, Auto 1)
      | Auto n => inr (n, Auto (S n))
      end
  | _ =>
      match parse_index field 0 with
      | None => inl (KeyError (Str field))
      | Some i =>
          match num with
          | Auto _ => inl (ValueError
              "cannot switch from automatic field numbering to manual field specification")
          | _ => inr (i, Manual)
          end
      end
  end.

Fixpoint format_go (tmpl : string) (args : list string) (num : numbering)
    (field : option string) {struct tmpl} : result string :=
  match tmpl with
  | "" =>
      match field with
      | None => inr ""
      | Some _ => inl (ValueError "expected '}' before end of string")
      end
  | String c rest =>
      match field with
      | None =>
          if Ascii.eqb c "{" then
            match rest with
            | String "{" rest' => String "{"%char <$> format_go rest' args num None
            | _ => format_go rest args num (Some "")
            end
          else if Ascii.eqb c "}" then
            match rest with
            | String "}" rest' => String "}"%char <$> format_go rest' args num None
            | _ => inl (ValueError "Single '}' encountered in format string")
            end
          else String c <$> format_go rest args num None
      | Some f =>
          if Ascii.eqb c "}" then
            '(i, num') ← field_index f num;
            match args !! i with
            | None => inl (IndexError
                "Replacement index out of range for positional args tuple")
            | Some a => String.app a <$> format_go rest args num' None
            end
          else format_go rest args num (Some (f +:+ String c ""))
      end
  end.

Definition format (tmpl : string) (args : list string) : result string :=
  format_go tmpl args Unset None.

End py.

(** ** numpy *)

(** The element type of the arrays ([float64] in practice) with the
    operations a sparse product needs, and the conversion that builds default
    integer indexes. Nothing below depends on how they compute. *)
Class Scalar := {
  V : Type;
  v_zero : V;
  v_add : V → V → V;
  v_mul : V → V → V;
  v_of_nat : nat → V;
}.

Module np.
Section with_scalar.
Context `{Scalar}.

(** An [ndarray]: its [shape] and its elements in C (row-major) order. *)
Record ndarray := mk_ndarray { shape : list nat; data : list V }.

Definition ndim (a : ndarray) : nat := length (shape a).
Definition prod (s : list nat) : nat := foldr Nat.mul 1 s.
Definition size (a : ndarray) : nat := prod (shape a).

(** The buffer holds exactly one element per index. *)
Definition well_formed (a : ndarray) : Prop := length (data a) = size a.

Definition array1d (l : list V) : ndarray := mk_ndarray [length l] l.
Definition array2d (ny nx : nat) (l : list V) : ndarray := mk_ndarray [ny; nx] l.

Definition item (l : list V) (i : nat) : V := default v_zero (l !! i).

(** Row [i] and column [j] of a 2-D array. *)
Definition row (a : ndarray) (i : nat) : list V :=
  match shape a with
  | [_; nx] => take nx (drop (i * nx) (data a))
  | _ => []
  end.
Definition column (a : ndarray) (j : nat) : list V :=
  match shape a with
  | [ny; nx] => (λ i, item (data a) (i * nx + j)) <$> seq 0 ny
  | _ => []
  end.

(** [np.meshgrid(x, y)] with the default ['xy'] indexing: both results have
    shape [(y.size, x.size)]; the first repeats [x] along the rows, the
    second repeats each element of [y] along its row. *)
Definition meshgrid (x y : ndarray) : ndarray * ndarray :=
  let nx := size x in
  let ny := size y in
  (mk_ndarray [ny; nx] (mjoin (replicate ny (take nx (data x)))),
   mk_ndarray [ny; nx] (take ny (data y) ≫= replicate nx)).

(** [a.T]: the axes reversed. [transpose_rows n m l] reads [l] as [n] rows
    of [m] elements and lists it column by column. *)
Definition transpose_rows (n m : nat) (l : list V) : list V :=
  seq 0 m ≫= λ k, (λ i, item l (i * m + k)) <$> seq 0 n.

Fixpoint T_data (s : list nat) (l : list V) : list V :=
  match s with
  | [] => l
  | n :: rest =>
      let m := prod rest in
      transpose_rows n m
        (seq 0 n ≫= λ i, T_data rest (take m (drop (i * m) l)))
  end.

Definition T (a : ndarray) : ndarray :=
  mk_ndarray (reverse (shape a)) (T_data (shape a) (data a)).

End with_scalar.
End np.

(** ** xarray *)

Module xr.
Section with_scalar.
Context `{Scalar}.

(** A variable of a [Dataset]: named dimensions and values. *)
Record variable := mk_variable { var_dims : list string; var_values : np.ndarray }.

(** A coordinate of a [DataArray], kept as a variable. *)
Record coordinate := mk_coordinate { cdims : list py.value; cvalues : np.ndarray }.

(** Coordinates are kept in assignment order, one entry per name. *)
Fixpoint lookup (key : py.value) (cs : list (py.value * coordinate))
  : option coordinate :=
  match cs with
  | [] => None
  | (k, c) :: cs' => if py.value_eqb k key then Some c else lookup key cs'
  end.

Fixpoint assign (key : py.value) (c : coordinate)
    (cs : list (py.value * coordinate)) : list (py.value * coordinate) :=
  match cs with
  | [] => [(key, c)]
  | (k, c') :: cs' =>
      if py.value_eqb k key then (k, c) :: cs' else (k, c') :: assign key c cs'
  end.

Record DataArray := mk_DataArray {
  values : np.ndarray;
  dims : list py.value;
  name : py.value;
  coords : list (py.value * coordinate);
  attrs : gmap string string;
}.

(** The extent of dimension [d] in [dict(zip(dims, shape))]: of two axes
    of one name the last counts. *)
Fixpoint size_along (d : py.value) (ds : list py.value) (sh : list nat)
  : option nat :=
  match ds, sh with
  | d' :: ds', n :: sh' =>
      match size_along d ds' sh' with
      | Some m => Some m
      | None => if py.value_eqb d' d then Some n else None
      end
  | _, _ => None
  end.

Definition dim_size (da : DataArray) (d : py.value) : option nat :=
  size_along d (dims da) (np.shape (values da)).

Definition default_dims (n : nat) : list py.value :=
  (λ i, py.Str ("dim_" +:+ pretty i)) <$> seq 0 n.

(** [xr.DataArray(data, dims=dims, name=name)]: one name per axis. A single
    string names the only axis of a 1-D array. *)
Definition as_dims (dims : py.value) (ndim : nat) : list py.value :=
  match dims with
  | py.Tuple l => l
  | py.Str s => [py.Str s]
  | py.None_ => default_dims ndim
  end.

Definition DataArray_new (data : np.ndarray) (dims : py.value) (name : py.value)
  : py.result DataArray :=
  let names := as_dims dims (np.ndim data) in
  if decide (length names = np.ndim data)
  then inr (mk_DataArray data names name [] ∅)
  else inl (py.ValueError "different number of dimensions on data and dims").

(** [set(ds) <= set(allowed)] *)
Definition within (ds allowed : list py.value) : bool :=
  forallb (λ d, existsb (py.value_eqb d) allowed) ds.

(** The coordinates that go with a variable taken out of [da]: all of them
    when the variable lies on the very dimensions of [da], else those whose
    dimensions are among its own. A scalar coordinate always goes with
    it. *)
Definition carried (da : DataArray) (ds : list py.value)
  : list (py.value * coordinate) :=
  if py.value_eqb (py.Tuple ds) (py.Tuple (dims da)) then coords da
  else filter (λ kc, within (cdims kc.2) ds = true) (coords da).

(** [da.coords[key]]: the coordinate of that name, or, for a dimension
    without one, the default integer index along it; in both cases with the
    coordinates of [da] that go with it. The last case needs a key that is
    no dimension of [da]; [regrid_dataarray] asks for dimensions only. The
    attributes of coordinates are not modelled. *)
Definition coords_getitem (da : DataArray) (key : py.value) : py.result DataArray :=
  match lookup key (coords da) with
  | Some c => inr (mk_DataArray (cvalues c) (cdims c) key (carried da (cdims c)) ∅)
  | None =>
      match dim_size da key with
      | Some n =>
          inr (mk_DataArray (np.array1d (v_of_nat <$> seq 0 n)) [key] key
                 (carried da [key]) ∅)
      | None => inl (py.KeyError key)
      end
  end.

(** The extent of dimension [d] in a table of sizes. *)
Fixpoint size_of (d : py.value) (sizes : list (py.value * nat)) : option nat :=
  match sizes with
  | [] => None
  | (d', n) :: rest => if py.value_eqb d' d then Some n else size_of d rest
  end.

(** One variable's turn in [calculate_dimensions]: each of its dimensions
    must not be the name of a scalar variable, and must have the size it
    was first seen with. *)
Fixpoint add_dimensions (scalars ds : list py.value) (sh : list nat)
    (sizes : list (py.value * nat)) : py.result (list (py.value * nat)) :=
  match ds, sh with
  | d :: ds', n :: sh' =>
      if existsb (py.value_eqb d) scalars
      then inl (py.ValueError "dimension already exists as a scalar variable")
      else
        match size_of d sizes with
        | None => add_dimensions scalars ds' sh' (sizes ++ [(d, n)])
        | Some n' =>
            if decide (n' = n) then add_dimensions scalars ds' sh' sizes
            else inl (py.ValueError "conflicting sizes for dimension")
        end
  | _, _ => inr sizes
  end.

(** [calculate_dimensions(variables)] over the variables in order. *)
Definition calculate_dimensions (vars : list (py.value * coordinate))
  : py.result (list (py.value * nat)) :=
  let scalars := (filter (λ kc, cdims kc.2 = []) vars).*1 in
  foldl (λ acc kc,
           sizes ← acc;
           add_dimensions scalars (cdims kc.2) (np.shape (cvalues kc.2)) sizes)
        (inr []) vars.

(** The check made when the coordinates of [da] are replaced by [cs]: the
    sizes of the coordinates and of the array itself must agree, and every
    dimension must be one of the array. *)
Definition update_check (da : DataArray) (cs : list (py.value * coordinate))
  : py.result unit :=
  sizes ← calculate_dimensions
            (cs ++ [(py.Str "<this-array>", mk_coordinate (dims da) (values da))]);
  if within sizes.*1 (dims da) then inr ()
  else inl (py.ValueError
    "cannot add coordinates with new dimensions to a DataArray").

(** [da.coords[key] = c]. A coordinate named like one of its own axes must
    be 1-D. The coordinates that [c] carries are merged in with it and, like
    it, replace a coordinate of the same name; [c] itself wins over a
    carried coordinate called [key]. Unless [key] is an index of [da],
    xarray first aligns [c] with the indexes of [da], which changes [c] only
    if it carries an index that [da] has too, with other labels. The arrays
    that [regrid_dataarray] assigns carry no index but the one called
    [key], provided the dimension coordinates of its input lie on their own
    dimension; the alignment is not modelled. *)
Definition coords_setitem (da : DataArray) (key : py.value) (c : DataArray)
  : py.result DataArray :=
  if bool_decide (Exists (λ d, py.value_eqb d key = true) (dims c))
     && negb (bool_decide (np.ndim (values c) = 1))
  then inl (py.ValueError
    "has more than 1-dimension and the same name as one of its dimensions")
  else
    let news :=
      filter (λ kc, py.value_eqb kc.1 key = false) (coords c)
        ++ [(key, mk_coordinate (dims c) (values c))] in
    let merged := foldl (λ cs kc, assign kc.1 kc.2 cs) (coords da) news in
    _ ← update_check da merged;
    mret (mk_DataArray (values da) (dims da) (name da) merged (attrs da)).

(** The extent of dimension [k] of a dataset, read off the first variable
    that has it; in a dataset every variable gives the same. *)
Definition var_dim_size (k : string) (v : variable) : option nat :=
  size_along (py.Str k) (py.Str <$> var_dims v) (np.shape (var_values v)).
Definition dataset_dim_size (vars : gmap string variable) (k : string)
  : option nat :=
  head (omap (λ kv, var_dim_size k kv.2) (map_to_list vars)).

(** [da.attrs[key] = v]. *)
Definition attrs_setitem (da : DataArray) (key v : string) : DataArray :=
  mk_DataArray (values da) (dims da) (name da) (coords da) (<[key := v]> (attrs da)).

End with_scalar.
End xr.

(** ** The file system *)

Module os.

(** A path names a regular file (with its content) or a directory. *)
Inductive node := File (content : string) | Directory.

Abbreviation filesystem := (gmap string node).

(** [os.path.exists(path)] *)
Definition path_exists (fs : filesystem) (path : string) : bool :=
  bool_decide (is_Some (fs !! path)).

(** [os.remove(path)]: removes a regular file, raises otherwise. *)
Definition remove (fs : filesystem) (path : string) : py.result filesystem :=
  match fs !! path with
  | Some (File _) => inr (delete path fs)
  | Some Directory => inl (py.OSError "Is a directory")
  | None => inl (py.OSError "No such file or directory")
  end.

End os.

(** ** The weight-file codec, [smm.py] *)

Module smm.
Section with_scalar.
Context `{Scalar}.

(** Modelled from the spec: the source of [smm.py] is not available. The
    spec describes the operator that [read_weights] loads as "a sparse
    operator mapping a length-N_in flattened source field to a length-N_out
    flattened destination field"; it is kept as its non-zero entries
    [(row, column, weight)]. *)
Record SparseOperator := mk_SparseOperator {
  n_out : nat;
  n_in : nat;
  entries : list (nat * nat * V);
}.

(** One destination field from one flattened source field. *)
Definition dot (A : SparseOperator) (n : nat) (x : list V) : list V :=
  (λ r, foldr v_add v_zero
          ((λ e, v_mul e.2 (np.item x e.1.2))
             <$> filter (λ e, e.1.1 = r) (entries A)))
    <$> seq 0 n.

(** Modelled from the spec: [apply_weights] of [smm.py], whose source is not
    available. The spec says "the codec performs the sparse operator
    multiply per leading-axis slice and returns an array whose trailing two
    axes are now (Ny_out, Nx_out) and whose leading axes are unchanged in
    shape and order". *)
Definition apply_weights (A : SparseOperator) (indata : np.ndarray)
    (Ny_out Nx_out : nat) : np.ndarray :=
  let extra_shape := py.but_last_two (np.shape indata) in
  let block := np.prod (py.last_two (np.shape indata)) in
  np.mk_ndarray (extra_shape ++ [Ny_out; Nx_out])
    (seq 0 (np.prod extra_shape) ≫= λ k,
       dot A (Ny_out * Nx_out) (take block (drop (k * block) (np.data indata)))).

End with_scalar.
End smm.

(** ** The external collaborators

    [backend.py] wraps the ESMF library; [read_weights] belongs to [smm.py].
    Their sources are not part of the frontend: they are taken as an
    interface, and every property below holds for any implementation.
    [esmf_regrid_build] writes the weight file, so it transforms the file
    system; [read_weights] reads it. What xarray makes of a dotted key such
    as [ds['time.year']], an attribute of the variable named before the
    dot, is taken as an interface as well ([virtual_variable]). *)

Class Collaborators `{Scalar} := {
  Grid : Type;
  Regrid : Type;
  esmf_grid : np.ndarray → np.ndarray → option bool → py.result Grid;
  add_corner : Grid → np.ndarray → np.ndarray → py.result Grid;
  esmf_regrid_build :
    Grid → Grid → string → string → os.filesystem → os.filesystem * py.result Regrid;
  esmf_regrid_finalize : Regrid → py.result unit;
  read_weights : string → nat → nat → os.filesystem → py.result smm.SparseOperator;
  virtual_variable : xr.variable → string → py.result xr.variable;
}.

(** ** Effects: file system, standard output, calls to the collaborators *)

Section effects.
Context `{Collaborators}.

Inductive call :=
| call_esmf_grid (lonT latT : np.ndarray) (periodic : option bool)
| call_add_corner (grid : Grid) (lon_bT lat_bT : np.ndarray)
| call_esmf_regrid_build (grid_in grid_out : Grid) (method filename : string)
| call_esmf_regrid_finalize (regrid : Regrid)
| call_read_weights (filename : string) (N_in N_out : nat)
| call_apply_weights (A : smm.SparseOperator) (indata : np.ndarray)
    (Ny_out Nx_out : nat).

Definition is_build (c : call) : bool :=
  match c with call_esmf_regrid_build _ _ _ _ => true | _ => false end.
Definition is_apply (c : call) : bool :=
  match c with call_apply_weights _ _ _ _ => true | _ => false end.

Record world := mk_world {
  fs : os.filesystem;
  stdout : list string;
  calls : list call;
}.

(** A statement sequence: it transforms the world and returns or raises. *)
Definition M (A : Type) : Type := world → world * py.result A.

#[global] Instance M_ret : MRet M := λ A x w, (w, inr x).
#[global] Instance M_bind : MBind M := λ A B f m w,
  match m w with
  | (w', inl e) => (w', inl e)
  | (w', inr x) => f x w'
  end.

Definition raise {A} (e : py.exn) : M A := λ w, (w, inl e).
Definition lift {A} (r : py.result A) : M A := λ w, (w, r).

(** [print(a, b, ...)]: the arguments joined by a space, one entry per
    call. *)
Definition print (args : list string) : M unit := λ w,
  (mk_world (fs w) (stdout w ++ [String.concat " " args]) (calls w), inr ()).

(** [try: body / except <catches>: handler] *)
Definition try_except {A} (body : M A) (catches : py.exn → bool) (handler : M A)
  : M A := λ w,
  match body w with
  | (w', inl e) => if catches e then handler w' else (w', inl e)
  | r => r
  end.

(** A call to a collaborator that leaves the file system alone. *)
Definition invoke {A} (c : call) (r : py.result A) : M A := λ w,
  (mk_world (fs w) (stdout w) (calls w ++ [c]), r).

(** A call to a collaborator that may write to the file system. *)
Definition invoke_fs {A} (c : call)
    (f : os.filesystem → os.filesystem * py.result A) : M A := λ w,
  let '(fs', r) := f (fs w) in
  (mk_world fs' (stdout w) (calls w ++ [c]), r).

(** A call to a collaborator that reads the file system. *)
Definition invoke_read {A} (c : call) (f : os.filesystem → py.result A) : M A :=
  λ w, (mk_world (fs w) (stdout w) (calls w ++ [c]), f (fs w)).

Definition os_path_exists (path : string) : M bool := λ w,
  (w, inr (os.path_exists (fs w) path)).

Definition os_remove (path : string) : M unit := λ w,
  match os.remove (fs w) path with
  | inl e => (w, inl e)
  | inr fs' => (mk_world fs' (stdout w) (calls w), inr ())
  end.

(** Reading an attribute that may not have been assigned yet. *)
Definition attr {A} (name : string) (a : option A) : M A :=
  match a with
  | Some x => mret x
  | None => raise (py.AttributeError
      ("'Regridder' object has no attribute '" +:+ name +:+ "'"))
  end.

(** [for x in xs: s = body(s, x)] *)
Fixpoint for_each {A S} (xs : list A) (body : S → A → M S) (s : S) : M S :=
  match xs with
  | [] => mret s
  | x :: xs' => s' ← body s x; for_each xs' body s'
  end.

End effects.

(** ** [frontend.py] *)

(** What [ds[name]] evaluates to, as far as the frontend looks at it
    ([np.asarray] and [.dims]): a labeled array, or a plain array. *)
Inductive entry `{Scalar} :=
| entry_DataArray (v : xr.variable)
| entry_ndarray (a : np.ndarray).

(** The grid descriptions the frontend is documented to accept: an xarray
    [Dataset], or a dictionary, whose values may be plain or labeled
    arrays. *)
Inductive GridDescription `{Scalar} :=
| Dataset (variables : gmap string xr.variable)
| Dict (items : gmap string entry).

Section frontend.
Context `{Collaborators}.

(** [ds.variables] *)
Definition variables_of (ds : GridDescription)
  : py.result (gmap string xr.variable) :=
  match ds with
  | Dataset vars => inr vars
  | Dict _ => inl (py.AttributeError "'dict' object has no attribute 'variables'")
  end.

(** [key in mapping] *)
Definition contains {X} (key : string) (m : gmap string X) : bool :=
  bool_decide (is_Some (m !! key)).

(** [ds[k]] on a dataset: the variable of that name; else, for a dimension
    without a variable, the default integer index along it; else, for a
    dotted key, the virtual variable of the variable named before the
    dot. *)
Definition dataset_getitem (vars : gmap string xr.variable) (k : string)
  : py.result xr.variable :=
  match vars !! k with
  | Some v => inr v
  | None =>
      match xr.dataset_dim_size vars k with
      | Some n => inr (xr.mk_variable [k] (np.array1d (v_of_nat <$> seq 0 n)))
      | None =>
          match py.split_dot k with
          | Some (ref_name, var_name) =>
              match vars !! ref_name with
              | Some ref => virtual_variable ref var_name
              | None => inl (py.KeyError (py.Str ref_name))
              end
          | None => inl (py.KeyError (py.Str k))
          end
      end
  end.

(** [ds[name]] *)
Definition getitem (ds : GridDescription) (name : option string)
  : py.result entry :=
  match name with
  | None => inl (py.KeyError py.None_)
  | Some k =>
      match ds with
      | Dataset vars => entry_DataArray <$> dataset_getitem vars k
      | Dict items =>
          match items !! k with
          | Some e => inr e
          | None => inl (py.KeyError (py.Str k))
          end
      end
  end.

(** [np.asarray(e)] *)
Definition asarray (e : entry) : np.ndarray :=
  match e with
  | entry_DataArray v => xr.var_values v
  | entry_ndarray a => a
  end.

(** [e.dims] *)
Definition dims_of (e : entry) : py.result py.value :=
  match e with
  | entry_DataArray v => inr (py.Tuple (py.Str <$> xr.var_dims v))
  | entry_ndarray _ =>
      inl (py.AttributeError "'numpy.ndarray' object has no attribute 'dims'")
  end.

Definition convention_message : string :=
  "Must have coordinates compliant with NETCDF COARDS or CF conventions".

(** [get_latlon_name(ds, boundary=False)]. The [try] block binds the locals
    [lat_name] and [lon_name] together, so after it they are either both
    bound ([Some]) or both unbound ([None]). *)
Definition get_latlon_name (ds : GridDescription) (boundary : bool)
  : M (string * string) :=
  locals ←
    (if boundary then
       try_except
         (vars ← lift (variables_of ds);
          if contains "lat_b" vars then mret (Some ("lat_b", "lon_b"))
          else
            vars ← lift (variables_of ds);
            if contains "latitude_b" vars
            then mret (Some ("latitude_b", "longitude_b"))
            else raise (py.ValueError ""))
         py.is_ValueError
         (print [convention_message];; mret None)
     else
       try_except
         (vars ← lift (variables_of ds);
          if contains "lat" vars then mret (Some ("lat", "lon"))
          else
            vars ← lift (variables_of ds);
            if contains "latitude" vars
            then mret (Some ("latitude", "longitude"))
            else raise (py.ValueError ""))
         py.is_ValueError
         (print [convention_message];; mret None));
  match locals with
  | Some (lat_name, lon_name) => mret (lat_name, lon_name)
  | None => raise (py.UnboundLocalError "lat_name")
  end.

(** [as_2d_mesh(lon, lat)] *)
Definition as_2d_mesh (lon lat : np.ndarray) : py.result (np.ndarray * np.ndarray) :=
  if decide ((np.ndim lon, np.ndim lat) = (2, 2)) then
    if decide (np.shape lon = np.shape lat) then inr (lon, lat)
    else inl (py.AssertionError "lon and lat should have same shape")
  else if decide ((np.ndim lon, np.ndim lat) = (1, 1)) then
    inr (np.meshgrid lon lat)
  else inl (py.ValueError "lon and lat should be both 1D or 2D").

(** [ds_to_ESMFgrid(ds, need_bounds, lat, lon, lat_b, lon_b, periodic)];
    the unused parameter [append] is left out. The two calls of
    [get_latlon_name] unpack its result as [(lon, lat)], as the source
    does. *)
Definition ds_to_ESMFgrid (ds : GridDescription) (need_bounds : bool)
    (lat lon lat_b lon_b : option string) (periodic : option bool)
  : M (Grid * list nat) :=
  '(lat_name, lon_name) ←
    (if bool_decide (lat = None) && bool_decide (lon = None) then
       '(lon_name, lat_name) ← get_latlon_name ds false;
       mret (Some lat_name, Some lon_name)
     else mret (lat, lon));
  lon ← lift (asarray <$> getitem ds lon_name);
  lat ← lift (asarray <$> getitem ds lat_name);
  '(lon, lat) ← lift (as_2d_mesh lon lat);
  grid ← invoke (call_esmf_grid (np.T lon) (np.T lat) periodic)
                (esmf_grid (np.T lon) (np.T lat) periodic);
  grid ←
    (if need_bounds then
       '(lat_b, lon_b) ←
         (if bool_decide (lat_b = None) && bool_decide (lon_b = None) then
            '(lon_b, lat_b) ← get_latlon_name ds true;
            mret (Some lat_b, Some lon_b)
          else mret (lat_b, lon_b));
       lon_b ← lift (asarray <$> getitem ds lon_b);
       lat_b ← lift (asarray <$> getitem ds lat_b);
       '(lon_b, lat_b) ← lift (as_2d_mesh lon_b lat_b);
       invoke (call_add_corner grid (np.T lon_b) (np.T lat_b))
              (add_corner grid (np.T lon_b) (np.T lat_b))
     else mret grid);
  mret (grid, np.shape lon).

End frontend.

(** What [Regridder.__call__] can be applied to, and returns. *)
Inductive array_like `{Scalar} :=
| numpy_array (a : np.ndarray)
| data_array (d : xr.DataArray)
| other_object.

Module Regridder.
Section methods.
Context `{Collaborators}.

(** The attributes of a [Regridder]. Those that [__init__] may leave
    unassigned, or assigns only after it has called a method on [self], are
    optional: [None] is an attribute that does not exist (yet). *)
Record t := mk {
  need_bounds : bool;
  method : string;
  periodic : bool;
  reuse_weights : bool;
  lat_name_in : option string;
  lon_name_in : option string;
  lat_b_name_in : option string;
  lon_b_name_in : option string;
  lat_name_out : option string;
  lon_name_out : option string;
  lat_b_name_out : option string;
  lon_b_name_out : option string;
  _grid_in : Grid;
  _grid_out : Grid;
  _lon_out : np.ndarray;
  _lat_out : np.ndarray;
  lon_dim : option py.value;
  lat_dim : option py.value;
  horiz_dims : option py.value;
  Ny_in : nat;
  Nx_in : nat;
  Ny_out : nat;
  Nx_out : nat;
  N_in : nat;
  N_out : nat;
  filename : option string;
  A : option smm.SparseOperator;
}.

(** [self.filename = v] and [self.A = v] *)
Definition set_filename (self : t) (v : string) : t :=
  mk (need_bounds self) (method self) (periodic self) (reuse_weights self)
     (lat_name_in self) (lon_name_in self) (lat_b_name_in self) (lon_b_name_in self)
     (lat_name_out self) (lon_name_out self) (lat_b_name_out self) (lon_b_name_out self)
     (_grid_in self) (_grid_out self) (_lon_out self) (_lat_out self)
     (lon_dim self) (lat_dim self) (horiz_dims self)
     (Ny_in self) (Nx_in self) (Ny_out self) (Nx_out self) (N_in self) (N_out self)
     (Some v) (A self).
Definition set_A (self : t) (v : smm.SparseOperator) : t :=
  mk (need_bounds self) (method self) (periodic self) (reuse_weights self)
     (lat_name_in self) (lon_name_in self) (lat_b_name_in self) (lon_b_name_in self)
     (lat_name_out self) (lon_name_out self) (lat_b_name_out self) (lon_b_name_out self)
     (_grid_in self) (_grid_out self) (_lon_out self) (_lat_out self)
     (lon_dim self) (lat_dim self) (horiz_dims self)
     (Ny_in self) (Nx_in self) (Ny_out self) (Nx_out self) (N_in self) (N_out self)
     (filename self) (Some v).

Definition newline : string := String "010"%char "".

(** [a, b = t] *)
Definition unpack2 (t : list nat) : py.result (nat * nat) :=
  match t with
  | [a; b] => inr (a, b)
  | _ => inl (py.ValueError "wrong number of values to unpack (expected 2)")
  end.

Definition _get_default_filename (self : t) : py.result string :=
  filename ← py.format "{0}_{1}x{2}_{3}x{4}"
    [method self; py.str_int (Ny_in self); py.str_int (Nx_in self);
     py.str_int (Ny_out self); py.str_int (Nx_out self)];
  if periodic self then mret (filename +:+ "_peri.nc")
  else mret (filename +:+ ".nc").

(** [_write_weight_file]. The first statement decides whether the method
    goes on to the weight generation ([true]) or returns ([false]). *)
Definition _write_weight_file (self : t) : M unit :=
  filename ← attr "filename" (filename self);
  present ← os_path_exists filename;
  generate ←
    (if present : bool then
       if reuse_weights self then
         msg ← lift (py.format "Reuse existing file: {}" [filename]);
         print [msg];;
         mret false
       else
         msg ← lift (py.format ("Overwrite existing file: {} " +:+ newline) [filename]);
         print [msg; "You can set reuse_weights=True to save computing time."];;
         os_remove filename;;
         mret true
     else
       msg ← lift (py.format "Create weight file: {}" [filename]);
       print [msg];;
       mret true);
  if generate : bool then
    regrid ← invoke_fs
      (call_esmf_regrid_build (_grid_in self) (_grid_out self) (method self) filename)
      (esmf_regrid_build (_grid_in self) (_grid_out self) (method self) filename);
    invoke (call_esmf_regrid_finalize regrid) (esmf_regrid_finalize regrid)
  else mret ().

Definition clean_weight_file (self : t) : M unit :=
  filename ← attr "filename" (filename self);
  present ← os_path_exists filename;
  if present : bool then
    msg ← lift (py.format "Remove file {}" [filename]);
    print [msg];;
    os_remove filename
  else
    msg ← lift (py.format "File {} is already removed." [filename]);
    print [msg].

(** The names of one pair of coordinates: looked up in the description
    unless the caller gave one of them. *)
Definition resolve_names (ds : GridDescription) (boundary : bool)
    (lat lon : option string) : M (option string * option string) :=
  if bool_decide (lat = None) && bool_decide (lon = None) then
    '(lat_name, lon_name) ← get_latlon_name ds boundary;
    mret (Some lat_name, Some lon_name)
  else mret (lat, lon).

Definition __init__ (ds_in ds_out : GridDescription) (method : string)
    (periodic : bool) (filename : option string) (reuse_weights : bool)
    (lat_in lon_in lat_b_in lon_b_in lat_out lon_out lat_b_out lon_b_out
       : option string) : M t :=
  (* record basic switches *)
  let '(need_bounds, periodic) :=
    if decide (method = "conservative") then (true, false)
    else (false, periodic) in
  (* get latitude and longitude names for ds_in and ds_out *)
  '(lat_name_in, lon_name_in) ← resolve_names ds_in false lat_in lon_in;
  '(lat_b_name_in, lon_b_name_in) ← resolve_names ds_in true lat_b_in lon_b_in;
  '(lat_name_out, lon_name_out) ← resolve_names ds_out false lat_out lon_out;
  '(lat_b_name_out, lon_b_name_out) ← resolve_names ds_out true lat_b_out lon_b_out;
  (* construct ESMF grid, with some shape checking *)
  '(_grid_in, shape_in) ←
    ds_to_ESMFgrid ds_in need_bounds lat_name_in lon_name_in
      lat_b_name_in lon_b_name_in (Some periodic);
  '(_grid_out, shape_out) ←
    ds_to_ESMFgrid ds_out need_bounds lat_name_out lon_name_out
      lat_b_name_out lon_b_name_out None;
  (* record output grid and metadata *)
  _lon_out ← lift (asarray <$> getitem ds_out lon_name_out);
  _lat_out ← lift (asarray <$> getitem ds_out lat_name_out);
  '(lon_dim, lat_dim, horiz_dims) ←
    (if decide (np.ndim _lon_out = 2) then
       d ← try_except
             (lift (getitem ds_out lon_name_out ≫= dims_of))
             (λ _, true)
             (mret (py.Tuple [py.Str "y"; py.Str "x"]));
       mret (Some d, Some d, Some d)
     else if decide (np.ndim _lon_out = 1) then
       '(lon_dim, lat_dim) ←
         try_except
           (lon_dim ← lift (getitem ds_out lon_name_out ≫= dims_of);
            lat_dim ← lift (getitem ds_out lat_name_out ≫= dims_of);
            mret (lon_dim, lat_dim))
           (λ _, true)
           (mret (py.of_name lon_name_out, py.of_name lat_name_out));
       mret (Some lon_dim, Some lat_dim, Some (py.Tuple [lat_dim; lon_dim]))
     else mret (None, None, None));
  (* get grid shape information *)
  '(Ny_in, Nx_in) ← lift (unpack2 shape_in);
  '(Ny_out, Nx_out) ← lift (unpack2 shape_out);
  let self :=
    mk need_bounds method periodic reuse_weights
       lat_name_in lon_name_in lat_b_name_in lon_b_name_in
       lat_name_out lon_name_out lat_b_name_out lon_b_name_out
       _grid_in _grid_out _lon_out _lat_out lon_dim lat_dim horiz_dims
       Ny_in Nx_in Ny_out Nx_out (Ny_in * Nx_in) (Ny_out * Nx_out)
       None None in
  name ←
    match filename with
    | None => lift (_get_default_filename self)
    | Some name => mret name
    end;
  let self := set_filename self name in
  (* get weight matrix *)
  _write_weight_file self;;
  weights ← invoke_read
    (call_read_weights name (N_in self) (N_out self))
    (read_weights name (N_in self) (N_out self));
  mret (set_A self weights).

(** [regrid_numpy]. The assertion message is only built when the check
    fails. *)
Definition regrid_numpy (self : t) (indata : np.ndarray) : M np.ndarray :=
  let shape_horiz := py.last_two (np.shape indata) in
  if decide (shape_horiz = [Ny_in self; Nx_in self]) then
    weights ← attr "A" (A self);
    invoke (call_apply_weights weights indata (Ny_out self) (Nx_out self))
           (inr (smm.apply_weights weights indata (Ny_out self) (Nx_out self)))
  else
    msg ← lift (py.format
      "The horizontal shape of input data is {}, different from that ofthe regridder {}!"
      [py.str_tuple (py.str_int <$> shape_horiz);
       py.str_tuple [py.str_int (Ny_in self); py.str_int (Nx_in self)]]);
    raise (py.AssertionError msg).

(** [extra_dims + self.horiz_dims] *)
Definition tuple_add (t : list py.value) (v : py.value) : py.result py.value :=
  match v with
  | py.Tuple l => inr (py.Tuple (t ++ l))
  | _ => inl (py.TypeError "can only concatenate tuple to tuple")
  end.

Definition regrid_dataarray (self : t) (dr_in : xr.DataArray) : M xr.DataArray :=
  (* apply regridding to pure numpy array *)
  outdata ← regrid_numpy self (xr.values dr_in);
  (* track metadata *)
  let varname := xr.name dr_in in
  let extra_dims := py.but_last_two (xr.dims dr_in) in
  horiz_dims ← attr "horiz_dims" (horiz_dims self);
  all_dims ← lift (tuple_add extra_dims horiz_dims);
  dr_out ← lift (xr.DataArray_new outdata all_dims varname);
  lon_dim ← attr "lon_dim" (lon_dim self);
  lon ← lift (xr.DataArray_new (_lon_out self) lon_dim py.None_);
  dr_out ← lift (xr.coords_setitem dr_out (py.of_name (lon_name_out self)) lon);
  lat_dim ← attr "lat_dim" (lat_dim self);
  lat ← lift (xr.DataArray_new (_lat_out self) lat_dim py.None_);
  dr_out ← lift (xr.coords_setitem dr_out (py.of_name (lat_name_out self)) lat);
  (* append extra dimension coordinate value *)
  dr_out ← for_each extra_dims
    (λ dr_out dim,
       c ← lift (xr.coords_getitem dr_in dim);
       lift (xr.coords_setitem dr_out dim c))
    dr_out;
  mret (xr.attrs_setitem dr_out "regrid_method" (method self)).

Definition regrid_dataset (self : t) (ds_in : GridDescription) : M xr.DataArray :=
  raise (py.NotImplementedError "Only support regrid_dataarray() for now.").

Definition __call__ (self : t) (a : array_like) : M array_like :=
  match a with
  | numpy_array a => out ← regrid_numpy self a; mret (numpy_array out)
  | data_array d => out ← regrid_dataarray self d; mret (data_array out)
  | other_object =>
      raise (py.TypeError "input must be numpy array or xarray DataArray!")
  end.

End methods.
End Regridder.


(** ** Test doubles

    Integer-valued arrays and collaborators that record what they are given:
    a grid is the list of arrays attached to it, building the weights writes
    a file whose content is the method name, and reading them back needs that
    file. *)

Module doubles.

Definition Z_scalar : Scalar :=
  {| V := Z; v_zero := 0%Z; v_add := Z.add; v_mul := Z.mul; v_of_nat := Z.of_nat |}.

Definition fake : @Collaborators Z_scalar :=
  {| Grid := list (@np.ndarray Z_scalar);
     Regrid := string;
     esmf_grid := λ lonT latT _, inr [lonT; latT];
     add_corner := λ grid lon_bT lat_bT, inr (grid ++ [lon_bT; lat_bT]);
     esmf_regrid_build := λ _ _ method filename fs,
       (<[filename := os.File method]> fs, inr filename);
     esmf_regrid_finalize := λ _, inr ();
     read_weights := λ filename N_in N_out fs,
       match fs !! filename with
       | Some (os.File _) => inr (smm.mk_SparseOperator N_out N_in [])
       | _ => inl (py.OSError "No such file or directory")
       end;
     virtual_variable := λ _ attribute,
       inl (py.AttributeError
              ("'Variable' object has no attribute '" +:+ attribute +:+ "'")) |}.

#[local] Existing Instances Z_scalar fake.

Definition empty_world : world := mk_world ∅ [] [].

Definition arange (n : nat) : list Z := Z.of_nat <$> seq 0 n.

Definition vector (n : nat) : np.ndarray := np.array1d (arange n).

(** What a computation returned, or [default] if it raised. *)
Definition returned {X} (default : X) (r : py.result X) : X :=
  match r with inr x => x | inl _ => default end.

(** A rectilinear dataset: 1-D [lat] and [lon] on dimensions of the same
    names, with the cell boundaries [lat_b] and [lon_b]. *)
Definition rectilinear (ny nx : nat) : GridDescription :=
  Dataset (list_to_map
    [("lat", xr.mk_variable ["lat"] (np.array1d (arange ny)));
     ("lon", xr.mk_variable ["lon"] (np.array1d (arange nx)));
     ("lat_b", xr.mk_variable ["lat_b"] (np.array1d (arange (S ny))));
     ("lon_b", xr.mk_variable ["lon_b"] (np.array1d (arange (S nx))))]).

(** A curvilinear dataset: 2-D fields on the dimensions [("y", "x")]. *)
Definition curvilinear (ny nx : nat) : GridDescription :=
  Dataset (list_to_map
    [("lat", xr.mk_variable ["y"; "x"] (np.array2d ny nx (arange (ny * nx))));
     ("lon", xr.mk_variable ["y"; "x"] (np.array2d ny nx (arange (ny * nx))));
     ("lat_b", xr.mk_variable ["y_b"; "x_b"]
                 (np.array2d (S ny) (S nx) (arange (S ny * S nx))));
     ("lon_b", xr.mk_variable ["y_b"; "x_b"]
                 (np.array2d (S ny) (S nx) (arange (S ny * S nx))))]).

(** The same rectilinear grid as a plain dictionary of arrays. *)
Definition rectilinear_dict (ny nx : nat) : GridDescription :=
  Dict (list_to_map
    [("lat", entry_ndarray (np.array1d (arange ny)));
     ("lon", entry_ndarray (np.array1d (arange nx)));
     ("lat_b", entry_ndarray (np.array1d (arange (S ny))));
     ("lon_b", entry_ndarray (np.array1d (arange (S nx))))]).

(** A dataset on dimensions [x] and [y] that follows neither naming
    convention. *)
Definition unconventional : GridDescription :=
  Dataset (list_to_map
    [("x", xr.mk_variable ["x"] (np.array1d (arange 4)));
     ("y", xr.mk_variable ["y"] (np.array1d (arange 3)))]).

Definition zeros (shape : list nat) : np.ndarray :=
  np.mk_ndarray shape (replicate (np.prod shape) 0%Z).

(** A field on a 3x4 grid with a leading dimension [lead] of extent [n],
    which carries the coordinate [100, 101, ...]. *)
Definition field (lead : string) (n : nat) : xr.DataArray :=
  xr.mk_DataArray (zeros [n; 3; 4]) [py.Str lead; py.Str "y"; py.Str "x"]
    (py.Str "field")
    [(py.Str lead,
      xr.mk_coordinate [py.Str lead] (np.array1d ((λ i, 100 + i)%Z <$> arange n)))]
    ∅.

(** A rectilinear dataset with cell centres only. *)
Definition centers_only (ny nx : nat) : GridDescription :=
  Dataset (list_to_map
    [("lat", xr.mk_variable ["lat"] (np.array1d (arange ny)));
     ("lon", xr.mk_variable ["lon"] (np.array1d (arange nx)))]).

(** A world where the default weight file of a bilinear 3x4 to 2x2
    regridder already exists. *)
Definition cached_world : world :=
  mk_world {[ "bilinear_3x4_2x2.nc" := os.File "earlier weights" ]} [] [].

(** The attributes of a bilinear regridder from a 400x600 grid to a
    300x400 grid, as far as the file name depends on them. *)
Definition bilinear_400x600_300x400 : Regridder.t :=
  Regridder.mk false "bilinear" false false
    (Some "lat") (Some "lon") (Some "lat_b") (Some "lon_b")
    (Some "lat") (Some "lon") (Some "lat_b") (Some "lon_b")
    [] [] (np.array1d []) (np.array1d [])
    (Some (py.Str "lon")) (Some (py.Str "lat"))
    (Some (py.Tuple [py.Str "lat"; py.Str "lon"]))
    400 600 300 400 (400 * 600) (300 * 400) None None.

(** [Regridder(ds_in, ds_out, method)] in the empty world. *)
Definition construct (ds_in ds_out : GridDescription) (method : string)
  : world * py.result Regridder.t :=
  Regridder.__init__ ds_in ds_out method false None false
    None None None None None None None None empty_world.

(** A dataset with latitudes but no longitudes. *)
Definition lat_only : GridDescription :=
  Dataset (list_to_map [("lat", xr.mk_variable ["lat"] (vector 3))]).

(** A regridder that knows its weight file. *)
Definition cached_regridder : Regridder.t :=
  Regridder.set_filename bilinear_400x600_300x400 "bilinear_3x4_2x2.nc".

(** A world where a directory sits at the path of the weight file. *)
Definition blocked_world : world :=
  mk_world {[ "bilinear_3x4_2x2.nc" := os.Directory ]} [] [].

(** Collaborators whose weight generation fails and writes nothing. *)
Definition refusing : @Collaborators Z_scalar :=
  {| Grid := list (@np.ndarray Z_scalar);
     Regrid := string;
     esmf_grid := λ lonT latT _, inr [lonT; latT];
     add_corner := λ grid lon_bT lat_bT, inr (grid ++ [lon_bT; lat_bT]);
     esmf_regrid_build := λ _ _ _ _ fs, (fs, inl (py.Foreign "ESMF_RC_MEM_ALLOCATE"));
     esmf_regrid_finalize := λ _, inr ();
     read_weights := λ filename N_in N_out fs,
       match fs !! filename with
       | Some (os.File _) => inr (smm.mk_SparseOperator N_out N_in [])
       | _ => inl (py.OSError "No such file or directory")
       end;
     virtual_variable := λ _ attribute,
       inl (py.AttributeError
              ("'Variable' object has no attribute '" +:+ attribute +:+ "'")) |}.

(** A regridder over [refusing] that knows its weight file, and the empty
    world over the same collaborators. *)
Definition refused_regridder : @Regridder.t Z_scalar refusing :=
  @Regridder.mk Z_scalar refusing false "bilinear" false false
    (Some "lat") (Some "lon") (Some "lat_b") (Some "lon_b")
    (Some "lat") (Some "lon") (Some "lat_b") (Some "lon_b")
    [] [] (np.array1d []) (np.array1d [])
    (Some (py.Str "lon")) (Some (py.Str "lat"))
    (Some (py.Tuple [py.Str "lat"; py.Str "lon"]))
    3 4 2 2 12 4 (Some "bilinear_3x4_2x2.nc") None.
Definition refusing_world : @world Z_scalar refusing := @mk_world Z_scalar refusing ∅ [] [].

End doubles.

(** ** What the spec says, to compare the code with *)

Section spec_side.
Context `{Collaborators}.

(** The artifact name in the words of the spec:
    [{method}_{Ny_in}x{Nx_in}_{Ny_out}x{Nx_out}[_peri].nc]. *)
Definition spec_filename (method : string) (Ny_in Nx_in Ny_out Nx_out : nat)
    (periodic : bool) : string :=
  method +:+ "_" +:+ py.str_int Ny_in +:+ "x" +:+ py.str_int Nx_in
    +:+ "_" +:+ py.str_int Ny_out +:+ "x" +:+ py.str_int Nx_out
    +:+ (if periodic then "_peri" else "") +:+ ".nc".

(** The text of the shape assertion of [regrid_numpy]: the shape found,
    then the shape of the source grid. *)
Definition mismatch_message (self : Regridder.t) (indata : np.ndarray) : string :=
  "The horizontal shape of input data is "
    +:+ py.str_tuple (py.str_int <$> py.last_two (np.shape indata))
    +:+ ", different from that ofthe regridder "
    +:+ py.str_tuple [py.str_int (Regridder.Ny_in self);
                      py.str_int (Regridder.Nx_in self)]
    +:+ "!".

(** The notice printed before an existing weight file is replaced. *)
Definition overwrite_notice (name : string) : string :=
  "Overwrite existing file: " +:+ name +:+ " " +:+ Regridder.newline
    +:+ " You can set reuse_weights=True to save computing time.".

(** The call that generates the weights of [self] into the file [name],
    and the calls of that kind made so far. *)
Definition build_call (self : Regridder.t) (name : string) : call :=
  call_esmf_regrid_build (Regridder._grid_in self) (Regridder._grid_out self)
    (Regridder.method self) name.
Definition build_calls (w : world) : list call :=
  filter (λ c, is_build c = true) (calls w).

(** [quiet w w']: between [w] and [w'] nothing but printing happened.
    [unbuilt w w']: the file system is untouched and no weights were
    generated, though other collaborators may have been called. *)
Definition quiet (w w' : world) : Prop :=
  fs w' = fs w ∧ calls w' = calls w.
Definition unbuilt (w w' : world) : Prop :=
  fs w' = fs w ∧ build_calls w' = build_calls w.

(** [keeps R m]: running [m] relates the world before to the world after,
    whether [m] returns or raises. *)
Definition keeps {X} (R : relation world) (m : M X) : Prop :=
  ∀ w, R w (m w).1.

(** A description with neither [lat_b] nor [latitude_b]. *)
Definition lacks_boundary_keys (ds : GridDescription) : Prop :=
  match ds with
  | Dataset vars => vars !! "lat_b" = None ∧ vars !! "latitude_b" = None
  | Dict items => items !! "lat_b" = None ∧ items !! "latitude_b" = None
  end.

(** The body of the loop of [regrid_dataarray] that copies the coordinates
    of the leading dimensions. *)
Definition copy_coordinate (dr_in dr_out : xr.DataArray) (dim : py.value)
  : M xr.DataArray :=
  c ← lift (xr.coords_getitem dr_in dim);
  lift (xr.coords_setitem dr_out dim c).

(** The calls of one kind are the same in [w] and [w']. *)
Definition is_add_corner (c : call) : bool :=
  match c with call_add_corner _ _ _ => true | _ => false end.
Definition is_finalize (c : call) : bool :=
  match c with call_esmf_regrid_finalize _ => true | _ => false end.
Definition is_esmf_grid (c : call) : bool :=
  match c with call_esmf_grid _ _ _ => true | _ => false end.
Definition is_read (c : call) : bool :=
  match c with call_read_weights _ _ _ => true | _ => false end.
Definition same_calls (p : call → bool) (w w' : world) : Prop :=
  filter (λ c, p c = true) (calls w') = filter (λ c, p c = true) (calls w).

(** From [w] to [w'] the file system and the output are untouched, and the
    only calls logged are applications of the weights. *)
Definition applies_only (w w' : world) : Prop :=
  fs w' = fs w ∧ stdout w' = stdout w
  ∧ ∃ l, calls w' = calls w ++ l ∧ Forall (λ c, is_apply c = true) l.

(** The two naming conventions the locator knows, for the cell centres and
    for the boundaries. *)
Definition coards_names (boundary : bool) : string * string :=
  if boundary then ("lat_b", "lon_b") else ("lat", "lon").
Definition cf_names (boundary : bool) : string * string :=
  if boundary then ("latitude_b", "longitude_b") else ("latitude", "longitude").

(** The statements of [__init__] that record the dimension names of the
    output grid, on their own: they give [lon_dim], [lat_dim] and
    [horiz_dims], each [None] when the statements leave it unassigned. *)
Definition record_dims (ds_out : GridDescription)
    (lat_name_out lon_name_out : option string) (_lon_out : np.ndarray)
  : M (option py.value * option py.value * option py.value) :=
  if decide (np.ndim _lon_out = 2) then
    d ← try_except
          (lift (getitem ds_out lon_name_out ≫= dims_of))
          (λ _, true)
          (mret (py.Tuple [py.Str "y"; py.Str "x"]));
    mret (Some d, Some d, Some d)
  else if decide (np.ndim _lon_out = 1) then
    '(lon_dim, lat_dim) ←
      try_except
        (lon_dim ← lift (getitem ds_out lon_name_out ≫= dims_of);
         lat_dim ← lift (getitem ds_out lat_name_out ≫= dims_of);
         mret (lon_dim, lat_dim))
        (λ _, true)
        (mret (py.of_name lon_name_out, py.of_name lat_name_out));
    mret (Some lon_dim, Some lat_dim, Some (py.Tuple [lat_dim; lon_dim]))
  else mret (None, None, None).

(** The notice of [clean_weight_file], by whether the path exists. *)
Definition clean_notice (present : bool) (name : string) : string :=
  if present then "Remove file " +:+ name
  else "File " +:+ name +:+ " is already removed.".

(** What [_write_weight_file] asks of the weight generation, by what it finds
    at the path [name]. *)
Definition expected_builds (self : Regridder.t) (name : string)
    (found : option os.node) : list call :=
  match found with
  | Some (os.File _) =>
      if Regridder.reuse_weights self then [] else [build_call self name]
  | Some os.Directory => []
  | None => [build_call self name]
  end.

End spec_side.

(** ** Properties of the frontend *)

Section np_facts.
Context `{Scalar}.

Lemma prod_app (s1 s2 : list nat) : np.prod (s1 ++ s2) = np.prod s1 * np.prod s2.
Proof.
  induction s1 as [|n s1 IH]; simpl; [lia|].
  rewrite IH. lia.
Qed.

Lemma last_two_app {X} (l : list X) (a b : X) : py.last_two (l ++ [a; b]) = [a; b].
Proof.
  unfold py.last_two. rewrite length_app. simpl.
  replace (length l + 2 - 2) with (length l) by lia.
  by rewrite drop_app_length.
Qed.

Lemma but_last_two_app {X} (l : list X) (a b : X) :
  py.but_last_two (l ++ [a; b]) = l.
Proof.
  unfold py.but_last_two. rewrite length_app. simpl.
  replace (length l + 2 - 2) with (length l) by lia.
  by rewrite take_app_length.
Qed.

Lemma split_last_two {X} (l : list X) : py.but_last_two l ++ py.last_two l = l.
Proof. apply take_drop. Qed.

Lemma length_bind_const {X Y} (f : X → list Y) (l : list X) (k : nat) :
  (∀ x, length (f x) = k) → length (l ≫= f) = length l * k.
Proof.
  intros Hf. induction l as [|x l IH]; csimpl; [done|].
  rewrite length_app, Hf, IH. lia.
Qed.

Lemma drop_mjoin_replicate (l : list V) (n i : nat) :
  i ≤ n →
  drop (i * length l) (mjoin (replicate n l)) = mjoin (replicate (n - i) l).
Proof.
  revert n. induction i as [|i IH]; intros n Hi; simpl.
  - by rewrite Nat.sub_0_r.
  - destruct n as [|n]; [lia|]. simpl.
    rewrite drop_app_add'; [|done]. apply IH. lia.
Qed.

Lemma lookup_bind_replicate (l : list V) (n i j : nat) :
  j < n → (l ≫= replicate n) !! (i * n + j) = l !! i.
Proof.
  intros Hj. revert i. induction l as [|x l IH]; intros i; csimpl.
  - done.
  - destruct i as [|i]; csimpl.
    + rewrite lookup_app_l by (rewrite length_replicate; lia).
      by apply lookup_replicate_2.
    + rewrite lookup_app_r by (rewrite length_replicate; lia).
      rewrite length_replicate.
      replace (n + i * n + j - n) with (i * n + j) by lia.
      apply IH.
Qed.

Lemma fmap_item_seq (l : list V) :
  (λ i, np.item l i) <$> seq 0 (length l) = l.
Proof.
  apply list_eq. intros i. rewrite list_lookup_fmap.
  destruct (decide (i < length l)) as [Hi|Hi].
  - rewrite lookup_seq_lt by done. simpl. unfold np.item.
    destruct (lookup_lt_is_Some_2 l i Hi) as [x Hx]. by rewrite Hx.
  - rewrite lookup_seq_ge by lia. simpl.
    symmetry. apply lookup_ge_None. lia.
Qed.
End np_facts.

Section mesh.
Context `{Collaborators}.

(** Claim C6. For a 1-D longitude vector of length [Nx] and a 1-D latitude
    vector of length [Ny], [as_2d_mesh] returns two 2-D arrays of shape
    [(Ny, Nx)], each with one element per index; every row of the longitude
    mesh is the longitude vector and every column of the latitude mesh is
    the latitude vector. *)
Theorem as_2d_mesh_of_vectors (lon lat : np.ndarray) (Nx Ny : nat) :
  np.shape lon = [Nx] → np.well_formed lon →
  np.shape lat = [Ny] → np.well_formed lat →
  ∃ lon2d lat2d,
    as_2d_mesh lon lat = inr (lon2d, lat2d)
    ∧ np.shape lon2d = [Ny; Nx] ∧ np.shape lat2d = [Ny; Nx]
    ∧ np.well_formed lon2d ∧ np.well_formed lat2d
    ∧ (∀ i, i < Ny → np.row lon2d i = np.data lon)
    ∧ (∀ j, j < Nx → np.column lat2d j = np.data lat).
Proof.
  intros Hslon Hwlon Hslat Hwlat.
  assert (np.size lon = Nx) as Hnx
    by (unfold np.size; rewrite Hslon; simpl; lia).
  assert (np.size lat = Ny) as Hny
    by (unfold np.size; rewrite Hslat; simpl; lia).
  assert (length (np.data lon) = Nx) as Hllon by (by rewrite Hwlon).
  assert (length (np.data lat) = Ny) as Hllat by (by rewrite Hwlat).
  eexists _, _. split.
  { unfold as_2d_mesh, np.ndim. rewrite Hslon, Hslat. simpl.
    unfold np.meshgrid. rewrite Hnx, Hny.
    rewrite (take_ge (np.data lon)), (take_ge (np.data lat)) by lia.
    reflexivity. }
  split; [done|]. split; [done|].
  split; [|split; [|split]].
  - unfold np.well_formed, np.size. simpl.
    rewrite length_join, fmap_replicate, sum_list_replicate. lia.
  - unfold np.well_formed, np.size. simpl.
    rewrite (length_bind_const _ _ Nx) by (intros; apply length_replicate). lia.
  - intros i Hi. unfold np.row. simpl. rewrite <- Hllon.
    rewrite drop_mjoin_replicate by lia.
    destruct (Ny - i) as [|k] eqn:Hk; [lia|]. simpl.
    by rewrite take_app_length.
  - intros j Hj. unfold np.column. simpl.
    etrans; [|apply (fmap_item_seq (np.data lat))]. rewrite Hllat.
    apply list_fmap_ext. intros _ i _. unfold np.item.
    by rewrite lookup_bind_replicate.
Qed.
End mesh.

Section monad_facts.
Context `{Collaborators}.

Lemma bind_inr {X Y} (m : M X) (f : X → M Y) (w w' : world) (y : Y) :
  (m ≫= f) w = (w', inr y) →
  ∃ x w1, m w = (w1, inr x) ∧ f x w1 = (w', inr y).
Proof.
  unfold mbind, M_bind. destruct (m w) as [w1 [e|x]]; [done|]. eauto.
Qed.

Lemma bind_inl {X Y} (m : M X) (f : X → M Y) (w w1 : world) (e : py.exn) :
  m w = (w1, inl e) → (m ≫= f) w = (w1, inl e).
Proof. unfold mbind, M_bind. by intros ->. Qed.

Lemma bind_step {X Y} (m : M X) (f : X → M Y) (w w1 : world) (x : X) :
  m w = (w1, inr x) → (m ≫= f) w = f x w1.
Proof. unfold mbind, M_bind. by intros ->. Qed.
End monad_facts.

Section applicator.
Context `{Collaborators}.

Lemma apply_weights_well_formed (weights : smm.SparseOperator)
    (indata : np.ndarray) (Ny_out Nx_out : nat) :
  np.well_formed (smm.apply_weights weights indata Ny_out Nx_out).
Proof.
  unfold np.well_formed, np.size, smm.apply_weights. simpl.
  rewrite (length_bind_const _ _ (Ny_out * Nx_out)).
  - rewrite length_seq, prod_app. simpl. lia.
  - intros k. unfold smm.dot. by rewrite length_fmap, length_seq.
Qed.

(** Claim C1. For every input array whose trailing two dimensions equal the
    source grid shape [(Ny_in, Nx_in)], applying the regridder returns an
    array whose shape is the leading dimensions of the input, unchanged in
    count, order and extent, followed by [(Ny_out, Nx_out)]. The codec's
    [apply_weights] is modelled from the spec. *)
Theorem regrid_numpy_output_shape (self : Regridder.t)
    (weights : smm.SparseOperator) (indata : np.ndarray) (w : world) :
  Regridder.A self = Some weights →
  py.last_two (np.shape indata) = [Regridder.Ny_in self; Regridder.Nx_in self] →
  ∃ outdata w',
    Regridder.regrid_numpy self indata w = (w', inr outdata)
    ∧ Regridder.__call__ self (numpy_array indata) w = (w', inr (numpy_array outdata))
    ∧ np.shape outdata
      = py.but_last_two (np.shape indata)
          ++ [Regridder.Ny_out self; Regridder.Nx_out self]
    ∧ py.last_two (np.shape outdata) = [Regridder.Ny_out self; Regridder.Nx_out self]
    ∧ py.but_last_two (np.shape outdata) = py.but_last_two (np.shape indata)
    ∧ np.well_formed outdata.
Proof.
  intros HA Hshape.
  assert (Regridder.regrid_numpy self indata w
    = (mk_world (fs w) (stdout w)
         (calls w ++ [call_apply_weights weights indata
                        (Regridder.Ny_out self) (Regridder.Nx_out self)]),
       inr (smm.apply_weights weights indata
              (Regridder.Ny_out self) (Regridder.Nx_out self)))) as Hrun.
  { unfold Regridder.regrid_numpy. rewrite decide_True by done.
    by rewrite HA. }
  eexists _, _. split; [exact Hrun|]. split.
  { unfold Regridder.__call__. by rewrite (bind_step _ _ _ _ _ Hrun). }
  simpl. split; [done|]. split; [apply last_two_app|].
  split; [apply but_last_two_app|apply apply_weights_well_formed].
Qed.

(** Claim C2. For every input array whose trailing two dimensions differ
    from [(Ny_in, Nx_in)], applying the regridder raises the assertion
    whose message gives the shape found and the shape expected, and the
    world comes back as it was: no call to the codec is logged. The same
    holds on the labeled-array path. *)
Theorem regrid_numpy_shape_mismatch (self : Regridder.t)
    (indata : np.ndarray) (w : world) :
  py.last_two (np.shape indata) ≠ [Regridder.Ny_in self; Regridder.Nx_in self] →
  Regridder.regrid_numpy self indata w
    = (w, inl (py.AssertionError (mismatch_message self indata)))
  ∧ Regridder.__call__ self (numpy_array indata) w
    = (w, inl (py.AssertionError (mismatch_message self indata)))
  ∧ ∀ dr_in, xr.values dr_in = indata →
      Regridder.__call__ self (data_array dr_in) w
      = (w, inl (py.AssertionError (mismatch_message self indata))).
Proof.
  intros Hshape.
  assert (Regridder.regrid_numpy self indata w
    = (w, inl (py.AssertionError (mismatch_message self indata)))) as Hrun.
  { unfold Regridder.regrid_numpy. by rewrite decide_False by done. }
  split; [exact Hrun|]. split.
  - unfold Regridder.__call__. by rewrite (bind_inl _ _ _ _ _ Hrun).
  - intros dr_in <-. unfold Regridder.__call__, Regridder.regrid_dataarray.
    by rewrite (bind_inl _ _ _ _ _ (bind_inl _ _ _ _ _ Hrun)).
Qed.
End applicator.

Section string_facts.

Lemma str_app_nil_r (s : string) : s +:+ "" = s.
Proof. induction s as [|c s IH]; [done|]. exact (f_equal (String c) IH). Qed.

Lemma str_app_assoc (a b c : string) : (a +:+ b) +:+ c = a +:+ b +:+ c.
Proof. induction a as [|x a IH]; [done|]. exact (f_equal (String x) IH). Qed.

Lemma to_list_app (a b : string) :
  String.list_ascii_of_string (a +:+ b)
  = String.list_ascii_of_string a ++ String.list_ascii_of_string b.
Proof. induction a as [|x a IH]; [done|]. exact (f_equal (cons x) IH). Qed.

Lemma pretty_N_go_app (x : N) (s : string) : ∃ p, pretty_N_go x s = p +:+ s.
Proof.
  revert s. induction (N.lt_wf_0 x) as [x _ IH]; intros s.
  destruct (decide (x = 0)%N) as [->|Hx].
  - exists "". by rewrite pretty_N_go_0.
  - rewrite pretty_N_go_step by lia.
    destruct (IH (x `div` 10)%N) with (s := String (pretty_N_char (x `mod` 10)) s)
      as [p Hp].
    { apply N.div_lt; lia. }
    exists (p +:+ String (pretty_N_char (x `mod` 10)) "").
    by rewrite Hp, str_app_assoc.
Qed.

(** A decimal rendering ends with a digit. *)
Lemma str_int_last (n : nat) :
  ∃ p k, py.str_int n = p +:+ String (pretty_N_char k) "".
Proof.
  unfold py.str_int, pretty, pretty_nat, pretty, pretty_N.
  case_decide as Hn.
  - by exists "", 0%N.
  - rewrite pretty_N_go_step by lia.
    destruct (pretty_N_go_app (N.of_nat n `div` 10)
                (String (pretty_N_char (N.of_nat n `mod` 10)) "")) as [p Hp].
    eauto.
Qed.

Lemma pretty_N_char_not_i (k : N) : pretty_N_char k ≠ "i"%char.
Proof. unfold pretty_N_char. by repeat case_match. Qed.

Lemma not_endswith_peri (base : string) (n : nat) :
  py.endswith (base +:+ py.str_int n +:+ ".nc") "_peri.nc" = false.
Proof.
  unfold py.endswith. apply bool_decide_eq_false. intros [k Hk].
  destruct (str_int_last n) as (p & d & Hn). rewrite Hn in Hk.
  rewrite !to_list_app in Hk. cbn in Hk.
  change (k ++ _) with (k ++ ["_"; "p"; "e"; "r"]%char ++ ["i"%char] ++ [ "."; "n"; "c"]%char) in Hk.
  rewrite !app_assoc in Hk.
  apply app_inj_2 in Hk as [Hk _]; [|done].
  apply app_inj_tail in Hk as [_ Hd].
  by apply pretty_N_char_not_i in Hd.
Qed.
End string_facts.

Section frames.
Context `{Collaborators}.

#[local] Instance quiet_refl : Reflexive quiet.
Proof. by intros w. Qed.
#[local] Instance quiet_trans : Transitive quiet.
Proof. intros w1 w2 w3 [??] [??]. split; congruence. Qed.
#[local] Instance unbuilt_refl : Reflexive unbuilt.
Proof. by intros w. Qed.
#[local] Instance unbuilt_trans : Transitive unbuilt.
Proof. intros w1 w2 w3 [??] [??]. split; congruence. Qed.

Lemma quiet_unbuilt (w w' : world) : quiet w w' → unbuilt w w'.
Proof. intros [Hfs Hc]. split; [done|]. unfold build_calls. by rewrite Hc. Qed.

Lemma keeps_ret {X} R `{!Reflexive R} (x : X) : keeps R (mret x).
Proof. intros w. simpl. reflexivity. Qed.

Lemma keeps_raise {X} R `{!Reflexive R} (e : py.exn) : keeps R (raise (A:=X) e).
Proof. intros w. simpl. reflexivity. Qed.

Lemma keeps_lift {X} R `{!Reflexive R} (r : py.result X) : keeps R (lift r).
Proof. intros w. simpl. reflexivity. Qed.

Lemma keeps_bind {X Y} R `{!Transitive R} (m : M X) (f : X → M Y) :
  keeps R m → (∀ x, keeps R (f x)) → keeps R (m ≫= f).
Proof.
  intros Hm Hf w. specialize (Hm w). unfold mbind, M_bind.
  destruct (m w) as [w1 [e|x]]; simpl in *; [done|].
  etrans; [exact Hm|apply Hf].
Qed.

Lemma keeps_try_except {X} R `{!Transitive R} (body handler : M X) catches :
  keeps R body → keeps R handler → keeps R (try_except body catches handler).
Proof.
  intros Hb Hh w. specialize (Hb w). unfold try_except.
  destruct (body w) as [w1 [e|x]]; simpl in *; [|done].
  destruct (catches e); simpl; [|done].
  etrans; [exact Hb|apply Hh].
Qed.

Lemma keeps_print_quiet (args : list string) : keeps quiet (print args).
Proof. by intros w. Qed.

Lemma keeps_attr {X} R `{!Reflexive R} name (a : option X) : keeps R (attr name a).
Proof. destruct a; [apply keeps_ret|apply keeps_raise]; done. Qed.

Lemma keeps_weaken {X} (m : M X) : keeps quiet m → keeps unbuilt m.
Proof. intros Hm w. apply quiet_unbuilt, Hm. Qed.

Lemma keeps_invoke_unbuilt {X} (c : call) (r : py.result X) :
  is_build c = false → keeps unbuilt (invoke c r).
Proof.
  intros Hc w. split; [done|]. unfold build_calls. simpl.
  rewrite filter_app, filter_cons_False, filter_nil, app_nil_r; [done|].
  by rewrite Hc.
Qed.

End frames.

Section frontend_frames.
Context `{Collaborators}.

#[local] Existing Instances quiet_refl quiet_trans unbuilt_refl unbuilt_trans.

Ltac keeps_quiet :=
  repeat first
    [ apply keeps_ret; apply _
    | apply keeps_raise; apply _
    | apply keeps_lift; apply _
    | apply keeps_print_quiet
    | apply keeps_attr; apply _
    | apply keeps_try_except; [apply _| |]
    | apply keeps_bind; [apply _| |intros ?]
    | case_match ].

Lemma get_latlon_name_quiet (ds : GridDescription) (boundary : bool) :
  keeps quiet (get_latlon_name ds boundary).
Proof. unfold get_latlon_name. keeps_quiet. Qed.

Lemma resolve_names_quiet ds boundary lat lon :
  keeps quiet (Regridder.resolve_names ds boundary lat lon).
Proof.
  unfold Regridder.resolve_names. keeps_quiet.
Qed.

Lemma ds_to_ESMFgrid_unbuilt ds need_bounds lat lon lat_b lon_b periodic :
  keeps unbuilt (ds_to_ESMFgrid ds need_bounds lat lon lat_b lon_b periodic).
Proof.
  unfold ds_to_ESMFgrid.
  repeat first
    [ apply keeps_ret; apply _
    | apply keeps_lift; apply _
    | apply keeps_invoke_unbuilt; reflexivity
    | apply keeps_weaken, get_latlon_name_quiet
    | apply keeps_bind; [apply _| |intros ?]
    | case_match ].
Qed.
End frontend_frames.

Section lifecycle.
Context `{Collaborators}.

Lemma write_weight_file_reuse (self : Regridder.t) (w : world) (name : string) :
  Regridder.filename self = Some name →
  is_Some (fs w !! name) →
  Regridder.reuse_weights self = true →
  Regridder._write_weight_file self w
  = (mk_world (fs w) (stdout w ++ ["Reuse existing file: " +:+ name]) (calls w),
     inr ()).
Proof.
  intros Hname Hfile Hreuse. unfold Regridder._write_weight_file.
  rewrite Hname, Hreuse.
  unfold mbind, M_bind, attr, os_path_exists, os.path_exists. simpl.
  rewrite bool_decide_eq_true_2 by done.
  unfold lift, print. simpl. by rewrite str_app_nil_r.
Qed.

Lemma format_overwrite (name : string) :
  py.format ("Overwrite existing file: {} " +:+ Regridder.newline) [name]
  = inr ("Overwrite existing file: " +:+ name +:+ " " +:+ Regridder.newline).
Proof. reflexivity. Qed.

Lemma write_weight_file_overwrite (self : Regridder.t) (w : world)
    (name content : string) :
  Regridder.filename self = Some name →
  fs w !! name = Some (os.File content) →
  Regridder.reuse_weights self = false →
  Regridder._write_weight_file self w
  = (let '(fs', r) :=
       esmf_regrid_build (Regridder._grid_in self) (Regridder._grid_out self)
         (Regridder.method self) name (delete name (fs w)) in
     (mk_world fs' (stdout w ++ [overwrite_notice name])
        (calls w ++ [build_call self name]
           ++ match r with
              | inr regrid => [call_esmf_regrid_finalize regrid]
              | inl _ => []
              end),
      r ≫= esmf_regrid_finalize)).
Proof.
  intros Hname Hfile Hreuse. unfold Regridder._write_weight_file.
  rewrite Hname, Hreuse.
  unfold mbind, M_bind, attr, os_path_exists, os.path_exists. cbn -[py.format].
  rewrite bool_decide_eq_true_2 by (by rewrite Hfile).
  rewrite format_overwrite.
  unfold lift, print, os_remove, os.remove. simpl. rewrite Hfile. simpl.
  unfold invoke_fs, invoke. simpl.
  destruct (esmf_regrid_build _ _ _ _ _) as [fs' [e|regrid]]; simpl.
  - unfold overwrite_notice. by rewrite !str_app_assoc.
  - unfold overwrite_notice. rewrite <- app_assoc. by rewrite !str_app_assoc.
Qed.

Lemma write_weight_file_create (self : Regridder.t) (w : world) (name : string) :
  Regridder.filename self = Some name →
  fs w !! name = None →
  Regridder._write_weight_file self w
  = (let '(fs', r) :=
       esmf_regrid_build (Regridder._grid_in self) (Regridder._grid_out self)
         (Regridder.method self) name (fs w) in
     (mk_world fs' (stdout w ++ ["Create weight file: " +:+ name])
        (calls w ++ [build_call self name]
           ++ match r with
              | inr regrid => [call_esmf_regrid_finalize regrid]
              | inl _ => []
              end),
      r ≫= esmf_regrid_finalize)).
Proof.
  intros Hname Hfile. unfold Regridder._write_weight_file.
  rewrite Hname.
  unfold mbind, M_bind, attr, os_path_exists, os.path_exists. simpl.
  rewrite bool_decide_eq_false_2 by (rewrite Hfile; by intros [??]).
  unfold lift, print. simpl.
  unfold invoke_fs, invoke. simpl.
  destruct (esmf_regrid_build _ _ _ _ _) as [fs' [e|regrid]]; simpl.
  - by rewrite str_app_nil_r.
  - rewrite <- app_assoc. by rewrite str_app_nil_r.
Qed.
End lifecycle.

Section construction.
Context `{Collaborators}.

#[local] Existing Instances quiet_refl quiet_trans unbuilt_refl unbuilt_trans.

Lemma keeps_run {X} (R : relation world) (m : M X) (w w1 : world) r :
  keeps R m → m w = (w1, r) → R w w1.
Proof. intros Hm Hrun. specialize (Hm w). by rewrite Hrun in Hm. Qed.

Ltac keeps_quiet :=
  repeat first
    [ apply keeps_ret; apply _
    | apply keeps_raise; apply _
    | apply keeps_lift; apply _
    | apply keeps_print_quiet
    | apply keeps_attr; apply _
    | apply keeps_try_except; [apply _| |]
    | apply keeps_bind; [apply _| |intros ?]
    | case_match ].

(** A run of [__init__] that returns, step by step. *)
Lemma init_returns ds_in ds_out method periodic filename reuse_weights
    lat_in lon_in lat_b_in lon_b_in lat_out lon_out lat_b_out lon_b_out
    (w w' : world) (self : Regridder.t) :
  Regridder.__init__ ds_in ds_out method periodic filename reuse_weights
    lat_in lon_in lat_b_in lon_b_in lat_out lon_out lat_b_out lon_b_out w
  = (w', inr self) →
  ∃ (self0 : Regridder.t) (name : string) (weights : smm.SparseOperator)
    (w1 w2 : world),
    unbuilt w w1
    ∧ Regridder._write_weight_file (Regridder.set_filename self0 name) w1
      = (w2, inr ())
    ∧ read_weights name (Regridder.N_in self0) (Regridder.N_out self0) (fs w2)
      = inr weights
    ∧ w' = mk_world (fs w2) (stdout w2)
             (calls w2 ++ [call_read_weights name (Regridder.N_in self0)
                             (Regridder.N_out self0)])
    ∧ self = Regridder.set_A (Regridder.set_filename self0 name) weights
    ∧ Regridder.method self0 = method
    ∧ Regridder.periodic self0
      = (if decide (method = "conservative") then false else periodic)
    ∧ Regridder.need_bounds self0 = bool_decide (method = "conservative")
    ∧ Regridder.reuse_weights self0 = reuse_weights
    ∧ match filename with
      | None => Regridder._get_default_filename self0 = inr name
      | Some given => name = given
      end.
Proof.
  unfold Regridder.__init__. intros Hrun.
  destruct (decide (method = "conservative")) as [Hm|Hm];
    (apply bind_inr in Hrun as ([lat_name_in lon_name_in] & wa & Ha & Hrun);
     apply (keeps_run quiet) in Ha; [|apply resolve_names_quiet];
     apply bind_inr in Hrun as ([lat_b_name_in lon_b_name_in] & wb & Hb & Hrun);
     apply (keeps_run quiet) in Hb; [|apply resolve_names_quiet];
     apply bind_inr in Hrun as ([lat_name_out lon_name_out] & wc & Hc & Hrun);
     apply (keeps_run quiet) in Hc; [|apply resolve_names_quiet];
     apply bind_inr in Hrun as ([lat_b_name_out lon_b_name_out] & wd & Hd & Hrun);
     apply (keeps_run quiet) in Hd; [|apply resolve_names_quiet];
     apply bind_inr in Hrun as ([grid_in shape_in] & we & He & Hrun);
     apply (keeps_run unbuilt) in He; [|apply ds_to_ESMFgrid_unbuilt];
     apply bind_inr in Hrun as ([grid_out shape_out] & wf & Hf & Hrun);
     apply (keeps_run unbuilt) in Hf; [|apply ds_to_ESMFgrid_unbuilt];
     apply bind_inr in Hrun as (lon_out_arr & wg & Hg & Hrun);
     apply (keeps_run quiet) in Hg; [|keeps_quiet];
     apply bind_inr in Hrun as (lat_out_arr & wh & Hh & Hrun);
     apply (keeps_run quiet) in Hh; [|keeps_quiet];
     apply bind_inr in Hrun as ([[lon_dim lat_dim] horiz_dims] & wi & Hi & Hrun);
     apply (keeps_run quiet) in Hi; [|keeps_quiet];
     apply bind_inr in Hrun as ([Ny_in Nx_in] & wj & Hj & Hrun);
     apply (keeps_run quiet) in Hj; [|keeps_quiet];
     apply bind_inr in Hrun as ([Ny_out Nx_out] & wk & Hk & Hrun);
     apply (keeps_run quiet) in Hk; [|keeps_quiet];
     apply bind_inr in Hrun as (name & wl & Hl & Hrun);
     pose proof Hl as Hname;
     apply (keeps_run quiet) in Hl; [|keeps_quiet];
     apply bind_inr in Hrun as ([] & w2 & Hwrite & Hrun);
     apply bind_inr in Hrun as (weights & w3 & Hread & Hrun);
     unfold invoke_read in Hread; injection Hread as <- Hread;
     injection Hrun as <- <-;
     eexists _, name, weights, wl, w2;
     split_and!; [|exact Hwrite|exact Hread|reflexivity|reflexivity
                  |reflexivity|reflexivity|simpl|reflexivity|]).
  all: try (symmetry; by (apply bool_decide_eq_true_2 || apply bool_decide_eq_false_2)).
  all: try (repeat match goal with
                   | F : quiet _ _ |- _ => apply quiet_unbuilt in F
                   end;
            repeat (etrans; [eassumption|]); reflexivity).
  all: destruct filename as [given|]; cbv [mret M_ret lift] in Hname;
    congruence.
Qed.
End construction.

Section naming.
Context `{Collaborators}.

Lemma default_filename_spec (self : Regridder.t) :
  Regridder._get_default_filename self
  = inr (spec_filename (Regridder.method self)
           (Regridder.Ny_in self) (Regridder.Nx_in self)
           (Regridder.Ny_out self) (Regridder.Nx_out self)
           (Regridder.periodic self)).
Proof.
  unfold Regridder._get_default_filename, spec_filename.
  set (a := py.str_int (Regridder.Ny_in self)).
  set (b := py.str_int (Regridder.Nx_in self)).
  set (c := py.str_int (Regridder.Ny_out self)).
  set (d := py.str_int (Regridder.Nx_out self)).
  assert (py.format "{0}_{1}x{2}_{3}x{4}" [Regridder.method self; a; b; c; d]
          = inr (Regridder.method self +:+ "_" +:+ a +:+ "x" +:+ b +:+ "_"
                   +:+ c +:+ "x" +:+ d +:+ "")) as -> by reflexivity.
  destruct (Regridder.periodic self); simpl;
    by rewrite !str_app_assoc.
Qed.

(** Claim C8. The default file name is
    [{method}_{Ny_in}x{Nx_in}_{Ny_out}x{Nx_out}.nc], with [_peri] before
    the extension exactly when the regridder is periodic; for bilinear,
    400x600 to 300x400, not periodic, it is [bilinear_400x600_300x400.nc];
    a constructed regridder carries that name unless the caller gave
    one. *)
Theorem default_filename_format :
  (∀ self : Regridder.t,
     Regridder._get_default_filename self
     = inr (spec_filename (Regridder.method self)
              (Regridder.Ny_in self) (Regridder.Nx_in self)
              (Regridder.Ny_out self) (Regridder.Nx_out self)
              (Regridder.periodic self)))
  ∧ (∀ self : Regridder.t,
       Regridder.method self = "bilinear" →
       (Regridder.Ny_in self, Regridder.Nx_in self) = (400, 600) →
       (Regridder.Ny_out self, Regridder.Nx_out self) = (300, 400) →
       Regridder.periodic self = false →
       Regridder._get_default_filename self = inr "bilinear_400x600_300x400.nc")
  ∧ (∀ ds_in ds_out method periodic filename reuse_weights
       lat_in lon_in lat_b_in lon_b_in lat_out lon_out lat_b_out lon_b_out
       (w w' : world) (self : Regridder.t),
       Regridder.__init__ ds_in ds_out method periodic filename reuse_weights
         lat_in lon_in lat_b_in lon_b_in lat_out lon_out lat_b_out lon_b_out w
       = (w', inr self) →
       Regridder.filename self
       = Some (match filename with
               | Some given => given
               | None =>
                   spec_filename (Regridder.method self)
                     (Regridder.Ny_in self) (Regridder.Nx_in self)
                     (Regridder.Ny_out self) (Regridder.Nx_out self)
                     (Regridder.periodic self)
               end)).
Proof.
  split; [apply default_filename_spec|]. split.
  - intros self Hm Hin Hout Hp. rewrite default_filename_spec.
    injection Hin as -> ->. injection Hout as -> ->. rewrite Hm, Hp.
    by vm_compute.
  - intros * Hrun.
    apply init_returns in Hrun
      as (self0 & name & weights & w1 & w2 & _ & _ & _ & _ & -> & _ & _ & _ & _ & Hname).
    simpl. destruct filename as [given|]; [by subst|].
    rewrite default_filename_spec in Hname. by injection Hname as <-.
Qed.

(** Claim C4. Whatever periodic flag the caller gives, a regridder
    constructed with the conservative method is not periodic, and its
    default file name, computed after the flag was forced, does not end in
    [_peri.nc]. *)
Theorem conservative_is_never_periodic ds_in ds_out periodic filename
    reuse_weights lat_in lon_in lat_b_in lon_b_in
    lat_out lon_out lat_b_out lon_b_out (w w' : world) (self : Regridder.t) :
  Regridder.__init__ ds_in ds_out "conservative" periodic filename reuse_weights
    lat_in lon_in lat_b_in lon_b_in lat_out lon_out lat_b_out lon_b_out w
  = (w', inr self) →
  Regridder.periodic self = false
  ∧ (filename = None →
     ∃ name,
       Regridder.filename self = Some name
       ∧ name = spec_filename "conservative"
                  (Regridder.Ny_in self) (Regridder.Nx_in self)
                  (Regridder.Ny_out self) (Regridder.Nx_out self) false
       ∧ py.endswith name "_peri.nc" = false).
Proof.
  intros Hrun.
  apply init_returns in Hrun
    as (self0 & name & weights & w1 & w2 & _ & _ & _ & _ & -> & Hm & Hp & _ & _ & Hname).
  simpl. rewrite decide_True in Hp by done. split; [done|].
  intros ->. rewrite default_filename_spec, Hm, Hp in Hname.
  injection Hname as <-. eexists. split; [done|]. split; [done|].
  unfold spec_filename.
  rewrite <- !str_app_assoc. do 2 rewrite str_app_assoc.
  apply not_endswith_peri.
Qed.
End naming.

Section lifecycle_thm.
Context `{Collaborators}.

(** Claim C3. When the weight file exists and [reuse_weights] is set,
    [_write_weight_file] only prints a notice: the file system is untouched
    and the weight generation is not called. When the file exists and
    [reuse_weights] is not set, the file is removed and the weights are
    generated again, on the file system without it. A construction that
    returns obeys both. *)
Theorem weight_file_reused_or_regenerated :
  (∀ (self : Regridder.t) (w : world) (name : string),
     Regridder.filename self = Some name →
     is_Some (fs w !! name) →
     Regridder.reuse_weights self = true →
     Regridder._write_weight_file self w
     = (mk_world (fs w) (stdout w ++ ["Reuse existing file: " +:+ name]) (calls w),
        inr ()))
  ∧ (∀ (self : Regridder.t) (w : world) (name content : string),
       Regridder.filename self = Some name →
       fs w !! name = Some (os.File content) →
       Regridder.reuse_weights self = false →
       Regridder._write_weight_file self w
       = (let '(fs', r) :=
            esmf_regrid_build (Regridder._grid_in self) (Regridder._grid_out self)
              (Regridder.method self) name (delete name (fs w)) in
          (mk_world fs' (stdout w ++ [overwrite_notice name])
             (calls w ++ [build_call self name]
                ++ match r with
                   | inr regrid => [call_esmf_regrid_finalize regrid]
                   | inl _ => []
                   end),
           r ≫= esmf_regrid_finalize)))
  ∧ (∀ ds_in ds_out method periodic filename reuse_weights
       lat_in lon_in lat_b_in lon_b_in lat_out lon_out lat_b_out lon_b_out
       (w w' : world) (self : Regridder.t),
       Regridder.__init__ ds_in ds_out method periodic filename reuse_weights
         lat_in lon_in lat_b_in lon_b_in lat_out lon_out lat_b_out lon_b_out w
       = (w', inr self) →
       ∃ name,
         Regridder.filename self = Some name
         ∧ (reuse_weights = true → is_Some (fs w !! name) →
            fs w' = fs w ∧ build_calls w' = build_calls w)
         ∧ (reuse_weights = false →
            ∀ content, fs w !! name = Some (os.File content) →
            build_calls w' = build_calls w ++ [build_call self name]
            ∧ ∃ regrid,
                esmf_regrid_build (Regridder._grid_in self)
                  (Regridder._grid_out self) method name (delete name (fs w))
                = (fs w', inr regrid))).
Proof.
  split; [apply write_weight_file_reuse|].
  split; [apply write_weight_file_overwrite|].
  intros * Hrun.
  apply init_returns in Hrun
    as (self0 & name & weights & w1 & w2 & [Hfs Hcalls] & Hwrite & _ & -> & ->
        & Hm & _ & _ & Hreuse & _).
  exists name. split; [done|]. unfold build_calls in *. simpl. split.
  - intros -> Hfile. rewrite <- Hfs in Hfile.
    rewrite (write_weight_file_reuse _ _ name) in Hwrite by done.
    injection Hwrite as <-. simpl. split; [done|].
    rewrite filter_app, filter_cons_False, filter_nil, app_nil_r by done.
    done.
  - intros -> content Hfile. rewrite <- Hfs in Hfile.
    rewrite (write_weight_file_overwrite _ _ name content) in Hwrite by done.
    simpl in Hwrite. rewrite Hm, Hfs in Hwrite.
    destruct (esmf_regrid_build _ _ _ _ _) as [fs' [e|regrid]]; [done|].
    injection Hwrite as <- _. simpl. split; [|by eexists].
    rewrite !filter_app, Hcalls. unfold build_call. simpl.
    rewrite Hm.
    rewrite (filter_cons_True _ (call_esmf_regrid_build _ _ _ _)) by done.
    rewrite !filter_cons_False, !filter_nil by done.
    by rewrite !app_nil_r.
Qed.
End lifecycle_thm.

Section boundary.
Context `{Collaborators}.
#[local] Existing Instances quiet_refl quiet_trans unbuilt_refl unbuilt_trans.

Lemma contains_None {X} (key : string) (m : gmap string X) :
  m !! key = None → contains key m = false.
Proof.
  intros Hk. unfold contains. apply bool_decide_eq_false_2.
  rewrite Hk. by intros [??].
Qed.

Lemma contains_Some {X} (key : string) (m : gmap string X) (x : X) :
  m !! key = Some x → contains key m = true.
Proof. intros Hk. unfold contains. apply bool_decide_eq_true_2. by rewrite Hk. Qed.

(** The failure path of the locator on a dataset: the [ValueError] is
    caught, the message printed, and the [return] finds no local bound. *)
Lemma get_latlon_name_boundary_unbound (vars : gmap string xr.variable) (w : world) :
  vars !! "lat_b" = None → vars !! "latitude_b" = None →
  get_latlon_name (Dataset vars) true w
  = (mk_world (fs w) (stdout w ++ [convention_message]) (calls w),
     inl (py.UnboundLocalError "lat_name")).
Proof.
  intros H1 H2. unfold get_latlon_name, try_except, mbind, M_bind, lift. simpl.
  by rewrite (contains_None _ _ H1), (contains_None _ _ H2).
Qed.

Lemma get_latlon_name_unbound (vars : gmap string xr.variable) (w : world) :
  vars !! "lat" = None → vars !! "latitude" = None →
  get_latlon_name (Dataset vars) false w
  = (mk_world (fs w) (stdout w ++ [convention_message]) (calls w),
     inl (py.UnboundLocalError "lat_name")).
Proof.
  intros H1 H2. unfold get_latlon_name, try_except, mbind, M_bind, lift. simpl.
  by rewrite (contains_None _ _ H1), (contains_None _ _ H2).
Qed.

(** The two conventions on a dataset, [lat]/[lon] first. *)
Lemma get_latlon_name_coards (vars : gmap string xr.variable) v (w : world) :
  vars !! "lat" = Some v →
  get_latlon_name (Dataset vars) false w = (w, inr ("lat", "lon")).
Proof.
  intros H1. unfold get_latlon_name, try_except, mbind, M_bind, lift. simpl.
  by rewrite (contains_Some _ _ _ H1).
Qed.

Lemma get_latlon_name_cf (vars : gmap string xr.variable) v (w : world) :
  vars !! "lat" = None → vars !! "latitude" = Some v →
  get_latlon_name (Dataset vars) false w = (w, inr ("latitude", "longitude")).
Proof.
  intros H1 H2. unfold get_latlon_name, try_except, mbind, M_bind, lift. simpl.
  by rewrite (contains_None _ _ H1), (contains_Some _ _ _ H2).
Qed.

Lemma get_latlon_name_dict (items : gmap string entry) boundary (w : world) :
  get_latlon_name (Dict items) boundary w
  = (w, inl (py.AttributeError "'dict' object has no attribute 'variables'")).
Proof. by destruct boundary. Qed.

Lemma locator_fails (ds : GridDescription) (w : world) :
  lacks_boundary_keys ds →
  ∃ w1 e, get_latlon_name ds true w = (w1, inl e) ∧ quiet w w1.
Proof.
  destruct ds as [vars|items]; intros [H1 H2].
  - eexists _, _. split; [by apply get_latlon_name_boundary_unbound|done].
  - eexists _, _. split; [apply get_latlon_name_dict|done].
Qed.

Lemma resolve_boundary_names_fails (ds : GridDescription) (w : world) :
  lacks_boundary_keys ds →
  ∃ w1 e, Regridder.resolve_names ds true None None w = (w1, inl e) ∧ quiet w w1.
Proof.
  intros Hds. destruct (locator_fails ds w Hds) as (w1 & e & Hrun & Hq).
  exists w1, e. split; [|done].
  unfold Regridder.resolve_names. simpl. by rewrite (bind_inl _ _ _ _ _ Hrun).
Qed.

(** Claim C10. For a grid description with neither [lat_b] nor
    [latitude_b], the lookup of the boundary names raises (on a dataset,
    after printing the message, because the names it should return were
    never bound), and so does the construction of a regridder for any
    method when that description is the source or the destination grid and
    no boundary names are given; no collaborator has been called by
    then. *)
Theorem construction_fails_without_boundary_keys (ds : GridDescription) :
  lacks_boundary_keys ds →
  (∀ w, ∃ w1 e,
     get_latlon_name ds true w = (w1, inl e)
     ∧ ∀ vars, ds = Dataset vars →
         e = py.UnboundLocalError "lat_name"
         ∧ w1 = mk_world (fs w) (stdout w ++ [convention_message]) (calls w))
  ∧ (∀ ds_out method periodic filename reuse_weights
       lat_in lon_in lat_out lon_out lat_b_out lon_b_out (w : world),
       ∃ w' e,
         Regridder.__init__ ds ds_out method periodic filename reuse_weights
           lat_in lon_in None None lat_out lon_out lat_b_out lon_b_out w
         = (w', inl e)
         ∧ quiet w w')
  ∧ (∀ ds_in method periodic filename reuse_weights
       lat_in lon_in lat_b_in lon_b_in lat_out lon_out (w : world),
       ∃ w' e,
         Regridder.__init__ ds_in ds method periodic filename reuse_weights
           lat_in lon_in lat_b_in lon_b_in lat_out lon_out None None w
         = (w', inl e)
         ∧ quiet w w').
Proof.
  intros Hds. split; [|split].
  - intros w. destruct ds as [vars|items]; destruct Hds as [H1 H2].
    + eexists _, _. split; [by apply get_latlon_name_boundary_unbound|].
      by intros ? [= <-].
    + eexists _, _. split; [apply get_latlon_name_dict|]. by intros ? [=].
  - intros *. unfold Regridder.__init__.
    destruct (decide (method = "conservative")) as [Hm|Hm]; cbv beta iota zeta.
    all: destruct (Regridder.resolve_names ds false lat_in lon_in w)
           as [wa [e|[lat_name lon_name]]] eqn:Ha;
      apply (keeps_run quiet) in Ha as Hqa; try apply resolve_names_quiet;
      [ rewrite (bind_inl _ _ _ _ _ Ha); by exists wa, e | ];
      rewrite (bind_step _ _ _ _ _ Ha); cbv beta iota zeta;
      destruct (resolve_boundary_names_fails ds wa Hds) as (wb & e & Hb & Hqb);
      rewrite (bind_inl _ _ _ _ _ Hb);
      exists wb, e; split; [done|]; by etrans.
  - intros *. unfold Regridder.__init__.
    destruct (decide (method = "conservative")) as [Hm|Hm]; cbv beta iota zeta.
    all: destruct (Regridder.resolve_names ds_in false lat_in lon_in w)
           as [wa [e|[lat_name_in lon_name_in]]] eqn:Ha;
      apply (keeps_run quiet) in Ha as Hqa; try apply resolve_names_quiet;
      [ rewrite (bind_inl _ _ _ _ _ Ha); by exists wa, e | ];
      rewrite (bind_step _ _ _ _ _ Ha); cbv beta iota zeta;
      destruct (Regridder.resolve_names ds_in true lat_b_in lon_b_in wa)
           as [wb [e|[lat_b_name_in lon_b_name_in]]] eqn:Hb;
      apply (keeps_run quiet) in Hb as Hqb; try apply resolve_names_quiet;
      [ rewrite (bind_inl _ _ _ _ _ Hb); exists wb, e; split; [done|]; by etrans | ];
      rewrite (bind_step _ _ _ _ _ Hb); cbv beta iota zeta;
      destruct (Regridder.resolve_names ds false lat_out lon_out wb)
           as [wc [e|[lat_name_out lon_name_out]]] eqn:Hc;
      apply (keeps_run quiet) in Hc as Hqc; try apply resolve_names_quiet;
      [ rewrite (bind_inl _ _ _ _ _ Hc); exists wc, e; split; [done|];
        etrans; [exact Hqa|]; by etrans | ];
      rewrite (bind_step _ _ _ _ _ Hc); cbv beta iota zeta;
      destruct (resolve_boundary_names_fails ds wc Hds) as (wd & e & Hd & Hqd);
      rewrite (bind_inl _ _ _ _ _ Hd);
      exists wd, e; split; [done|];
      etrans; [exact Hqa|]; etrans; [exact Hqb|]; by etrans.
Qed.
End boundary.

Section value_facts.

Lemma value_eqb_eq (a b : py.value) : py.value_eqb a b = true ↔ a = b.
Proof.
  revert b. induction a as [|s|items IH] using py.value_induction; intros b.
  - destruct b; simpl; split; (done || congruence).
  - destruct b as [|t|]; simpl; try (split; (done || congruence)).
    rewrite bool_decide_eq_true. split; congruence.
  - destruct b as [| |items']; simpl; try (split; (done || congruence)).
    revert items'. induction IH as [|x xs Hx _ IHxs]; intros [|y ys];
      try (split; (done || congruence)).
    rewrite andb_true_iff, Hx, IHxs. split.
    + intros [-> [= ->]]. done.
    + intros [= -> ->]. done.
Qed.

Lemma value_eqb_refl (a : py.value) : py.value_eqb a a = true.
Proof. by apply value_eqb_eq. Qed.

Lemma value_eqb_ne (a b : py.value) : a ≠ b → py.value_eqb a b = false.
Proof.
  intros Hne. destruct (py.value_eqb a b) eqn:Hab; [|done].
  by apply value_eqb_eq in Hab.
Qed.

#[local] Instance value_eq_dec : EqDecision py.value.
Proof.
  intros a b. destruct (py.value_eqb a b) eqn:Hab.
  - left. by apply value_eqb_eq.
  - right. intros Heq. apply value_eqb_eq in Heq. congruence.
Defined.

End value_facts.

Section coordinate_facts.
Context `{Scalar}.

Lemma DataArray_new_inr (data : np.ndarray) (dims name : py.value) da :
  xr.DataArray_new data dims name = inr da →
  da = xr.mk_DataArray data (xr.as_dims dims (np.ndim data)) name [] ∅.
Proof. unfold xr.DataArray_new. cbv zeta. case_decide; [by intros [= <-]|done]. Qed.

(** Assigning a coordinate touches nothing but the coordinates. *)
Lemma coords_setitem_inr (da : xr.DataArray) (key : py.value) c da' :
  xr.coords_setitem da key c = inr da' →
  xr.values da' = xr.values da ∧ xr.dims da' = xr.dims da
  ∧ xr.name da' = xr.name da ∧ xr.attrs da' = xr.attrs da.
Proof.
  unfold xr.coords_setitem. case_match; [done|]. cbv zeta.
  destruct (xr.update_check _ _); simpl; [done|by intros [= <-]].
Qed.

Lemma within_elem_of (ds allowed : list py.value) (d : py.value) :
  xr.within ds allowed = true → d ∈ ds → d ∈ allowed.
Proof.
  unfold xr.within. rewrite forallb_forall. intros Hall Hd.
  apply list_elem_of_In, Hall, existsb_exists in Hd as (d' & Hd' & Heq).
  apply value_eqb_eq in Heq as ->. by apply list_elem_of_In.
Qed.

Lemma add_dimensions_keeps (scalars ds : list py.value) (sh : list nat)
    (sizes sizes' : list (py.value * nat)) :
  xr.add_dimensions scalars ds sh sizes = inr sizes' →
  ∃ more, sizes' = sizes ++ more.
Proof.
  revert sh sizes. induction ds as [|d ds IH]; intros [|n sh] sizes; simpl;
    try (intros [= <-]; exists []; by rewrite app_nil_r).
  case_match; [done|]. destruct (xr.size_of d sizes) as [n'|].
  - case_decide; [|done]. apply IH.
  - intros (more & ->)%IH. exists ((d, n) :: more). by rewrite <- app_assoc.
Qed.

(** A coordinate on a dimension that the array does not have is refused,
    whatever else is wrong with it. *)
Lemma new_dimension_is_refused (da c : xr.DataArray) (key d : py.value) :
  xr.coords da = [] → xr.coords c = [] → xr.dims c = [d] →
  np.ndim (xr.values c) = 1 → d ∉ xr.dims da →
  ∃ e, xr.coords_setitem da key c = inl e.
Proof.
  intros Hda Hc Hdims Hndim Hnew. unfold xr.coords_setitem.
  case_match; [by eexists|]. cbv zeta. rewrite Hda, Hc, Hdims. simpl.
  destruct (np.shape (xr.values c)) as [|n [|??]] eqn:Hshape;
    unfold np.ndim in Hndim; rewrite Hshape in Hndim; try done.
  unfold xr.update_check, xr.calculate_dimensions. simpl.
  rewrite Hshape. simpl. case_match; [by eexists|]. simpl.
  destruct (xr.add_dimensions _ (xr.dims da) _ [(d, n)]) as [e|sizes] eqn:Hadd;
    simpl; [by eexists|].
  apply add_dimensions_keeps in Hadd as (more & ->).
  destruct (xr.within _ _) eqn:Hwithin; [|by eexists].
  destruct Hnew. eapply within_elem_of; [exact Hwithin|]. simpl. left.
Qed.
End coordinate_facts.

Section labeled.
Context `{Collaborators}.
#[local] Existing Instance value_eq_dec.

Lemma lift_inr {X} (r : py.result X) (w w' : world) (x : X) :
  lift r w = (w', inr x) → w' = w ∧ r = inr x.
Proof. unfold lift. by intros [= -> ->]. Qed.

Lemma attr_inr {X} (name : string) (a : option X) (w w' : world) (x : X) :
  attr name a w = (w', inr x) → w' = w ∧ a = Some x.
Proof. destruct a; [by intros [= -> ->]|done]. Qed.

(** The loop that copies the coordinates of the leading dimensions touches
    nothing but the coordinates. *)
Lemma copy_loop (dr_in : xr.DataArray) (dims : list py.value)
    (dr0 dr_out : xr.DataArray) (w w' : world) :
  for_each dims (copy_coordinate dr_in) dr0 w = (w', inr dr_out) →
  w' = w ∧ xr.values dr_out = xr.values dr0 ∧ xr.dims dr_out = xr.dims dr0
  ∧ xr.name dr_out = xr.name dr0 ∧ xr.attrs dr_out = xr.attrs dr0.
Proof.
  revert dr0 w. induction dims as [|x xs IH]; intros dr0 w Hrun.
  - by injection Hrun as <- <-.
  - simpl in Hrun. apply bind_inr in Hrun as (dr1 & w1 & Hbody & Hrun).
    apply bind_inr in Hbody as (c & w2 & Hget & Hset).
    apply lift_inr in Hget as [-> Hget]. apply lift_inr in Hset as [-> Hset].
    apply coords_setitem_inr in Hset as (Hv1 & Hd1 & Hn1 & Ha1).
    apply IH in Hrun as (-> & Hv & Hd & Hn & Ha).
    split_and!; [done|congruence..].
Qed.
End labeled.

Section closed.
Import doubles.
#[local] Existing Instances doubles.Z_scalar doubles.fake.

(** Closed equations are decided by evaluation. *)
Ltac by_vm :=
  lazymatch goal with |- ?a = _ => vm_cast_no_check (@eq_refl _ a) end.

(** Claim C5. On a dataset that follows neither naming convention,
    [get_latlon_name] prints the message and then raises
    [UnboundLocalError]: the [ValueError] that stands for the unrecognized
    convention is caught inside the function and never reaches the caller.
    On a plain dictionary it raises [AttributeError] whatever the keys. *)
Theorem unrecognized_convention_is_swallowed :
  get_latlon_name unconventional false empty_world
  = (mk_world ∅ [convention_message] [], inl (py.UnboundLocalError "lat_name"))
  ∧ get_latlon_name (rectilinear_dict 3 4) false empty_world
    = (empty_world,
       inl (py.AttributeError "'dict' object has no attribute 'variables'")).
Proof. split; by_vm. Qed.

(** Claim C9. For a destination dataset with 1-D coordinates on the
    dimensions [lat] and [lon], the horizontal dimensions recorded at
    construction are the pair of 1-tuples [(("lat",), ("lon",))], not the
    pair of names, and the labeled-array path then fails when it attaches
    the destination coordinates. The fallback branch, taken for a dictionary,
    and the 2-D branch both record a flat tuple of names. *)
Theorem rectilinear_horiz_dims_are_nested :
  ∃ w self,
    construct (rectilinear 3 4) (rectilinear 2 2) "bilinear" = (w, inr self)
    ∧ Regridder.horiz_dims self
      = Some (py.Tuple [py.Tuple [py.Str "lat"]; py.Tuple [py.Str "lon"]])
    ∧ (Regridder.regrid_dataarray self (field "time" 5) w).2
      = inl (py.ValueError
               "cannot add coordinates with new dimensions to a DataArray")
    ∧ Regridder.horiz_dims
        <$> (Regridder.__init__ (rectilinear 3 4) (rectilinear_dict 2 2)
               "bilinear" false None false None None None None
               (Some "lat") (Some "lon") (Some "lat_b") (Some "lon_b")
               empty_world).2
      = inr (Some (py.Tuple [py.Str "lat"; py.Str "lon"]))
    ∧ Regridder.horiz_dims
        <$> (construct (rectilinear 3 4) (curvilinear 2 2) "bilinear").2
      = inr (Some (py.Tuple [py.Str "y"; py.Str "x"])).
Proof.
  exists (construct (rectilinear 3 4) (rectilinear 2 2) "bilinear").1,
    (returned bilinear_400x600_300x400
       (construct (rectilinear 3 4) (rectilinear 2 2) "bilinear").2).
  split_and!; by_vm.
Qed.

(** The example of the spec: a 3x4 source grid, a 2x2 destination grid, and
    an input of shape [(5, 3, 4)]. *)
Lemma regrid_numpy_output_shape_witness :
  ∃ w self outdata w',
    construct (rectilinear 3 4) (rectilinear 2 2) "bilinear" = (w, inr self)
    ∧ Regridder.regrid_numpy self (zeros [5; 3; 4]) w = (w', inr outdata)
    ∧ np.shape outdata = [5; 2; 2].
Proof.
  set (run := construct (rectilinear 3 4) (rectilinear 2 2) "bilinear").
  set (self := returned bilinear_400x600_300x400 run.2).
  destruct (regrid_numpy_output_shape self (smm.mk_SparseOperator 4 12 [])
              (zeros [5; 3; 4]) run.1 ltac:(by_vm) ltac:(by_vm))
    as (outdata & w' & Hrun & _ & Hshape & _).
  exists run.1, self, outdata, w'.
  split; [by_vm|]. split; [exact Hrun|]. rewrite Hshape. by_vm.
Defined.

(** An input of shape [(5, 4, 3)] on the same regridder. *)
Lemma regrid_numpy_shape_mismatch_witness :
  ∃ w self,
    construct (rectilinear 3 4) (rectilinear 2 2) "bilinear" = (w, inr self)
    ∧ Regridder.regrid_numpy self (zeros [5; 4; 3]) w
      = (w, inl (py.AssertionError
           "The horizontal shape of input data is (4, 3), different from that ofthe regridder (3, 4)!")).
Proof.
  set (run := construct (rectilinear 3 4) (rectilinear 2 2) "bilinear").
  set (self := returned bilinear_400x600_300x400 run.2).
  exists run.1, self. split; [by_vm|].
  destruct (regrid_numpy_shape_mismatch self (zeros [5; 4; 3]) run.1) as [Hrun _].
  { intros Heq. vm_compute in Heq. discriminate. }
  etrans; [exact Hrun|]. by_vm.
Defined.


(** The constructions and runs used as concrete inputs below. *)
#[local] Abbreviation reusing :=
  (Regridder.__init__ (rectilinear 3 4) (rectilinear 2 2) "bilinear" false
     None true None None None None None None None None cached_world).
#[local] Abbreviation overwriting :=
  (Regridder.__init__ (rectilinear 3 4) (rectilinear 2 2) "bilinear" false
     None false None None None None None None None None cached_world).
#[local] Abbreviation conserving :=
  (Regridder.__init__ (rectilinear 3 4) (rectilinear 2 2) "conservative" true
     None false None None None None None None None None empty_world).
#[local] Abbreviation some_regridder := bilinear_400x600_300x400.

(** Two constructions in a world where the weight file exists, with and
    without [reuse_weights]. *)
Lemma weight_file_reused_or_regenerated_witness :
  (∃ w self,
     reusing = (w, inr self) ∧ fs w = fs cached_world ∧ build_calls w = [])
  ∧ (∃ w self,
       overwriting = (w, inr self)
       ∧ build_calls w = [build_call self "bilinear_3x4_2x2.nc"]).
Proof.
  destruct weight_file_reused_or_regenerated as (_ & _ & Hinit).
  split.
  - assert (reusing = (reusing.1, inr (returned some_regridder reusing.2)))
      as Hrun by by_vm.
    destruct (Hinit _ _ _ _ _ _ _ _ _ _ _ _ _ _ _ _ _ Hrun)
      as (name & Hname & Hreuse & _).
    assert (Some name = Some "bilinear_3x4_2x2.nc") as [= ->]
      by (etrans; [symmetry; exact Hname|by_vm]).
    destruct (Hreuse eq_refl) as [Hfs Hcalls].
    { exists (os.File "earlier weights"). by_vm. }
    eexists _, _. split; [exact Hrun|]. split; [exact Hfs|].
    etrans; [exact Hcalls|by_vm].
  - assert (overwriting = (overwriting.1, inr (returned some_regridder overwriting.2)))
      as Hrun by by_vm.
    destruct (Hinit _ _ _ _ _ _ _ _ _ _ _ _ _ _ _ _ _ Hrun)
      as (name & Hname & _ & Hregen).
    assert (Some name = Some "bilinear_3x4_2x2.nc") as [= ->]
      by (etrans; [symmetry; exact Hname|by_vm]).
    destruct (Hregen eq_refl "earlier weights") as [Hcalls _]; [by_vm|].
    eexists _, _. split; [exact Hrun|].
    etrans; [exact Hcalls|by_vm].
Defined.

(** A conservative regridder asked to be periodic. *)
Lemma conservative_is_never_periodic_witness :
  ∃ w self,
    conserving = (w, inr self)
    ∧ Regridder.periodic self = false
    ∧ ∃ name, Regridder.filename self = Some name
              ∧ py.endswith name "_peri.nc" = false.
Proof.
  assert (conserving = (conserving.1, inr (returned some_regridder conserving.2)))
    as Hrun by by_vm.
  destruct (conservative_is_never_periodic _ _ _ _ _ _ _ _ _ _ _ _ _ _ _ _ Hrun)
    as [Hperiodic Hname].
  destruct (Hname eq_refl) as (name & Hfile & _ & Hsuffix).
  eexists _, _. split; [exact Hrun|]. split; [exact Hperiodic|].
  exists name. split; [exact Hfile|exact Hsuffix].
Defined.

(** Four longitudes and three latitudes. *)
Lemma as_2d_mesh_of_vectors_witness :
  ∃ lon2d lat2d,
    as_2d_mesh (vector 4) (vector 3) = inr (lon2d, lat2d)
    ∧ np.shape lon2d = [3; 4]
    ∧ np.row lon2d 1 = np.data (vector 4)
    ∧ np.column lat2d 2 = np.data (vector 3).
Proof.
  destruct (as_2d_mesh_of_vectors (vector 4) (vector 3)
              4 3 eq_refl eq_refl eq_refl eq_refl)
    as (lon2d & lat2d & Hmesh & Hshape & _ & _ & _ & Hrow & Hcol).
  exists lon2d, lat2d. split; [exact Hmesh|]. split; [exact Hshape|].
  split; [apply Hrow; lia|apply Hcol; lia].
Defined.

#[local] Abbreviation onto_rectilinear :=
  (construct (rectilinear 3 4) (rectilinear 2 2) "bilinear").

(** The example of the spec, and the name a constructed regridder carries. *)
Lemma default_filename_format_witness :
  Regridder._get_default_filename bilinear_400x600_300x400
  = inr "bilinear_400x600_300x400.nc"
  ∧ ∃ w self,
      onto_rectilinear = (w, inr self)
      ∧ Regridder.filename self = Some "bilinear_3x4_2x2.nc".
Proof.
  destruct default_filename_format as (_ & Hexample & Hinit). split.
  - apply Hexample; reflexivity.
  - assert (onto_rectilinear
            = (onto_rectilinear.1, inr (returned some_regridder onto_rectilinear.2)))
      as Hrun by by_vm.
    eexists _, _. split; [exact Hrun|].
    etrans; [exact (Hinit _ _ _ _ _ _ _ _ _ _ _ _ _ _ _ _ _ Hrun)|by_vm].
Defined.

(** A bilinear regridder from a dataset with cell centres only. *)
Lemma construction_fails_without_boundary_keys_witness :
  ∃ w e,
    Regridder.__init__ (centers_only 3 4) (rectilinear 2 2) "bilinear" false
      None false None None None None None None None None empty_world
    = (w, inl e)
    ∧ calls w = [].
Proof.
  destruct (construction_fails_without_boundary_keys (centers_only 3 4))
    as (_ & Hinit & _).
  { split; by_vm. }
  destruct (Hinit (rectilinear 2 2) "bilinear" false None false
              None None None None None None empty_world)
    as (w & e & Hrun & _ & Hcalls).
  exists w, e. split; [exact Hrun|exact Hcalls].
Defined.
End closed.

(** ** Further properties of the frontend *)

Section mesh_more.
Context `{Scalar}.

Lemma shape_T (a : np.ndarray) : np.shape (np.T a) = reverse (np.shape a).
Proof. reflexivity. Qed.

Lemma as_2d_mesh_inr (lon lat lon2d lat2d : np.ndarray) :
  as_2d_mesh lon lat = inr (lon2d, lat2d) →
  np.ndim lon2d = 2 ∧ np.shape lat2d = np.shape lon2d
  ∧ ((np.ndim lon = 2 ∧ np.ndim lat = 2 ∧ lon2d = lon ∧ lat2d = lat)
     ∨ (np.ndim lon = 1 ∧ np.ndim lat = 1
        ∧ np.shape lon2d = [np.size lat; np.size lon])).
Proof.
  unfold as_2d_mesh. intros Hrun.
  destruct (decide ((np.ndim lon, np.ndim lat) = (2, 2))) as [[= Hlon Hlat]|_].
  - destruct (decide (np.shape lon = np.shape lat)) as [Hsame|_]; [|done].
    injection Hrun as <- <-. split_and!; [done|done|]. by left.
  - destruct (decide ((np.ndim lon, np.ndim lat) = (1, 1))) as [[= Hlon Hlat]|_];
      [|done].
    injection Hrun as <- <-. split_and!; [done|done|]. by right.
Qed.

(** Property X1. When [as_2d_mesh] returns, its first result is 2-D and the
    second has the same shape; two 2-D inputs come back as they were, and
    two 1-D inputs give a mesh of shape [(size of lat, size of lon)]. *)
Theorem as_2d_mesh_returns_mesh (lon lat lon2d lat2d : np.ndarray) :
  as_2d_mesh lon lat = inr (lon2d, lat2d) →
  np.ndim lon2d = 2 ∧ np.shape lat2d = np.shape lon2d
  ∧ ((np.ndim lon = 2 ∧ np.ndim lat = 2 ∧ lon2d = lon ∧ lat2d = lat)
     ∨ (np.ndim lon = 1 ∧ np.ndim lat = 1
        ∧ np.shape lon2d = [np.size lat; np.size lon])).
Proof. apply as_2d_mesh_inr. Qed.

(** Property X2. [as_2d_mesh] raises [AssertionError] on two 2-D arrays of
    different shapes, and [ValueError] when the ranks are neither both 2
    nor both 1. *)
Theorem as_2d_mesh_rejects (lon lat : np.ndarray) :
  (np.ndim lon = 2 → np.ndim lat = 2 → np.shape lon ≠ np.shape lat →
   as_2d_mesh lon lat
   = inl (py.AssertionError "lon and lat should have same shape"))
  ∧ ((np.ndim lon, np.ndim lat) ≠ (2, 2) → (np.ndim lon, np.ndim lat) ≠ (1, 1) →
     as_2d_mesh lon lat
     = inl (py.ValueError "lon and lat should be both 1D or 2D")).
Proof.
  unfold as_2d_mesh. split.
  - intros -> -> Hshape. rewrite decide_True by done. by rewrite decide_False.
  - intros H2 H1. by rewrite !decide_False.
Qed.
End mesh_more.

Section locator_more.
Context `{Collaborators}.

Lemma contains_true {X} (key : string) (m : gmap string X) :
  contains key m = true → is_Some (m !! key).
Proof. unfold contains. by intros ?%bool_decide_eq_true. Qed.

Lemma contains_false {X} (key : string) (m : gmap string X) :
  contains key m = false → m !! key = None.
Proof.
  unfold contains. intros Hk%bool_decide_eq_false.
  destruct (m !! key); [|done]. destruct Hk. by eexists.
Qed.

(** What the locator has found when it returns. *)
Lemma get_latlon_name_inr (ds : GridDescription) (boundary : bool)
    (w w' : world) (names : string * string) :
  get_latlon_name ds boundary w = (w', inr names) →
  w' = w
  ∧ ∃ vars, ds = Dataset vars
      ∧ ((names = coards_names boundary ∧ is_Some (vars !! (coards_names boundary).1))
         ∨ (names = cf_names boundary
            ∧ vars !! (coards_names boundary).1 = None
            ∧ is_Some (vars !! (cf_names boundary).1))).
Proof.
  destruct ds as [vars|items]; [|by destruct boundary].
  unfold get_latlon_name, try_except, mbind, M_bind, lift.
  destruct boundary; simpl.
  - destruct (contains "lat_b" vars) eqn:H1; simpl.
    { intros [= <- <-]. split; [done|]. exists vars. split; [done|]. left.
      split; [done|]. by apply contains_true. }
    destruct (contains "latitude_b" vars) eqn:H2; simpl; [|done].
    intros [= <- <-]. split; [done|]. exists vars. split; [done|]. right.
    split_and!; [done|by apply contains_false|by apply contains_true].
  - destruct (contains "lat" vars) eqn:H1; simpl.
    { intros [= <- <-]. split; [done|]. exists vars. split; [done|]. left.
      split; [done|]. by apply contains_true. }
    destruct (contains "latitude" vars) eqn:H2; simpl; [|done].
    intros [= <- <-]. split; [done|]. exists vars. split; [done|]. right.
    split_and!; [done|by apply contains_false|by apply contains_true].
Qed.

(** Property X3. When [get_latlon_name] returns, the world is as it was
    (nothing was printed), the names are those of one of the two
    conventions, the description is a dataset, and the latitude name is one
    of its variables. Only the latitude name is looked up. *)
Theorem get_latlon_name_returns (ds : GridDescription) (boundary : bool)
    (w w' : world) (lat_name lon_name : string) :
  get_latlon_name ds boundary w = (w', inr (lat_name, lon_name)) →
  w' = w
  ∧ ((lat_name, lon_name) = coards_names boundary
     ∨ (lat_name, lon_name) = cf_names boundary)
  ∧ ∃ vars, ds = Dataset vars ∧ is_Some (vars !! lat_name).
Proof.
  intros (-> & vars & -> & [[Hn Hk]|(Hn & _ & Hk)])%get_latlon_name_inr.
  - split; [done|]. split; [by left|]. exists vars. split; [done|].
    by rewrite <- Hn in Hk.
  - split; [done|]. split; [by right|]. exists vars. split; [done|].
    by rewrite <- Hn in Hk.
Qed.
End locator_more.

Section grid_builder.
Context `{Collaborators}.

Lemma getitem_variable (vars : gmap string xr.variable) (k : string)
    (v : xr.variable) :
  vars !! k = Some v → getitem (Dataset vars) (Some k) = inr (entry_DataArray v).
Proof. intros Hk. unfold getitem, dataset_getitem. by rewrite Hk. Qed.

(** On a dataset, [ds[name]] is a labeled array whenever it returns. *)
Lemma getitem_dataset (vars : gmap string xr.variable) (name : option string)
    (e : entry) :
  getitem (Dataset vars) name = inr e → ∃ v, e = entry_DataArray v.
Proof.
  destruct name as [k|]; [|done]. unfold getitem.
  destruct (dataset_getitem vars k) as [?|v]; [done|].
  intros [= <-]. by exists v.
Qed.

(** Property X4. On a dataset with a variable [lat] and neither a variable
    nor a dimension called [lon], the locator still returns
    [("lat", "lon")], and building the grid raises [KeyError('lon')] with
    the world unchanged, whether the names are looked up or given. *)
Theorem missing_longitude_is_a_KeyError (vars : gmap string xr.variable)
    (v : xr.variable) need_bounds lat_b lon_b periodic (w : world) :
  vars !! "lat" = Some v → vars !! "lon" = None →
  xr.dataset_dim_size vars "lon" = None →
  get_latlon_name (Dataset vars) false w = (w, inr ("lat", "lon"))
  ∧ ds_to_ESMFgrid (Dataset vars) need_bounds None None lat_b lon_b periodic w
    = (w, inl (py.KeyError (py.Str "lon")))
  ∧ ds_to_ESMFgrid (Dataset vars) need_bounds (Some "lat") (Some "lon")
      lat_b lon_b periodic w
    = (w, inl (py.KeyError (py.Str "lon"))).
Proof.
  intros Hlat Hlon Hdim.
  pose proof (get_latlon_name_coards vars v w Hlat) as Hloc.
  assert (getitem (Dataset vars) (Some "lon") = inl (py.KeyError (py.Str "lon")))
    as Hget.
  { unfold getitem, dataset_getitem. by rewrite Hlon, Hdim. }
  split; [exact Hloc|]. split.
  - unfold ds_to_ESMFgrid. cbn -[getitem].
    rewrite (bind_step _ _ _ _ _ (bind_step _ _ _ _ _ Hloc)).
    unfold mbind, M_bind, lift, mret, M_ret. cbn -[getitem].
    by rewrite (getitem_variable _ _ _ Hlat), Hget.
  - unfold ds_to_ESMFgrid, mbind, M_bind, lift, mret, M_ret. cbn -[getitem].
    by rewrite Hget.
Qed.

(** A run of [ds_to_ESMFgrid] that returns, step by step. *)
Lemma ds_to_ESMFgrid_returns ds need_bounds lat lon lat_b lon_b periodic
    (w w' : world) (grid : Grid) (shape : list nat) :
  ds_to_ESMFgrid ds need_bounds lat lon lat_b lon_b periodic w
  = (w', inr (grid, shape)) →
  ∃ lat_name lon_name lon_arr lat_arr lon2d lat2d grid0,
    (if bool_decide (lat = None) && bool_decide (lon = None)
     then ∃ first second,
            get_latlon_name ds false w = (w, inr (first, second))
            ∧ lon_name = Some first ∧ lat_name = Some second
     else lat_name = lat ∧ lon_name = lon)
    ∧ asarray <$> getitem ds lon_name = inr lon_arr
    ∧ asarray <$> getitem ds lat_name = inr lat_arr
    ∧ as_2d_mesh lon_arr lat_arr = inr (lon2d, lat2d)
    ∧ esmf_grid (np.T lon2d) (np.T lat2d) periodic = inr grid0
    ∧ shape = np.shape lon2d
    ∧ fs w' = fs w ∧ stdout w' = stdout w
    ∧ (if need_bounds
       then ∃ lon_bT lat_bT,
              add_corner grid0 lon_bT lat_bT = inr grid
              ∧ calls w' = calls w
                  ++ [call_esmf_grid (np.T lon2d) (np.T lat2d) periodic;
                      call_add_corner grid0 lon_bT lat_bT]
       else grid = grid0
            ∧ calls w' = calls w
                ++ [call_esmf_grid (np.T lon2d) (np.T lat2d) periodic]).
Proof.
  unfold ds_to_ESMFgrid. intros Hrun.
  apply bind_inr in Hrun as ([lat_name lon_name] & w1 & Hnames & Hrun).
  apply bind_inr in Hrun as (lon_arr & ? & [-> Hlon]%lift_inr & Hrun).
  apply bind_inr in Hrun as (lat_arr & ? & [-> Hlat]%lift_inr & Hrun).
  apply bind_inr in Hrun as ([lon2d lat2d] & ? & [-> Hmesh]%lift_inr & Hrun).
  apply bind_inr in Hrun as (grid0 & w2 & Hgrid & Hrun).
  unfold invoke in Hgrid. injection Hgrid as <- Hgrid.
  apply bind_inr in Hrun as (grid1 & w3 & Hcorner & Hrun).
  injection Hrun as <- <- <-.
  assert (w1 = w ∧
    (if bool_decide (lat = None) && bool_decide (lon = None)
     then ∃ first second,
            get_latlon_name ds false w = (w, inr (first, second))
            ∧ lon_name = Some first ∧ lat_name = Some second
     else lat_name = lat ∧ lon_name = lon)) as [-> Hresolved].
  { destruct (bool_decide (lat = None) && bool_decide (lon = None)).
    - apply bind_inr in Hnames as ([first second] & w0 & Hloc & Hret).
      pose proof Hloc as [-> _]%get_latlon_name_inr.
      injection Hret as <- <- <-. split; [done|]. by exists first, second.
    - by injection Hnames as <- <- <-. }
  exists lat_name, lon_name, lon_arr, lat_arr, lon2d, lat2d, grid0.
  split_and!; try done.
  - destruct need_bounds.
    + apply bind_inr in Hcorner as ([lat_b' lon_b'] & w4 & Hb & Hcorner).
      assert (fs w4 = fs w ∧ stdout w4 = stdout w) as [<- _].
      { destruct (bool_decide (lat_b = None) && bool_decide (lon_b = None)).
        - apply bind_inr in Hb as ([first second] & w0 & Hloc & Hret).
          apply get_latlon_name_inr in Hloc as [-> _].
          by injection Hret as <- _ _.
        - by injection Hb as <- _ _. }
      apply bind_inr in Hcorner as (? & ? & [-> _]%lift_inr & Hcorner).
      apply bind_inr in Hcorner as (? & ? & [-> _]%lift_inr & Hcorner).
      apply bind_inr in Hcorner as ([??] & ? & [-> _]%lift_inr & Hcorner).
      by injection Hcorner as <- _.
    + by injection Hcorner as <- _.
  - destruct need_bounds.
    + apply bind_inr in Hcorner as ([lat_b' lon_b'] & w4 & Hb & Hcorner).
      assert (stdout w4 = stdout w) as <-.
      { destruct (bool_decide (lat_b = None) && bool_decide (lon_b = None)).
        - apply bind_inr in Hb as ([first second] & w0 & Hloc & Hret).
          apply get_latlon_name_inr in Hloc as [-> _].
          by injection Hret as <- _ _.
        - by injection Hb as <- _ _. }
      apply bind_inr in Hcorner as (? & ? & [-> _]%lift_inr & Hcorner).
      apply bind_inr in Hcorner as (? & ? & [-> _]%lift_inr & Hcorner).
      apply bind_inr in Hcorner as ([??] & ? & [-> _]%lift_inr & Hcorner).
      by injection Hcorner as <- _.
    + by injection Hcorner as <- _.
  - destruct need_bounds.
    + apply bind_inr in Hcorner as ([lat_b' lon_b'] & w4 & Hb & Hcorner).
      assert (calls w4 = calls w ++ [call_esmf_grid (np.T lon2d) (np.T lat2d) periodic])
        as Hcalls.
      { destruct (bool_decide (lat_b = None) && bool_decide (lon_b = None)).
        - apply bind_inr in Hb as ([first second] & w0 & Hloc & Hret).
          apply get_latlon_name_inr in Hloc as [-> _].
          by injection Hret as <- _ _.
        - by injection Hb as <- _ _. }
      apply bind_inr in Hcorner as (lon_b_arr & ? & [-> _]%lift_inr & Hcorner).
      apply bind_inr in Hcorner as (lat_b_arr & ? & [-> _]%lift_inr & Hcorner).
      apply bind_inr in Hcorner as ([lon_b2d lat_b2d] & ? & [-> _]%lift_inr & Hcorner).
      unfold invoke in Hcorner. injection Hcorner as <- Hcorner.
      exists (np.T lon_b2d), (np.T lat_b2d). split; [done|]. simpl.
      by rewrite Hcalls, <- app_assoc.
    + by injection Hcorner as <- <-.
Qed.
End grid_builder.

Section grid_builder_more.
Context `{Collaborators}.

Lemma mesh_shape_of_vectors (lon lat lon2d lat2d : np.ndarray) (Nx Ny : nat) :
  np.shape lon = [Nx] → np.shape lat = [Ny] →
  as_2d_mesh lon lat = inr (lon2d, lat2d) → np.shape lon2d = [Ny; Nx].
Proof.
  intros Hlon Hlat Hmesh. unfold as_2d_mesh, np.ndim in Hmesh.
  rewrite Hlon, Hlat in Hmesh. simpl in Hmesh. injection Hmesh as <- _.
  unfold np.size. rewrite Hlon, Hlat. simpl. by rewrite !Nat.mul_1_r.
Qed.

(** Property X5. For a dataset with 1-D [lat] of length [Ny] and 1-D [lon]
    of length [Nx]: when [ds_to_ESMFgrid] is called without names and
    returns, the shape it returns is [(Nx, Ny)], because it unpacks the
    names found in the opposite order; with the names [lat] and [lon] given
    it is [(Ny, Nx)]. *)
Theorem ds_to_ESMFgrid_unnamed_is_swapped (vars : gmap string xr.variable)
    (vlat vlon : xr.variable) (Ny Nx : nat) need_bounds lat_b lon_b periodic
    (w w' : world) (grid : Grid) (shape : list nat) :
  vars !! "lat" = Some vlat → vars !! "lon" = Some vlon →
  np.shape (xr.var_values vlat) = [Ny] → np.shape (xr.var_values vlon) = [Nx] →
  (ds_to_ESMFgrid (Dataset vars) need_bounds None None lat_b lon_b periodic w
   = (w', inr (grid, shape)) → shape = [Nx; Ny])
  ∧ (ds_to_ESMFgrid (Dataset vars) need_bounds (Some "lat") (Some "lon")
       lat_b lon_b periodic w
     = (w', inr (grid, shape)) → shape = [Ny; Nx]).
Proof.
  intros Hlat Hlon Hny Hnx. split.
  - intros (lat_name & lon_name & lon_arr & lat_arr & lon2d & lat2d & grid0
            & Hnames & Hlon_arr & Hlat_arr & Hmesh & _ & -> & _)%ds_to_ESMFgrid_returns.
    simpl in Hnames. destruct Hnames as (first & second & Hloc & -> & ->).
    rewrite (get_latlon_name_coards vars vlat w Hlat) in Hloc.
    injection Hloc as <- <-.
    rewrite (getitem_variable _ _ _ Hlat) in Hlon_arr.
    rewrite (getitem_variable _ _ _ Hlon) in Hlat_arr.
    injection Hlon_arr as <-. injection Hlat_arr as <-.
    by eapply mesh_shape_of_vectors.
  - intros (lat_name & lon_name & lon_arr & lat_arr & lon2d & lat2d & grid0
            & Hnames & Hlon_arr & Hlat_arr & Hmesh & _ & -> & _)%ds_to_ESMFgrid_returns.
    simpl in Hnames. destruct Hnames as [-> ->].
    rewrite (getitem_variable _ _ _ Hlon) in Hlon_arr.
    rewrite (getitem_variable _ _ _ Hlat) in Hlat_arr.
    injection Hlon_arr as <-. injection Hlat_arr as <-.
    by eapply mesh_shape_of_vectors.
Qed.

(** Property X6. When [ds_to_ESMFgrid] returns, the file system and the
    output are untouched, the shape has two entries, the grid was built from
    two arrays of the reversed shape, and the calls logged are exactly
    [esmf_grid], followed by [add_corner] when and only when bounds are
    needed. *)
Theorem ds_to_ESMFgrid_effects ds need_bounds lat lon lat_b lon_b periodic
    (w w' : world) (grid : Grid) (shape : list nat) :
  ds_to_ESMFgrid ds need_bounds lat lon lat_b lon_b periodic w
  = (w', inr (grid, shape)) →
  fs w' = fs w ∧ stdout w' = stdout w ∧ length shape = 2
  ∧ ∃ lonT latT grid0,
      np.shape lonT = reverse shape ∧ np.shape latT = reverse shape
      ∧ esmf_grid lonT latT periodic = inr grid0
      ∧ (if need_bounds
         then ∃ lon_bT lat_bT,
                add_corner grid0 lon_bT lat_bT = inr grid
                ∧ calls w' = calls w ++ [call_esmf_grid lonT latT periodic;
                                         call_add_corner grid0 lon_bT lat_bT]
         else grid = grid0
              ∧ calls w' = calls w ++ [call_esmf_grid lonT latT periodic]).
Proof.
  intros (lat_name & lon_name & lon_arr & lat_arr & lon2d & lat2d & grid0
          & _ & _ & _ & Hmesh & Hgrid & -> & Hfs & Hout & Hcalls)%ds_to_ESMFgrid_returns.
  apply as_2d_mesh_inr in Hmesh as (Hndim & Hsame & _).
  split; [done|]. split; [done|]. split; [done|].
  exists (np.T lon2d), (np.T lat2d), grid0.
  split; [done|]. split; [by rewrite shape_T, Hsame|]. by split.
Qed.

End grid_builder_more.

Section call_frames.
Context `{Collaborators}.

#[local] Instance same_calls_refl p : Reflexive (same_calls p).
Proof. by intros w. Qed.
#[local] Instance same_calls_trans p : Transitive (same_calls p).
Proof. unfold same_calls. intros w1 w2 w3 ??. congruence. Qed.

Lemma quiet_same_calls p (w w' : world) : quiet w w' → same_calls p w w'.
Proof. intros [_ Hc]. unfold same_calls. by rewrite Hc. Qed.

Lemma keeps_quiet_same_calls {X} p (m : M X) :
  keeps quiet m → keeps (same_calls p) m.
Proof. intros Hm w. apply quiet_same_calls, Hm. Qed.

Lemma same_calls_snoc p (w : world) (c : call) f o :
  p c = false → same_calls p w (mk_world f o (calls w ++ [c])).
Proof.
  intros Hc. unfold same_calls. simpl.
  rewrite filter_app, filter_cons_False, filter_nil, app_nil_r; [done|].
  by rewrite Hc.
Qed.

Lemma keeps_invoke_same {X} p (c : call) (r : py.result X) :
  p c = false → keeps (same_calls p) (invoke c r).
Proof. intros Hc w. by apply same_calls_snoc. Qed.

Lemma keeps_invoke_fs_same {X} p (c : call)
    (f : os.filesystem → os.filesystem * py.result X) :
  p c = false → keeps (same_calls p) (invoke_fs c f).
Proof.
  intros Hc w. unfold invoke_fs. destruct (f (fs w)) as [fs' r].
  by apply same_calls_snoc.
Qed.

Lemma keeps_invoke_read_same {X} p (c : call) (f : os.filesystem → py.result X) :
  p c = false → keeps (same_calls p) (invoke_read c f).
Proof. intros Hc w. by apply same_calls_snoc. Qed.

Lemma keeps_print_same p (args : list string) : keeps (same_calls p) (print args).
Proof. by intros w. Qed.

Lemma keeps_exists_same p (path : string) : keeps (same_calls p) (os_path_exists path).
Proof. by intros w. Qed.

Lemma keeps_remove_same p (path : string) : keeps (same_calls p) (os_remove path).
Proof. intros w. unfold os_remove. by destruct (os.remove (fs w) path). Qed.

Ltac keeps_same :=
  repeat first
    [ apply keeps_ret; apply _
    | apply keeps_raise; apply _
    | apply keeps_lift; apply _
    | apply keeps_attr; apply _
    | apply keeps_print_same
    | apply keeps_exists_same
    | apply keeps_remove_same
    | apply keeps_invoke_same; reflexivity
    | apply keeps_invoke_fs_same; reflexivity
    | apply keeps_invoke_read_same; reflexivity
    | apply keeps_try_except; [apply _| |]
    | apply keeps_bind; [apply _| |intros ?]
    | case_match ].

Lemma resolve_names_same p ds boundary lat lon :
  keeps (same_calls p) (Regridder.resolve_names ds boundary lat lon).
Proof. apply keeps_quiet_same_calls, resolve_names_quiet. Qed.

Lemma ds_to_ESMFgrid_without_bounds ds lat lon lat_b lon_b periodic :
  keeps (same_calls is_add_corner)
    (ds_to_ESMFgrid ds false lat lon lat_b lon_b periodic).
Proof. unfold ds_to_ESMFgrid. keeps_same. Qed.

Lemma write_weight_file_no_corner (self : Regridder.t) :
  keeps (same_calls is_add_corner) (Regridder._write_weight_file self).
Proof. unfold Regridder._write_weight_file. keeps_same. Qed.

(** Property X7. For any method other than [conservative], constructing a
    regridder never calls [add_corner], whether the construction returns or
    raises. *)
Theorem nonconservative_never_adds_corners ds_in ds_out method periodic
    filename reuse_weights lat_in lon_in lat_b_in lon_b_in
    lat_out lon_out lat_b_out lon_b_out (w : world) :
  method ≠ "conservative" →
  same_calls is_add_corner w
    (Regridder.__init__ ds_in ds_out method periodic filename reuse_weights
       lat_in lon_in lat_b_in lon_b_in lat_out lon_out lat_b_out lon_b_out w).1.
Proof.
  intros Hm. revert w.
  change (keeps (same_calls is_add_corner)
    (Regridder.__init__ ds_in ds_out method periodic filename reuse_weights
       lat_in lon_in lat_b_in lon_b_in lat_out lon_out lat_b_out lon_b_out)).
  unfold Regridder.__init__. rewrite decide_False by done. cbv beta iota zeta.
  repeat first
    [ apply resolve_names_same
    | apply ds_to_ESMFgrid_without_bounds
    | apply write_weight_file_no_corner
    | apply keeps_ret; apply _
    | apply keeps_lift; apply _
    | apply keeps_invoke_read_same; reflexivity
    | apply keeps_try_except; [apply _| |]
    | apply keeps_bind; [apply _| |intros ?]
    | case_match ].
Qed.
End call_frames.

Section lifecycle_more.
Context `{Collaborators}.

Lemma path_exists_Some (f : os.filesystem) (path : string) (n : os.node) :
  f !! path = Some n → os.path_exists f path = true.
Proof. intros Hp. unfold os.path_exists. apply bool_decide_eq_true_2. by rewrite Hp. Qed.

Lemma path_exists_None (f : os.filesystem) (path : string) :
  f !! path = None → os.path_exists f path = false.
Proof.
  intros Hp. unfold os.path_exists. apply bool_decide_eq_false_2.
  rewrite Hp. by intros [??].
Qed.

Lemma clean_weight_file_run (self : Regridder.t) (w : world) (name : string) :
  Regridder.filename self = Some name →
  fs w !! name ≠ Some os.Directory →
  Regridder.clean_weight_file self w
  = (mk_world (delete name (fs w))
       (stdout w ++ [clean_notice (os.path_exists (fs w) name) name]) (calls w),
     inr ()).
Proof.
  intros Hname Hdir. unfold Regridder.clean_weight_file. rewrite Hname.
  unfold mbind, M_bind, attr, os_path_exists. simpl.
  destruct (fs w !! name) as [[content|]|] eqn:Hfile; [|done|].
  - rewrite (path_exists_Some _ _ _ Hfile). unfold lift, print, os_remove, os.remove.
    simpl. rewrite Hfile. simpl. by rewrite str_app_nil_r.
  - rewrite (path_exists_None _ _ Hfile). unfold lift, print. simpl.
    by rewrite delete_id.
Qed.

(** Property X8. When the weight file path of a regridder is not a
    directory, [clean_weight_file] returns; afterwards the path is absent,
    every other path is as before, no collaborator was called, and one
    notice was printed that tells whether the file was there. A second call
    only prints that the file is already removed. *)
Theorem clean_weight_file_removes_only_the_weight_file (self : Regridder.t)
    (w : world) (name : string) :
  Regridder.filename self = Some name →
  fs w !! name ≠ Some os.Directory →
  ∃ w1,
    Regridder.clean_weight_file self w = (w1, inr ())
    ∧ fs w1 !! name = None
    ∧ (∀ path, path ≠ name → fs w1 !! path = fs w !! path)
    ∧ calls w1 = calls w
    ∧ stdout w1 = stdout w ++ [clean_notice (os.path_exists (fs w) name) name]
    ∧ Regridder.clean_weight_file self w1
      = (mk_world (fs w1)
           (stdout w1 ++ ["File " +:+ name +:+ " is already removed."]) (calls w1),
         inr ()).
Proof.
  intros Hname Hdir.
  exists (mk_world (delete name (fs w))
            (stdout w ++ [clean_notice (os.path_exists (fs w) name) name]) (calls w)).
  split; [by apply clean_weight_file_run|]. cbn [fs stdout calls].
  split; [apply lookup_delete_eq|]. split; [by intros; apply lookup_delete_ne|].
  split; [done|]. split; [done|].
  rewrite (clean_weight_file_run self _ name); cbn [fs stdout calls]; try done.
  - rewrite (path_exists_None (delete name (fs w)) name) by apply lookup_delete_eq.
    rewrite (delete_id (delete name (fs w))) by apply lookup_delete_eq. done.
  - by rewrite lookup_delete_eq.
Qed.

Lemma write_weight_file_blocked (self : Regridder.t) (w : world) (name : string) :
  Regridder.filename self = Some name →
  fs w !! name = Some os.Directory →
  Regridder.reuse_weights self = false →
  Regridder._write_weight_file self w
  = (mk_world (fs w) (stdout w ++ [overwrite_notice name]) (calls w),
     inl (py.OSError "Is a directory")).
Proof.
  intros Hname Hfile Hreuse. unfold Regridder._write_weight_file.
  rewrite Hname, Hreuse.
  unfold mbind, M_bind, attr, os_path_exists. cbn -[py.format].
  rewrite (path_exists_Some _ _ _ Hfile), format_overwrite.
  unfold lift, print, os_remove, os.remove. simpl. rewrite Hfile. simpl.
  unfold overwrite_notice. by rewrite !str_app_assoc.
Qed.

Lemma build_calls_snoc (w : world) (c : call) (rest : list call) f o :
  is_build c = true → Forall (λ c, is_build c = false) rest →
  build_calls (mk_world f o (calls w ++ [c] ++ rest)) = build_calls w ++ [c].
Proof.
  intros Hc Hrest. unfold build_calls. simpl.
  rewrite filter_app, filter_cons_True by done. do 2 f_equal.
  induction Hrest as [|x l Hx _ IH]; [done|].
  rewrite filter_cons_False; [done|]. by rewrite Hx.
Qed.

(** Property X9. [_write_weight_file] asks for the weight generation once
    when nothing is at the path, or when a file is there and
    [reuse_weights] is off; it asks for none when the file is reused or when
    the path is a directory (removing it fails first). This holds whether
    the generation succeeds or fails. *)
Theorem write_weight_file_builds_unless_reused (self : Regridder.t)
    (w : world) (name : string) :
  Regridder.filename self = Some name →
  build_calls (Regridder._write_weight_file self w).1
  = build_calls w ++ expected_builds self name (fs w !! name).
Proof.
  intros Hname. unfold expected_builds.
  destruct (fs w !! name) as [[content|]|] eqn:Hfile.
  - destruct (Regridder.reuse_weights self) eqn:Hreuse.
    + rewrite (write_weight_file_reuse self w name) by (done || by rewrite Hfile).
      by rewrite app_nil_r.
    + rewrite (write_weight_file_overwrite self w name content) by done.
      destruct (esmf_regrid_build _ _ _ _ _) as [fs' [e|regrid]]; simpl;
        apply build_calls_snoc; by repeat constructor.
  - destruct (Regridder.reuse_weights self) eqn:Hreuse.
    + rewrite (write_weight_file_reuse self w name) by (done || by rewrite Hfile).
      by rewrite app_nil_r.
    + rewrite (write_weight_file_blocked self w name) by done.
      by rewrite app_nil_r.
  - rewrite (write_weight_file_create self w name) by done.
    destruct (esmf_regrid_build _ _ _ _ _) as [fs' [e|regrid]]; simpl;
      apply build_calls_snoc; by repeat constructor.
Qed.

(** Property X10. If the weight generation fails, [_write_weight_file]
    raises the same exception after that one call was logged, and the file
    system is as the generation left it, the earlier file having been
    removed before the generation started. *)
Theorem build_failure_propagates (self : Regridder.t) (w : world)
    (name : string) (fs' : os.filesystem) (e : py.exn) :
  Regridder.filename self = Some name →
  fs w !! name ≠ Some os.Directory →
  (is_Some (fs w !! name) → Regridder.reuse_weights self = false) →
  esmf_regrid_build (Regridder._grid_in self) (Regridder._grid_out self)
    (Regridder.method self) name (delete name (fs w)) = (fs', inl e) →
  ∃ w',
    Regridder._write_weight_file self w = (w', inl e)
    ∧ fs w' = fs'
    ∧ calls w' = calls w ++ [build_call self name].
Proof.
  intros Hname Hdir Hreuse Hbuild.
  destruct (fs w !! name) as [[content|]|] eqn:Hfile; [|done|].
  - rewrite (write_weight_file_overwrite self w name content) by eauto.
    rewrite Hbuild. eexists. split; [reflexivity|]. by simpl.
  - rewrite delete_id in Hbuild by done.
    rewrite (write_weight_file_create self w name) by done.
    rewrite Hbuild. eexists. split; [reflexivity|]. by simpl.
Qed.

End lifecycle_more.

Section construction_more.
Context `{Collaborators}.

Lemma resolve_names_inr ds boundary lat lon (w w' : world) lat_name lon_name :
  Regridder.resolve_names ds boundary lat lon w = (w', inr (lat_name, lon_name)) →
  w' = w ∧ ¬ (lat_name = None ∧ lon_name = None).
Proof.
  unfold Regridder.resolve_names.
  destruct (bool_decide (lat = None) && bool_decide (lon = None)) eqn:Hnone.
  - intros ([first second] & w0 & [-> _]%get_latlon_name_inr & Hret)%bind_inr.
    injection Hret as <- <- <-. split; [done|]. by intros [? _].
  - intros [= <- <- <-]. split; [done|]. intros [-> ->]. done.
Qed.

Lemma record_dims_still ds_out lat_name_out lon_name_out lon_out :
  keeps (flip eq) (record_dims ds_out lat_name_out lon_name_out lon_out).
Proof.
  unfold record_dims.
  repeat first
    [ apply keeps_ret; apply _
    | apply keeps_lift; apply _
    | apply keeps_try_except; [apply _| |]
    | apply keeps_bind; [apply _| |intros ?]
    | case_match ].
Qed.

Lemma record_dims_run ds_out lat_name_out lon_name_out lon_out (w w' : world) r :
  record_dims ds_out lat_name_out lon_name_out lon_out w = (w', r) → w' = w.
Proof.
  intros Hrun.
  exact (keeps_run (flip eq) _ _ _ _ (record_dims_still _ _ _ _) Hrun).
Qed.

(** A construction that returns: the attributes it records and the steps
    that produced them. *)
Lemma init_record ds_in ds_out method periodic filename reuse_weights
    lat_in lon_in lat_b_in lon_b_in lat_out lon_out lat_b_out lon_b_out
    (w w' : world) (self : Regridder.t) :
  Regridder.__init__ ds_in ds_out method periodic filename reuse_weights
    lat_in lon_in lat_b_in lon_b_in lat_out lon_out lat_b_out lon_b_out w
  = (w', inr self) →
  ∃ lat_name_in lon_name_in lat_b_name_in lon_b_name_in
    lat_name_out lon_name_out lat_b_name_out lon_b_name_out
    grid_in grid_out Ny_in Nx_in Ny_out Nx_out lon_out_arr lat_out_arr
    lon_dim lat_dim horiz_dims name weights (w2 w3 w4 : world),
    let need_bounds := bool_decide (method = "conservative") in
    let periodic' := if decide (method = "conservative") then false else periodic in
    ¬ (lat_name_in = None ∧ lon_name_in = None)
    ∧ ¬ (lat_name_out = None ∧ lon_name_out = None)
    ∧ ds_to_ESMFgrid ds_in need_bounds lat_name_in lon_name_in
        lat_b_name_in lon_b_name_in (Some periodic') w
      = (w2, inr (grid_in, [Ny_in; Nx_in]))
    ∧ ds_to_ESMFgrid ds_out need_bounds lat_name_out lon_name_out
        lat_b_name_out lon_b_name_out None w2
      = (w3, inr (grid_out, [Ny_out; Nx_out]))
    ∧ asarray <$> getitem ds_out lon_name_out = inr lon_out_arr
    ∧ asarray <$> getitem ds_out lat_name_out = inr lat_out_arr
    ∧ record_dims ds_out lat_name_out lon_name_out lon_out_arr w3
      = (w3, inr (lon_dim, lat_dim, horiz_dims))
    ∧ Regridder._write_weight_file
        (Regridder.mk need_bounds method periodic' reuse_weights
           lat_name_in lon_name_in lat_b_name_in lon_b_name_in
           lat_name_out lon_name_out lat_b_name_out lon_b_name_out
           grid_in grid_out lon_out_arr lat_out_arr lon_dim lat_dim horiz_dims
           Ny_in Nx_in Ny_out Nx_out (Ny_in * Nx_in) (Ny_out * Nx_out)
           (Some name) None) w3
      = (w4, inr ())
    ∧ read_weights name (Ny_in * Nx_in) (Ny_out * Nx_out) (fs w4) = inr weights
    ∧ w' = mk_world (fs w4) (stdout w4)
             (calls w4 ++ [call_read_weights name (Ny_in * Nx_in) (Ny_out * Nx_out)])
    ∧ self = Regridder.mk need_bounds method periodic' reuse_weights
               lat_name_in lon_name_in lat_b_name_in lon_b_name_in
               lat_name_out lon_name_out lat_b_name_out lon_b_name_out
               grid_in grid_out lon_out_arr lat_out_arr lon_dim lat_dim horiz_dims
               Ny_in Nx_in Ny_out Nx_out (Ny_in * Nx_in) (Ny_out * Nx_out)
               (Some name) (Some weights).
Proof.
  unfold Regridder.__init__. intros Hrun.
  destruct (decide (method = "conservative")) as [Hm|Hm];
    [rewrite (bool_decide_eq_true_2 _ Hm)|rewrite (bool_decide_eq_false_2 _ Hm)].
  all: apply bind_inr in Hrun as ([lat_name_in lon_name_in] & ? & Ha & Hrun);
    apply resolve_names_inr in Ha as [-> Hin];
    apply bind_inr in Hrun as ([lat_b_name_in lon_b_name_in] & ? & Hb & Hrun);
    apply resolve_names_inr in Hb as [-> _];
    apply bind_inr in Hrun as ([lat_name_out lon_name_out] & ? & Hc & Hrun);
    apply resolve_names_inr in Hc as [-> Hout];
    apply bind_inr in Hrun as ([lat_b_name_out lon_b_name_out] & ? & Hd & Hrun);
    apply resolve_names_inr in Hd as [-> _];
    apply bind_inr in Hrun as ([grid_in shape_in] & w2 & Hgin & Hrun);
    apply bind_inr in Hrun as ([grid_out shape_out] & w3 & Hgout & Hrun);
    apply bind_inr in Hrun as (lon_out_arr & ? & [-> Hlon]%lift_inr & Hrun);
    apply bind_inr in Hrun as (lat_out_arr & ? & [-> Hlat]%lift_inr & Hrun);
    apply bind_inr in Hrun as ([[lon_dim lat_dim] horiz_dims] & wd & Hdims & Hrun);
    change (record_dims ds_out lat_name_out lon_name_out lon_out_arr w3
            = (wd, inr (lon_dim, lat_dim, horiz_dims))) in Hdims;
    pose proof (record_dims_run _ _ _ _ _ _ _ Hdims) as ->;
    apply bind_inr in Hrun as ([Ny_in Nx_in] & ? & [-> Hsin]%lift_inr & Hrun);
    apply bind_inr in Hrun as ([Ny_out Nx_out] & ? & [-> Hsout]%lift_inr & Hrun);
    apply bind_inr in Hrun as (name & wn & Hname & Hrun);
    assert (wn = w3) as -> by
      (destruct filename; cbv [mret M_ret lift] in Hname; congruence);
    apply bind_inr in Hrun as ([] & w4 & Hwrite & Hrun);
    apply bind_inr in Hrun as (weights & w5 & Hread & Hrun);
    unfold invoke_read in Hread; injection Hread as <- Hread;
    injection Hrun as <- <-;
    assert (shape_in = [Ny_in; Nx_in]) as -> by
      (destruct shape_in as [|? [|? [|]]]; simplify_eq/=; done);
    assert (shape_out = [Ny_out; Nx_out]) as -> by
      (destruct shape_out as [|? [|? [|]]]; simplify_eq/=; done);
    exists lat_name_in, lon_name_in, lat_b_name_in, lon_b_name_in,
      lat_name_out, lon_name_out, lat_b_name_out, lon_b_name_out,
      grid_in, grid_out, Ny_in, Nx_in, Ny_out, Nx_out, lon_out_arr, lat_out_arr,
      lon_dim, lat_dim, horiz_dims, name, weights, w2, w3, w4;
    cbv zeta; split_and!; done.
Qed.
End construction_more.

Section constructed.
Context `{Collaborators}.
#[local] Existing Instances same_calls_refl same_calls_trans.

Ltac keeps_same :=
  repeat first
    [ apply keeps_ret; apply _
    | apply keeps_raise; apply _
    | apply keeps_lift; apply _
    | apply keeps_attr; apply _
    | apply keeps_print_same
    | apply keeps_exists_same
    | apply keeps_remove_same
    | apply keeps_invoke_same; reflexivity
    | apply keeps_invoke_fs_same; reflexivity
    | apply keeps_invoke_read_same; reflexivity
    | apply keeps_try_except; [apply _| |]
    | apply keeps_bind; [apply _| |intros ?]
    | case_match ].

Lemma ds_to_ESMFgrid_reads_nothing ds need_bounds lat lon lat_b lon_b periodic :
  keeps (same_calls is_read)
    (ds_to_ESMFgrid ds need_bounds lat lon lat_b lon_b periodic).
Proof. unfold ds_to_ESMFgrid. keeps_same. Qed.

Lemma write_weight_file_reads_nothing (self : Regridder.t) :
  keeps (same_calls is_read) (Regridder._write_weight_file self).
Proof. unfold Regridder._write_weight_file. keeps_same. Qed.

Lemma write_weight_file_builds_no_grid (self : Regridder.t) :
  keeps (same_calls is_esmf_grid) (Regridder._write_weight_file self).
Proof. unfold Regridder._write_weight_file. keeps_same. Qed.

(** Property X11. When the construction returns, the regridder has a file
    name and a weight matrix; [N_in] and [N_out] are the products of the
    grid shapes; the last call made is the read of the weights from that
    file with these sizes, it is the only read of the construction, and the
    matrix is what that read returns on the final file system. *)
Theorem constructed_weights_are_read_once ds_in ds_out method periodic
    filename reuse_weights lat_in lon_in lat_b_in lon_b_in
    lat_out lon_out lat_b_out lon_b_out (w w' : world) (self : Regridder.t) :
  Regridder.__init__ ds_in ds_out method periodic filename reuse_weights
    lat_in lon_in lat_b_in lon_b_in lat_out lon_out lat_b_out lon_b_out w
  = (w', inr self) →
  ∃ name weights earlier,
    Regridder.filename self = Some name
    ∧ Regridder.A self = Some weights
    ∧ Regridder.N_in self = Regridder.Ny_in self * Regridder.Nx_in self
    ∧ Regridder.N_out self = Regridder.Ny_out self * Regridder.Nx_out self
    ∧ calls w'
      = earlier ++ [call_read_weights name (Regridder.N_in self) (Regridder.N_out self)]
    ∧ filter (λ c, is_read c = true) (calls w')
      = filter (λ c, is_read c = true) (calls w)
          ++ [call_read_weights name (Regridder.N_in self) (Regridder.N_out self)]
    ∧ read_weights name (Regridder.N_in self) (Regridder.N_out self) (fs w')
      = inr weights.
Proof.
  intros (lat_name_in & lon_name_in & lat_b_name_in & lon_b_name_in
          & lat_name_out & lon_name_out & lat_b_name_out & lon_b_name_out
          & grid_in & grid_out & Ny_in & Nx_in & Ny_out & Nx_out
          & lon_out_arr & lat_out_arr & lon_dim & lat_dim & horiz_dims
          & name & weights & w2 & w3 & w4 & Hrec)%init_record.
  cbv zeta in Hrec.
  destruct Hrec as (_ & _ & Hgin & Hgout & _ & _ & _ & Hwrite & Hread & -> & ->).
  exists name, weights, (calls w4). cbn.
  split_and!; try done.
  apply (keeps_run (same_calls is_read)) in Hgin; [|apply ds_to_ESMFgrid_reads_nothing].
  apply (keeps_run (same_calls is_read)) in Hgout; [|apply ds_to_ESMFgrid_reads_nothing].
  apply (keeps_run (same_calls is_read)) in Hwrite; [|apply write_weight_file_reads_nothing].
  unfold same_calls in *.
  rewrite filter_app, filter_cons_True, filter_nil by done.
  by rewrite Hwrite, Hgout, Hgin.
Qed.

Lemma grid_calls_of_builder ds need_bounds lat lon lat_b lon_b periodic
    (w w' : world) (grid : Grid) (shape : list nat) :
  ds_to_ESMFgrid ds need_bounds lat lon lat_b lon_b periodic w
  = (w', inr (grid, shape)) →
  ∃ lonT latT,
    np.shape lonT = reverse shape ∧ np.shape latT = reverse shape
    ∧ filter (λ c, is_esmf_grid c = true) (calls w')
      = filter (λ c, is_esmf_grid c = true) (calls w)
          ++ [call_esmf_grid lonT latT periodic].
Proof.
  intros (lat_name & lon_name & lon_arr & lat_arr & lon2d & lat2d & grid0
          & _ & _ & _ & Hmesh & _ & -> & _ & _ & Hcalls)%ds_to_ESMFgrid_returns.
  apply as_2d_mesh_inr in Hmesh as (_ & Hsame & _).
  exists (np.T lon2d), (np.T lat2d).
  split; [done|]. split; [by rewrite shape_T, Hsame|].
  destruct need_bounds.
  - destruct Hcalls as (lon_bT & lat_bT & _ & ->).
    rewrite filter_app, filter_cons_True, filter_cons_False, filter_nil by done.
    done.
  - destruct Hcalls as [_ ->].
    by rewrite filter_app, filter_cons_True, filter_nil.
Qed.

(** Property X17. When the construction returns, exactly two grids were
    built, in this order: the source grid with the effective periodic flag
    of the regridder, then the destination grid with no periodic flag; each
    from arrays of the transposed grid shape. *)
Theorem construction_builds_two_grids ds_in ds_out method periodic
    filename reuse_weights lat_in lon_in lat_b_in lon_b_in
    lat_out lon_out lat_b_out lon_b_out (w w' : world) (self : Regridder.t) :
  Regridder.__init__ ds_in ds_out method periodic filename reuse_weights
    lat_in lon_in lat_b_in lon_b_in lat_out lon_out lat_b_out lon_b_out w
  = (w', inr self) →
  ∃ lonT_in latT_in lonT_out latT_out,
    np.shape lonT_in = [Regridder.Nx_in self; Regridder.Ny_in self]
    ∧ np.shape latT_in = [Regridder.Nx_in self; Regridder.Ny_in self]
    ∧ np.shape lonT_out = [Regridder.Nx_out self; Regridder.Ny_out self]
    ∧ np.shape latT_out = [Regridder.Nx_out self; Regridder.Ny_out self]
    ∧ filter (λ c, is_esmf_grid c = true) (calls w')
      = filter (λ c, is_esmf_grid c = true) (calls w)
          ++ [call_esmf_grid lonT_in latT_in (Some (Regridder.periodic self));
              call_esmf_grid lonT_out latT_out None].
Proof.
  intros (lat_name_in & lon_name_in & lat_b_name_in & lon_b_name_in
          & lat_name_out & lon_name_out & lat_b_name_out & lon_b_name_out
          & grid_in & grid_out & Ny_in & Nx_in & Ny_out & Nx_out
          & lon_out_arr & lat_out_arr & lon_dim & lat_dim & horiz_dims
          & name & weights & w2 & w3 & w4 & Hrec)%init_record.
  cbv zeta in Hrec.
  destruct Hrec as (_ & _ & Hgin & Hgout & _ & _ & _ & Hwrite & Hread & -> & ->).
  apply grid_calls_of_builder in Hgin as (lonT_in & latT_in & Hs1 & Hs2 & Hc1).
  apply grid_calls_of_builder in Hgout as (lonT_out & latT_out & Hs3 & Hs4 & Hc2).
  apply (keeps_run (same_calls is_esmf_grid)) in Hwrite;
    [|apply write_weight_file_builds_no_grid].
  exists lonT_in, latT_in, lonT_out, latT_out. cbn.
  split_and!; try done.
  unfold same_calls in Hwrite.
  rewrite filter_app, filter_cons_False, filter_nil, app_nil_r by done.
  by rewrite Hwrite, Hc2, Hc1, <- app_assoc.
Qed.
End constructed.

Section recorded.
Context `{Collaborators}.

Lemma fmap_asarray_inr (r : py.result entry) (a : np.ndarray) :
  asarray <$> r = inr a → ∃ e, r = inr e ∧ a = asarray e.
Proof. destruct r as [?|e]; [done|]. intros [= <-]. by exists e. Qed.

(** What the statements that record the dimension names leave, by what
    [.dims] gives on the two destination coordinates. *)
Lemma record_dims_inr (ds_out : GridDescription)
    (lat_name lon_name : option string) (elon elat : entry)
    (w w' : world) (lon_dim lat_dim horiz : option py.value) :
  getitem ds_out lon_name = inr elon →
  getitem ds_out lat_name = inr elat →
  np.ndim (asarray elon) = 2 ∨ np.ndim (asarray elon) = 1 →
  record_dims ds_out lat_name lon_name (asarray elon) w
  = (w', inr (lon_dim, lat_dim, horiz)) →
  if decide (np.ndim (asarray elon) = 2) then
    ∃ d,
      d = match dims_of elon with
          | inr dims => dims
          | inl _ => py.Tuple [py.Str "y"; py.Str "x"]
          end
      ∧ lon_dim = Some d ∧ lat_dim = Some d ∧ horiz = Some d
  else
    match dims_of elon, dims_of elat with
    | inr dlon, inr dlat =>
        lon_dim = Some dlon ∧ lat_dim = Some dlat
        ∧ horiz = Some (py.Tuple [dlat; dlon])
    | _, _ =>
        lon_dim = Some (py.of_name lon_name)
        ∧ lat_dim = Some (py.of_name lat_name)
        ∧ horiz = Some (py.Tuple [py.of_name lat_name; py.of_name lon_name])
    end.
Proof.
  intros Hlon Hlat Hrank. unfold record_dims. rewrite Hlon, Hlat.
  destruct (decide (np.ndim (asarray elon) = 2)) as [H2|H2].
  - unfold try_except, lift, mbind, M_bind, mret, M_ret. simpl.
    destruct (dims_of elon) as [e|d]; simpl;
      intros [= <- <- <- <-]; by eexists.
  - destruct Hrank as [?|H1]; [done|]. rewrite decide_True by done.
    unfold try_except, lift, mbind, M_bind, mret, M_ret. simpl.
    destruct (dims_of elon) as [e|dlon]; simpl;
      [by intros [= <- <- <- <-]|].
    destruct (dims_of elat) as [e|dlat]; simpl; by intros [= <- <- <- <-].
Qed.

(** The destination coordinates a returning construction has read, and the
    dimension names it has recorded for them. *)
Lemma init_destination ds_in ds_out method periodic
    filename reuse_weights lat_in lon_in lat_b_in lon_b_in
    lat_out lon_out lat_b_out lon_b_out (w w' : world) (self : Regridder.t) :
  Regridder.__init__ ds_in ds_out method periodic filename reuse_weights
    lat_in lon_in lat_b_in lon_b_in lat_out lon_out lat_b_out lon_b_out w
  = (w', inr self) →
  ∃ elon elat,
    getitem ds_out (Regridder.lon_name_out self) = inr elon
    ∧ getitem ds_out (Regridder.lat_name_out self) = inr elat
    ∧ Regridder._lon_out self = asarray elon
    ∧ Regridder._lat_out self = asarray elat
    ∧ (np.ndim (asarray elon) = 2 ∨ np.ndim (asarray elon) = 1)
    ∧ np.ndim (asarray elat) = np.ndim (asarray elon)
    ∧ if decide (np.ndim (asarray elon) = 2) then
        ∃ d,
          d = match dims_of elon with
              | inr dims => dims
              | inl _ => py.Tuple [py.Str "y"; py.Str "x"]
              end
          ∧ Regridder.lon_dim self = Some d
          ∧ Regridder.lat_dim self = Some d
          ∧ Regridder.horiz_dims self = Some d
      else
        match dims_of elon, dims_of elat with
        | inr dlon, inr dlat =>
            Regridder.lon_dim self = Some dlon
            ∧ Regridder.lat_dim self = Some dlat
            ∧ Regridder.horiz_dims self = Some (py.Tuple [dlat; dlon])
        | _, _ =>
            Regridder.lon_dim self
            = Some (py.of_name (Regridder.lon_name_out self))
            ∧ Regridder.lat_dim self
              = Some (py.of_name (Regridder.lat_name_out self))
            ∧ Regridder.horiz_dims self
              = Some (py.Tuple [py.of_name (Regridder.lat_name_out self);
                                py.of_name (Regridder.lon_name_out self)])
        end.
Proof.
  intros (lat_name_in & lon_name_in & lat_b_name_in & lon_b_name_in
          & lat_name_out & lon_name_out & lat_b_name_out & lon_b_name_out
          & grid_in & grid_out & Ny_in & Nx_in & Ny_out & Nx_out
          & lon_out_arr & lat_out_arr & lon_dim & lat_dim & horiz_dims
          & name & weights & w2 & w3 & w4 & Hrec)%init_record.
  cbv zeta in Hrec.
  destruct Hrec as (_ & Hout & _ & Hgout & Hlon & Hlat & Hdims & _ & _ & _ & ->).
  cbn.
  apply ds_to_ESMFgrid_returns in Hgout
    as (lat_name & lon_name & lon_arr & lat_arr & lon2d & lat2d & grid0
        & Hnames & Hlon' & Hlat' & Hmesh & _).
  assert (lat_name = lat_name_out ∧ lon_name = lon_name_out) as [-> ->].
  { destruct lat_name_out, lon_name_out; simpl in Hnames; first [done|by destruct Hout]. }
  rewrite Hlon in Hlon'. injection Hlon' as <-.
  rewrite Hlat in Hlat'. injection Hlat' as <-.
  apply as_2d_mesh_inr in Hmesh as (_ & _ & Hrank).
  apply fmap_asarray_inr in Hlon as (elon & Hlon & ->).
  apply fmap_asarray_inr in Hlat as (elat & Hlat & ->).
  assert (np.ndim (asarray elon) = 2 ∨ np.ndim (asarray elon) = 1) as Hlonrank
    by (destruct Hrank as [(? & _)|(? & _)]; auto).
  exists elon, elat. split_and!; try done.
  - destruct Hrank as [(-> & -> & _)|(-> & -> & _)]; done.
  - by eapply record_dims_inr.
Qed.

(** Property X12. When the construction returns, the destination longitude
    and latitude arrays are what [ds_out] holds under the recorded names,
    and are both 2-D or both 1-D, so the dimension names are always
    assigned. In the 2-D case [lon_dim], [lat_dim] and [horiz_dims] are all
    the [.dims] of the longitude, or [('y', 'x')] if it has none (a plain
    array). In the 1-D case, if both coordinates have [.dims], [lon_dim]
    and [lat_dim] are these tuples; if either has none, they are the two
    coordinate names; [horiz_dims] is the pair [(lat_dim, lon_dim)]. *)
Theorem constructed_dimension_names ds_in ds_out method periodic
    filename reuse_weights lat_in lon_in lat_b_in lon_b_in
    lat_out lon_out lat_b_out lon_b_out (w w' : world) (self : Regridder.t) :
  Regridder.__init__ ds_in ds_out method periodic filename reuse_weights
    lat_in lon_in lat_b_in lon_b_in lat_out lon_out lat_b_out lon_b_out w
  = (w', inr self) →
  ∃ elon elat,
    getitem ds_out (Regridder.lon_name_out self) = inr elon
    ∧ getitem ds_out (Regridder.lat_name_out self) = inr elat
    ∧ Regridder._lon_out self = asarray elon
    ∧ Regridder._lat_out self = asarray elat
    ∧ (np.ndim (asarray elon) = 2 ∨ np.ndim (asarray elon) = 1)
    ∧ np.ndim (asarray elat) = np.ndim (asarray elon)
    ∧ if decide (np.ndim (asarray elon) = 2) then
        ∃ d,
          d = match dims_of elon with
              | inr dims => dims
              | inl _ => py.Tuple [py.Str "y"; py.Str "x"]
              end
          ∧ Regridder.lon_dim self = Some d
          ∧ Regridder.lat_dim self = Some d
          ∧ Regridder.horiz_dims self = Some d
      else
        match dims_of elon, dims_of elat with
        | inr dlon, inr dlat =>
            Regridder.lon_dim self = Some dlon
            ∧ Regridder.lat_dim self = Some dlat
            ∧ Regridder.horiz_dims self = Some (py.Tuple [dlat; dlon])
        | _, _ =>
            Regridder.lon_dim self
            = Some (py.of_name (Regridder.lon_name_out self))
            ∧ Regridder.lat_dim self
              = Some (py.of_name (Regridder.lat_name_out self))
            ∧ Regridder.horiz_dims self
              = Some (py.Tuple [py.of_name (Regridder.lat_name_out self);
                                py.of_name (Regridder.lon_name_out self)])
        end.
Proof. apply init_destination. Qed.

(** Property X13. When the construction returns, [(Ny_in, Nx_in)] is the
    shape of the mesh of the source coordinates under the recorded names,
    [(Ny_out, Nx_out)] is the shape of the mesh of the recorded destination
    arrays, which are the destination coordinates under the recorded names;
    [need_bounds] is on exactly for the method [conservative], and the
    method and [reuse_weights] are recorded as given. *)
Theorem constructed_shapes_are_mesh_shapes ds_in ds_out method periodic
    filename reuse_weights lat_in lon_in lat_b_in lon_b_in
    lat_out lon_out lat_b_out lon_b_out (w w' : world) (self : Regridder.t) :
  Regridder.__init__ ds_in ds_out method periodic filename reuse_weights
    lat_in lon_in lat_b_in lon_b_in lat_out lon_out lat_b_out lon_b_out w
  = (w', inr self) →
  (∃ lon lat lon2d lat2d,
     asarray <$> getitem ds_in (Regridder.lon_name_in self) = inr lon
     ∧ asarray <$> getitem ds_in (Regridder.lat_name_in self) = inr lat
     ∧ as_2d_mesh lon lat = inr (lon2d, lat2d)
     ∧ np.shape lon2d = [Regridder.Ny_in self; Regridder.Nx_in self])
  ∧ (∃ lon2d lat2d,
       asarray <$> getitem ds_out (Regridder.lon_name_out self)
       = inr (Regridder._lon_out self)
       ∧ asarray <$> getitem ds_out (Regridder.lat_name_out self)
         = inr (Regridder._lat_out self)
       ∧ as_2d_mesh (Regridder._lon_out self) (Regridder._lat_out self)
         = inr (lon2d, lat2d)
       ∧ np.shape lon2d = [Regridder.Ny_out self; Regridder.Nx_out self])
  ∧ Regridder.need_bounds self = bool_decide (method = "conservative")
  ∧ Regridder.method self = method
  ∧ Regridder.reuse_weights self = reuse_weights.
Proof.
  intros (lat_name_in & lon_name_in & lat_b_name_in & lon_b_name_in
          & lat_name_out & lon_name_out & lat_b_name_out & lon_b_name_out
          & grid_in & grid_out & Ny_in & Nx_in & Ny_out & Nx_out
          & lon_out_arr & lat_out_arr & lon_dim & lat_dim & horiz_dims
          & name & weights & w2 & w3 & w4 & Hrec)%init_record.
  cbv zeta in Hrec.
  destruct Hrec as (Hin & Hout & Hgin & Hgout & Hlon & Hlat & _ & _ & _ & _ & ->).
  cbn.
  apply ds_to_ESMFgrid_returns in Hgin
    as (lat_name & lon_name & lon_arr & lat_arr & lon2d & lat2d & grid0
        & Hnames & Hlon' & Hlat' & Hmesh & _ & Hshape & _).
  assert (lat_name = lat_name_in ∧ lon_name = lon_name_in) as [-> ->].
  { destruct lat_name_in, lon_name_in; simpl in Hnames; first [done|by destruct Hin]. }
  apply ds_to_ESMFgrid_returns in Hgout
    as (lat_name & lon_name & lon_arr' & lat_arr' & lon2d' & lat2d' & grid0'
        & Hnames' & Hlon'' & Hlat'' & Hmesh' & _ & Hshape' & _).
  assert (lat_name = lat_name_out ∧ lon_name = lon_name_out) as [-> ->].
  { destruct lat_name_out, lon_name_out; simpl in Hnames'; first [done|by destruct Hout]. }
  rewrite Hlon in Hlon''. injection Hlon'' as <-.
  rewrite Hlat in Hlat''. injection Hlat'' as <-.
  split; [by exists lon_arr, lat_arr, lon2d, lat2d|].
  split; [by exists lon2d', lat2d'|]. done.
Qed.
End recorded.

Section labeled_path.
Context `{Collaborators}.

Lemma attr_Some {X} (name : string) (x : X) (w : world) :
  attr name (Some x) w = (w, inr x).
Proof. done. Qed.

Lemma lift_returns {X} (r : py.result X) (x : X) (w : world) :
  r = inr x → lift r w = (w, inr x).
Proof. by intros ->. Qed.

Lemma lift_raises {X} (r : py.result X) (e : py.exn) (w : world) :
  r = inl e → lift r w = (w, inl e).
Proof. by intros ->. Qed.

(** Claim C7. For a destination dataset with 1-D coordinates the labeled
    path never gets to attach the destination coordinates: the horizontal
    dimensions recorded at construction are a pair of tuples (the [.dims]
    of the two coordinates, not the names in them), so the output array has
    no dimension of the name the destination longitudes lie on, and
    [regrid_dataarray] raises for every regridder so constructed and every
    labeled input none of whose leading dimensions has that name. *)
Theorem labeled_path_fails_on_rectilinear_dataset ds_in
    (vars : gmap string xr.variable) method periodic
    filename reuse_weights lat_in lon_in lat_b_in lon_b_in
    lat_out lon_out lat_b_out lon_b_out (w w' w0 : world)
    (self : Regridder.t) (dr_in : xr.DataArray) :
  Regridder.__init__ ds_in (Dataset vars) method periodic filename reuse_weights
    lat_in lon_in lat_b_in lon_b_in lat_out lon_out lat_b_out lon_b_out w
  = (w', inr self) →
  np.ndim (Regridder._lon_out self) = 1 →
  (∀ d, Regridder.lon_dim self = Some (py.Tuple [d]) →
        d ∉ py.but_last_two (xr.dims dr_in)) →
  (∃ dlat dlon,
     Regridder.lat_dim self = Some (py.Tuple dlat)
     ∧ Regridder.lon_dim self = Some (py.Tuple dlon)
     ∧ Regridder.horiz_dims self = Some (py.Tuple [py.Tuple dlat; py.Tuple dlon]))
  ∧ ∃ w1 e, Regridder.regrid_dataarray self dr_in w0 = (w1, inl e).
Proof.
  intros (elon & elat & Hlon & Hlat & Hlon_out & Hlat_out & _ & _ & Hdims)%init_destination
    Hrank Hfree.
  apply getitem_dataset in Hlon as (vlon & ->).
  apply getitem_dataset in Hlat as (vlat & ->).
  rewrite Hlon_out in Hrank. rewrite decide_False in Hdims by lia.
  simpl in Hdims. destruct Hdims as (Hlon_dim & Hlat_dim & Hhoriz).
  split; [by eexists _, _|].
  unfold Regridder.regrid_dataarray.
  destruct (Regridder.regrid_numpy self (xr.values dr_in) w0)
    as [w1 [e|outdata]] eqn:Hnumpy.
  { rewrite (bind_inl _ _ _ _ _ Hnumpy). by eexists _, _. }
  rewrite (bind_step _ _ _ _ _ Hnumpy). cbv zeta.
  rewrite Hhoriz, (bind_step _ _ _ _ _ (attr_Some _ _ _)).
  cbn [Regridder.tuple_add].
  rewrite (bind_step _ _ _ _ _ (lift_returns _ _ _ eq_refl)).
  destruct (xr.DataArray_new outdata _ (xr.name dr_in)) as [e|dr0] eqn:Hdr0.
  { rewrite (bind_inl _ _ _ _ _ (lift_raises _ _ _ eq_refl)). by eexists _, _. }
  rewrite (bind_step _ _ _ _ _ (lift_returns _ _ _ eq_refl)).
  rewrite Hlon_dim, (bind_step _ _ _ _ _ (attr_Some _ _ _)).
  destruct (xr.DataArray_new (Regridder._lon_out self) _ py.None_)
    as [e|lon] eqn:Hnew.
  { rewrite (bind_inl _ _ _ _ _ (lift_raises _ _ _ eq_refl)). by eexists _, _. }
  rewrite (bind_step _ _ _ _ _ (lift_returns _ _ _ eq_refl)).
  apply DataArray_new_inr in Hdr0. simpl in Hdr0.
  unfold xr.DataArray_new in Hnew. cbv zeta in Hnew. simpl in Hnew.
  destruct (decide _) as [Hone|] in Hnew; [|done]. injection Hnew as <-.
  rewrite Hlon_out, Hrank, length_fmap in Hone.
  destruct (xr.var_dims vlon) as [|dname [|??]] eqn:Hvar; try done.
  destruct (new_dimension_is_refused dr0
              (xr.mk_DataArray (asarray (entry_DataArray vlon)) [py.Str dname]
                 py.None_ [] ∅)
              (py.of_name (Regridder.lon_name_out self)) (py.Str dname))
    as (e & Hset); try done.
  { by rewrite Hdr0. }
  { rewrite Hdr0. simpl. intros [Hin|Hin]%elem_of_app.
    - by apply (Hfree (py.Str dname)).
    - apply elem_of_cons in Hin as [?|Hin]; [done|].
      by apply list_elem_of_singleton in Hin. }
  rewrite Hlon_out. simpl fmap.
  rewrite (bind_inl _ _ _ _ _ (lift_raises _ _ _ Hset)). by eexists _, _.
Qed.
End labeled_path.

Section applying.
Context `{Collaborators}.

#[local] Instance applies_only_refl : Reflexive applies_only.
Proof.
  intros w. split; [done|]. split; [done|]. exists [].
  by rewrite app_nil_r.
Qed.
#[local] Instance applies_only_trans : Transitive applies_only.
Proof.
  intros w1 w2 w3 (Hf & Ho & l & Hc & Hl) (Hf' & Ho' & l' & Hc' & Hl').
  split; [congruence|]. split; [congruence|]. exists (l ++ l').
  split; [by rewrite Hc', Hc, app_assoc|by apply Forall_app].
Qed.

Lemma keeps_invoke_apply {X} (c : call) (r : py.result X) :
  is_apply c = true → keeps applies_only (invoke c r).
Proof.
  intros Hc w. split; [done|]. split; [done|]. exists [c].
  split; [done|]. by apply Forall_singleton.
Qed.

Lemma keeps_for_each {A S} (R : relation world) `{!Reflexive R, !Transitive R}
    (xs : list A) (body : S → A → M S) (s : S) :
  (∀ s x, keeps R (body s x)) → keeps R (for_each xs body s).
Proof.
  intros Hbody. revert s. induction xs as [|x xs IH]; intros s; simpl.
  - by apply keeps_ret.
  - apply keeps_bind; [done|apply Hbody|apply IH].
Qed.

Ltac keeps_apply :=
  repeat first
    [ apply keeps_ret; apply _
    | apply keeps_raise; apply _
    | apply keeps_lift; apply _
    | apply keeps_attr; apply _
    | apply keeps_invoke_apply; reflexivity
    | apply keeps_for_each; [apply _|apply _|intros ??]
    | apply keeps_bind; [apply _| |intros ?]
    | case_match ].

(** Property X15. Applying a regridder to any input, whether it returns or
    raises, leaves the file system and the output untouched, and logs
    nothing but applications of the weights. *)
Theorem applying_only_applies (self : Regridder.t) (a : array_like) (w : world) :
  applies_only w (Regridder.__call__ self a w).1.
Proof.
  revert w. change (keeps applies_only (Regridder.__call__ self a)).
  unfold Regridder.__call__, Regridder.regrid_dataarray, Regridder.regrid_numpy.
  keeps_apply.
Qed.

(** Property X14. When [regrid_dataarray] returns, its data is what
    [regrid_numpy] returns on the data of the input, with the same final
    world; the output keeps the name of the input, its only attribute is
    [regrid_method], and it has one dimension name per axis. *)
Theorem labeled_regrid_data (self : Regridder.t) (dr_in dr_out : xr.DataArray)
    (w w' : world) :
  Regridder.regrid_dataarray self dr_in w = (w', inr dr_out) →
  Regridder.regrid_numpy self (xr.values dr_in) w = (w', inr (xr.values dr_out))
  ∧ xr.name dr_out = xr.name dr_in
  ∧ xr.attrs dr_out = {[ "regrid_method" := Regridder.method self ]}
  ∧ length (xr.dims dr_out) = np.ndim (xr.values dr_out).
Proof.
  unfold Regridder.regrid_dataarray. intros Hrun.
  apply bind_inr in Hrun as (outdata & w1 & Hnumpy & Hrun).
  apply bind_inr in Hrun as (horiz_dims & ? & [-> Hhoriz]%attr_inr & Hrun).
  apply bind_inr in Hrun as (all_dims & ? & [-> Hall]%lift_inr & Hrun).
  apply bind_inr in Hrun as (dr0 & ? & [-> Hdr0]%lift_inr & Hrun).
  apply bind_inr in Hrun as (lon_dim & ? & [-> Hlon_dim]%attr_inr & Hrun).
  apply bind_inr in Hrun as (lon & ? & [-> Hlon]%lift_inr & Hrun).
  apply bind_inr in Hrun as (dr1 & ? & [-> Hdr1]%lift_inr & Hrun).
  apply bind_inr in Hrun as (lat_dim & ? & [-> Hlat_dim]%attr_inr & Hrun).
  apply bind_inr in Hrun as (lat & ? & [-> Hlat]%lift_inr & Hrun).
  apply bind_inr in Hrun as (dr2 & ? & [-> Hdr2]%lift_inr & Hrun).
  apply bind_inr in Hrun as (dr3 & w3 & Hloop & Hrun).
  injection Hrun as <- <-.
  pose proof Hdr0 as Hlen. unfold xr.DataArray_new in Hlen. cbv zeta in Hlen.
  destruct (decide _) as [Hlen'|] in Hlen; [|done]. clear Hlen.
  apply DataArray_new_inr in Hdr0.
  apply coords_setitem_inr in Hdr1 as (Hv1 & Hd1 & Hn1 & Ha1).
  apply coords_setitem_inr in Hdr2 as (Hv2 & Hd2 & Hn2 & Ha2).
  apply (copy_loop dr_in) in Hloop as (-> & Hvalues & Hdims & Hname & Hattrs).
  cbn [xr.coords xr.attrs xr.dims xr.values xr.name xr.attrs_setitem].
  rewrite Hvalues, Hname, Hattrs, Hdims, Hv2, Hn2, Ha2, Hd2, Hv1, Hn1, Ha1, Hd1.
  subst dr0. cbn [xr.coords xr.attrs xr.dims xr.values xr.name] in *.
  split_and!; try done.
Qed.
End applying.

Section dictionaries.
Context `{Collaborators}.

Lemma resolve_names_dict (items : gmap string entry) boundary (w : world) :
  Regridder.resolve_names (Dict items) boundary None None w
  = (w, inl (py.AttributeError "'dict' object has no attribute 'variables'")).
Proof.
  unfold Regridder.resolve_names. simpl.
  by rewrite (bind_inl _ _ _ _ _ (get_latlon_name_dict items boundary w)).
Qed.

Lemma resolve_names_given ds boundary (lat lon : option string) (w : world) :
  ¬ (lat = None ∧ lon = None) →
  Regridder.resolve_names ds boundary lat lon w = (w, inr (lat, lon)).
Proof. intros Hgiven. unfold Regridder.resolve_names. by destruct lat, lon; [..|destruct Hgiven]. Qed.

(** Property X18. For a source grid given as a dictionary, the
    construction raises [AttributeError] with the world unchanged as soon as
    the names of the cell centres, or the names of the boundaries, are both
    left out; this is so for every method, also those that need no
    boundaries. *)
Theorem dictionary_needs_explicit_names (items : gmap string entry)
    ds_out method periodic filename reuse_weights lat_in lon_in lat_b_in lon_b_in
    lat_out lon_out lat_b_out lon_b_out (w : world) :
  (lat_in = None ∧ lon_in = None) ∨ (lat_b_in = None ∧ lon_b_in = None) →
  Regridder.__init__ (Dict items) ds_out method periodic filename reuse_weights
    lat_in lon_in lat_b_in lon_b_in lat_out lon_out lat_b_out lon_b_out w
  = (w, inl (py.AttributeError "'dict' object has no attribute 'variables'")).
Proof.
  intros Hmissing. unfold Regridder.__init__.
  destruct (decide (method = "conservative")) as [Hm|Hm]; cbv beta iota zeta.
  all: destruct (decide (lat_in = None ∧ lon_in = None)) as [[-> ->]|Hgiven];
    [by rewrite (bind_inl _ _ _ _ _ (resolve_names_dict items false w))|].
  all: destruct Hmissing as [?|[-> ->]]; [done|].
  all: rewrite (bind_step _ _ _ _ _ (resolve_names_given _ false _ _ w Hgiven)).
  all: by rewrite (bind_inl _ _ _ _ _ (resolve_names_dict items true w)).
Qed.
End dictionaries.

Section closed_dict.
Import doubles.
#[local] Existing Instances doubles.Z_scalar doubles.fake.

(** A bilinear construction from a dictionary, with the names of the cell
    centres only. *)
Lemma dictionary_needs_explicit_names_witness :
  Regridder.__init__
    (Dict (list_to_map
       [("lat", entry_ndarray (vector 3)); ("lon", entry_ndarray (vector 4));
        ("lat_b", entry_ndarray (vector 4)); ("lon_b", entry_ndarray (vector 5))]))
    (rectilinear 2 2) "bilinear" false None false
    (Some "lat") (Some "lon") None None None None None None empty_world
  = (empty_world, inl (py.AttributeError "'dict' object has no attribute 'variables'")).
Proof.
  apply dictionary_needs_explicit_names. right. by split.
Defined.
End closed_dict.

Section closed_more.
Import doubles.
#[local] Existing Instances doubles.Z_scalar doubles.fake.

Ltac by_vm :=
  lazymatch goal with |- ?a = _ => vm_cast_no_check (@eq_refl _ a) end.

(** Four longitudes and three latitudes. *)
Lemma as_2d_mesh_returns_mesh_witness :
  ∃ lon2d lat2d,
    as_2d_mesh (vector 4) (vector 3) = inr (lon2d, lat2d)
    ∧ np.ndim lon2d = 2 ∧ np.shape lat2d = np.shape lon2d.
Proof.
  exists (np.meshgrid (vector 4) (vector 3)).1, (np.meshgrid (vector 4) (vector 3)).2.
  assert (as_2d_mesh (vector 4) (vector 3)
          = inr ((np.meshgrid (vector 4) (vector 3)).1,
                 (np.meshgrid (vector 4) (vector 3)).2)) as Hrun by by_vm.
  split; [exact Hrun|].
  destruct (as_2d_mesh_returns_mesh _ _ _ _ Hrun) as (Hndim & Hsame & _).
  by split.
Defined.

(** A 3x4 field against a 4x3 field, and a vector against a field. *)
Lemma as_2d_mesh_rejects_witness :
  as_2d_mesh (zeros [3; 4]) (zeros [4; 3])
  = inl (py.AssertionError "lon and lat should have same shape")
  ∧ as_2d_mesh (vector 4) (zeros [3; 4])
    = inl (py.ValueError "lon and lat should be both 1D or 2D").
Proof.
  split.
  - apply (proj1 (as_2d_mesh_rejects (zeros [3; 4]) (zeros [4; 3])));
      [reflexivity|reflexivity|].
    intros Heq. vm_compute in Heq. discriminate.
  - apply (proj2 (as_2d_mesh_rejects (vector 4) (zeros [3; 4])));
      intros Heq; vm_compute in Heq; discriminate.
Defined.

(** The boundary names of a rectilinear dataset. *)
Lemma get_latlon_name_returns_witness :
  get_latlon_name (rectilinear 3 4) true empty_world
  = (empty_world, inr ("lat_b", "lon_b"))
  ∧ (("lat_b", "lon_b") = coards_names true ∨ ("lat_b", "lon_b") = cf_names true).
Proof.
  assert (get_latlon_name (rectilinear 3 4) true empty_world
          = (empty_world, inr ("lat_b", "lon_b"))) as Hrun by by_vm.
  split; [exact Hrun|].
  exact (proj1 (proj2 (get_latlon_name_returns _ _ _ _ _ _ Hrun))).
Defined.

(** A dataset with latitudes only. *)
Lemma missing_longitude_is_a_KeyError_witness :
  ds_to_ESMFgrid lat_only false None None None None None empty_world
  = (empty_world, inl (py.KeyError (py.Str "lon"))).
Proof.
  exact (proj1 (proj2 (missing_longitude_is_a_KeyError
    (list_to_map [("lat", xr.mk_variable ["lat"] (vector 3))])
    (xr.mk_variable ["lat"] (vector 3)) false None None None empty_world
    ltac:(by_vm) ltac:(by_vm) ltac:(by_vm)))).
Defined.

#[local] Abbreviation unnamed :=
  (ds_to_ESMFgrid (centers_only 3 4) false None None None None None empty_world).
#[local] Abbreviation no_grid := ([] : list np.ndarray).

(** Three latitudes and four longitudes, without names. *)
Lemma ds_to_ESMFgrid_unnamed_is_swapped_witness :
  ∃ w' grid shape, unnamed = (w', inr (grid, shape)) ∧ shape = [4; 3].
Proof.
  assert (unnamed = (unnamed.1, inr ((returned (no_grid, []) unnamed.2).1,
                                      (returned (no_grid, []) unnamed.2).2)))
    as Hrun by by_vm.
  eexists _, _, _. split; [exact Hrun|].
  refine (proj1 (ds_to_ESMFgrid_unnamed_is_swapped
    (list_to_map
       [("lat", xr.mk_variable ["lat"] (np.array1d (arange 3)));
        ("lon", xr.mk_variable ["lon"] (np.array1d (arange 4)))])
    (xr.mk_variable ["lat"] (np.array1d (arange 3)))
    (xr.mk_variable ["lon"] (np.array1d (arange 4)))
    3 4 false None None None empty_world _ _ _
    ltac:(by_vm) ltac:(by_vm) ltac:(by_vm) ltac:(by_vm)) Hrun).
Defined.

#[local] Abbreviation with_corners :=
  (ds_to_ESMFgrid (rectilinear 3 4) true (Some "lat") (Some "lon")
     (Some "lat_b") (Some "lon_b") None empty_world).

(** A rectilinear dataset with its boundaries. *)
Lemma ds_to_ESMFgrid_effects_witness :
  ∃ w' grid shape,
    with_corners = (w', inr (grid, shape))
    ∧ fs w' = fs empty_world ∧ stdout w' = stdout empty_world ∧ length shape = 2.
Proof.
  assert (with_corners
          = (with_corners.1, inr ((returned (no_grid, []) with_corners.2).1,
                                   (returned (no_grid, []) with_corners.2).2)))
    as Hrun by by_vm.
  eexists _, _, _. split; [exact Hrun|].
  destruct (ds_to_ESMFgrid_effects _ _ _ _ _ _ _ _ _ _ _ Hrun)
    as (Hfs & Hout & Hlen & _).
  by split_and!.
Defined.

#[local] Abbreviation bilinear_run :=
  (Regridder.__init__ (rectilinear 3 4) (rectilinear 2 2) "bilinear" false
     None false None None None None None None None None empty_world).
#[local] Abbreviation some_regridder := bilinear_400x600_300x400.
#[local] Abbreviation built := (returned some_regridder bilinear_run.2).

(** A bilinear construction. *)
Lemma nonconservative_never_adds_corners_witness :
  same_calls is_add_corner empty_world bilinear_run.1.
Proof.
  apply (nonconservative_never_adds_corners (rectilinear 3 4) (rectilinear 2 2)
           "bilinear" false None false None None None None None None None None
           empty_world).
  discriminate.
Defined.

(** The weight file of a regridder, present in the world. *)
Lemma clean_weight_file_removes_only_the_weight_file_witness :
  ∃ w1,
    Regridder.clean_weight_file cached_regridder cached_world = (w1, inr ())
    ∧ fs w1 !! "bilinear_3x4_2x2.nc" = None
    ∧ calls w1 = calls cached_world.
Proof.
  destruct (clean_weight_file_removes_only_the_weight_file
              cached_regridder cached_world "bilinear_3x4_2x2.nc" eq_refl)
    as (w1 & Hrun & Hgone & _ & Hcalls & _).
  { intros Heq. vm_compute in Heq. discriminate. }
  by exists w1.
Defined.

(** A regridder that does not reuse, where the file exists. *)
Lemma write_weight_file_builds_unless_reused_witness :
  build_calls (Regridder._write_weight_file cached_regridder cached_world).1
  = build_calls cached_world
      ++ expected_builds cached_regridder "bilinear_3x4_2x2.nc"
           (fs cached_world !! "bilinear_3x4_2x2.nc").
Proof.
  exact (write_weight_file_builds_unless_reused cached_regridder cached_world
           "bilinear_3x4_2x2.nc" eq_refl).
Defined.

(** Weight generation that fails in an empty world. *)
Lemma build_failure_propagates_witness :
  ∃ w',
    @Regridder._write_weight_file Z_scalar refusing refused_regridder refusing_world
    = (w', inl (py.Foreign "ESMF_RC_MEM_ALLOCATE"))
    ∧ @fs Z_scalar refusing w' = ∅.
Proof.
  destruct (@build_failure_propagates Z_scalar refusing refused_regridder
              refusing_world "bilinear_3x4_2x2.nc" ∅
              (py.Foreign "ESMF_RC_MEM_ALLOCATE") eq_refl)
    as (w' & Hrun & Hfs & _).
  - intros Heq. vm_compute in Heq. discriminate.
  - intros [n Hn]. vm_compute in Hn. discriminate.
  - by_vm.
  - by exists w'.
Defined.


Lemma bilinear_run_returns : bilinear_run = (bilinear_run.1, inr built).
Proof. by_vm. Qed.

(** A bilinear construction between rectilinear grids. *)
Lemma constructed_weights_are_read_once_witness :
  ∃ name weights,
    bilinear_run = (bilinear_run.1, inr built)
    ∧ Regridder.filename built = Some name
    ∧ Regridder.A built = Some weights
    ∧ read_weights name (Regridder.N_in built) (Regridder.N_out built)
        (fs bilinear_run.1) = inr weights.
Proof.
  destruct (constructed_weights_are_read_once _ _ _ _ _ _ _ _ _ _ _ _ _ _ _ _ _
              bilinear_run_returns)
    as (name & weights & earlier & Hname & HA & _ & _ & _ & _ & Hread).
  exists name, weights. split; [exact bilinear_run_returns|]. by split_and!.
Defined.

Lemma construction_builds_two_grids_witness :
  ∃ lonT_in latT_in lonT_out latT_out,
    bilinear_run = (bilinear_run.1, inr built)
    ∧ filter (λ c, is_esmf_grid c = true) (calls bilinear_run.1)
      = filter (λ c, is_esmf_grid c = true) (calls empty_world)
          ++ [call_esmf_grid lonT_in latT_in (Some (Regridder.periodic built));
              call_esmf_grid lonT_out latT_out None].
Proof.
  destruct (construction_builds_two_grids _ _ _ _ _ _ _ _ _ _ _ _ _ _ _ _ _
              bilinear_run_returns)
    as (a & b & c & d & _ & _ & _ & _ & Hcalls).
  exists a, b, c, d. split; [exact bilinear_run_returns|exact Hcalls].
Defined.

(** A field with a leading dimension [time] on a regridder whose
    destination is a rectilinear dataset. *)
Lemma labeled_path_fails_on_rectilinear_dataset_witness :
  bilinear_run = (bilinear_run.1, inr built)
  ∧ Regridder.horiz_dims built
    = Some (py.Tuple [py.Tuple [py.Str "lat"]; py.Tuple [py.Str "lon"]])
  ∧ ∃ w1 e,
      Regridder.regrid_dataarray built (field "time" 5) bilinear_run.1 = (w1, inl e).
Proof.
  destruct (labeled_path_fails_on_rectilinear_dataset (rectilinear 3 4)
              (list_to_map
                 [("lat", xr.mk_variable ["lat"] (vector 2));
                  ("lon", xr.mk_variable ["lon"] (vector 2));
                  ("lat_b", xr.mk_variable ["lat_b"] (vector 3));
                  ("lon_b", xr.mk_variable ["lon_b"] (vector 3))])
              "bilinear" false None false None None None None None None None None
              empty_world bilinear_run.1 bilinear_run.1 built (field "time" 5)
              bilinear_run_returns)
    as (_ & w1 & e & Hrun).
  - by_vm.
  - intros d Hd Hin. vm_compute in Hd. injection Hd as <-.
    vm_compute in Hin. apply list_elem_of_singleton in Hin. discriminate.
  - split; [exact bilinear_run_returns|]. split; [by_vm|]. by exists w1, e.
Defined.

(** The same construction: both destination coordinates are 1-D. *)
Lemma constructed_dimension_names_witness :
  bilinear_run = (bilinear_run.1, inr built)
  ∧ ∃ elon elat,
      getitem (rectilinear 2 2) (Regridder.lon_name_out built) = inr elon
      ∧ getitem (rectilinear 2 2) (Regridder.lat_name_out built) = inr elat
      ∧ (np.ndim (asarray elon) = 2 ∨ np.ndim (asarray elon) = 1)
      ∧ np.ndim (asarray elat) = np.ndim (asarray elon).
Proof.
  destruct (constructed_dimension_names _ _ _ _ _ _ _ _ _ _ _ _ _ _ _ _ _
              bilinear_run_returns)
    as (elon & elat & Hlon & Hlat & _ & _ & Hrank & Hsame & _).
  split; [exact bilinear_run_returns|]. by exists elon, elat.
Defined.

Lemma constructed_shapes_are_mesh_shapes_witness :
  bilinear_run = (bilinear_run.1, inr built)
  ∧ ∃ lon2d lat2d,
      as_2d_mesh (Regridder._lon_out built) (Regridder._lat_out built)
      = inr (lon2d, lat2d)
      ∧ np.shape lon2d = [Regridder.Ny_out built; Regridder.Nx_out built].
Proof.
  destruct (constructed_shapes_are_mesh_shapes _ _ _ _ _ _ _ _ _ _ _ _ _ _ _ _ _
              bilinear_run_returns)
    as (_ & (lon2d & lat2d & _ & _ & Hmesh & Hshape) & _).
  split; [exact bilinear_run_returns|]. by exists lon2d, lat2d.
Defined.

#[local] Abbreviation onto_curvilinear :=
  (construct (rectilinear 3 4) (curvilinear 2 2) "bilinear").
#[local] Abbreviation regridded :=
  (Regridder.regrid_dataarray (returned some_regridder onto_curvilinear.2)
     (field "time" 5) onto_curvilinear.1).

(** A field with a leading dimension, regridded onto a curvilinear grid. *)
Lemma labeled_regrid_data_witness :
  ∃ w' dr_out,
    regridded = (w', inr dr_out)
    ∧ xr.name dr_out = xr.name (field "time" 5)
    ∧ xr.attrs dr_out
      = {[ "regrid_method"
           := Regridder.method (returned some_regridder onto_curvilinear.2) ]}.
Proof.
  assert (regridded = (regridded.1, inr (returned (field "time" 5) regridded.2)))
    as Hout by by_vm.
  destruct (labeled_regrid_data _ _ _ _ _ Hout) as (_ & Hname & Hattrs & _).
  eexists _, _. split; [exact Hout|]. by split.
Defined.
End closed_more.
